(** * Shoppy Sensay: the chat-send pipeline of [SensayService.sendChatMessage]

    A shallow embedding of the chat turn of the shopping assistant
    (sensay-service: [sendChatMessage]) and of the cart route
    [POST /cart/add] (src/server/routes.ts), with the properties the
    specification states about them.

    Conventions of the embedding.
    - JavaScript strings are [string]s (sequences of 8-bit characters);
      [toLowerCase] folds the ASCII letters, [length] counts characters.  The
      model is exact on ASCII text.
    - Prisma tables are lists of records, in insertion order; identifiers come
      from a counter of the database, time stamps from its clock.
    - The quantity read from a message is the double [parseInt] returns
      ([JsNumber]: the integer the double holds, or [Infinity]); the
      quantities the tables hold are integers ([Z]); prices and totals are
      rationals ([Q]), exact where the doubles of the source are exact.
    - The asynchronous method is a function of the database in a small
      state-and-exception monad; the remote services (the Sensay replica, the
      Shopify catalogue) and the failure of a message write are oracles of an
      environment record. *)

From Stdlib Require Import String Ascii List Bool Arith ZArith QArith Lia.
From Stdlib Require Import DecimalString DecimalZ Sorted.
Import ListNotations.

Local Close Scope Q_scope.
Local Open Scope nat_scope.
Local Open Scope list_scope.
Local Open Scope string_scope.
Local Open Scope bool_scope.

(** ** JavaScript strings *)

Module JsString.

Definition lowerAscii (c : ascii) : ascii :=
  let n := nat_of_ascii c in
  if (65 <=? n)%nat && (n <=? 90)%nat then ascii_of_nat (n + 32) else c.

(** [s.toLowerCase()] *)
Fixpoint toLowerCase (s : string) : string :=
  match s with
  | EmptyString => EmptyString
  | String c t => String (lowerAscii c) (toLowerCase t)
  end.

(** [s.includes(sub)] *)
Fixpoint includes (s sub : string) : bool :=
  String.prefix sub s ||
  match s with
  | EmptyString => false
  | String _ t => includes t sub
  end.

(** [indicators.some(i => message.toLowerCase().includes(i.toLowerCase()))] *)
Definition someIncluded (indicators : list string) (message : string) : bool :=
  existsb (fun indicator => includes (toLowerCase message) (toLowerCase indicator))
          indicators.

(** [xs.join(sep)] *)
Fixpoint join (sep : string) (xs : list string) : string :=
  match xs with
  | [] => EmptyString
  | [x] => x
  | x :: rest => x ++ sep ++ join sep rest
  end.

(** a truthy string is a non-empty one *)
Definition truthy (s : string) : bool :=
  match s with EmptyString => false | _ => true end.

Definition nl : string := String (ascii_of_nat 10) EmptyString.
Definition dquote : string := String (ascii_of_nat 34) EmptyString.

(** decimal rendering of an integer, as a template literal prints it *)
Definition showInt (z : Z) : string := NilZero.string_of_int (Z.to_int z).
Definition showNat (n : nat) : string := showInt (Z.of_nat n).

End JsString.
Import JsString.

(** ** Intent classification (lines 78-207 of the service) *)

Module Intent.

Definition specificSearchIndicators : list string :=
  [ "show me"; "tampilkan"; "cari yang"; "search for"; "find me";
    "dengan budget"; "with budget"; "harga"; "price range"; "under"; "di bawah";
    "beli sekarang"; "buy now"; "add to cart"; "tambah ke keranjang";
    "rekomendasi"; "recommend"; "suggest"; "pilihkan"; "i want to buy";
    "looking for with"; "need something with"; "budget of"; "around" ].

Definition hasSpecificIntent (message : string) : bool :=
  someIncluded specificSearchIndicators message.

Definition hasDetailedRequirements (message : string) : bool :=
  let m := toLowerCase message in
  (25 <? String.length message)%nat &&
  ( includes m "untuk" || includes m "for" || includes m "gaming"
    || includes m "photography" || includes m "business" || includes m "budget"
    || includes m "range" || includes m "style" || includes m "work"
    || includes m "daily" || includes m "professional" ).

Definition isAnsweringQuestions (message : string) : bool :=
  let m := toLowerCase message in
  includes m "mainly" || includes m "mostly"
  || (includes message "$" && includes message "-")
  || (includes m "rp" && (includes message "-" || includes message "juta"))
  || includes m "prefer" || includes m "important" || includes m "need it for".

Definition followUpIndicators : list string :=
  [ "is there any other"; "are there any other"; "any other option"; "any other choice";
    "what else"; "anything else"; "other options"; "other choices"; "alternatives";
    "show me more"; "more options"; "different"; "another"; "else";
    "how about"; "what about"; "can you show"; "do you have";
    "any more"; "more of"; "similar"; "like this"; "comparable" ].

Definition isFollowUpQuestion (message : string) : bool :=
  someIncluded followUpIndicators message.

Definition purchaseIndicators : list string :=
  [ "i want to buy"; "i want to order"; "i want to purchase"; "i want to get";
    "i would like to buy"; "i would like to order"; "i would like to purchase";
    "i need to buy"; "i need to order"; "i need to purchase";
    "saya ingin membeli"; "saya ingin memesan"; "saya ingin order";
    "saya mau beli"; "saya mau pesan"; "saya mau order";
    "beli"; "pesan"; "order"; "ambil"; "dapatkan";
    "add to cart"; "tambah ke keranjang"; "masukkan ke keranjang";
    "buy this"; "order this"; "purchase this"; "get this";
    "i want this"; "i want that"; "i want it"; "i want one";
    "i want the"; "i want a"; "i want an";
    "i'll take"; "i'll get"; "i'll buy"; "i'll order";
    "i'll have"; "i'll purchase"; "i'll grab";
    "take this"; "get this"; "have this"; "grab this";
    "yes"; "sure"; "okay"; "ok"; "alright"; "deal";
    "i'll take it"; "i'll get it"; "i'll buy it";
    "add it"; "put it in"; "add to my cart" ].

Definition isPurchaseIntent (message : string) : bool :=
  someIncluded purchaseIndicators message.

Definition historyIndicators : list string :=
  [ "have i bought"; "have i purchased"; "have i ordered"; "did i buy"; "did i purchase";
    "sudah pernah beli"; "sudah pernah pesan"; "sudah pernah order";
    "riwayat pembelian"; "purchase history"; "order history"; "buying history";
    "what did i buy"; "what have i bought"; "my purchases"; "my orders" ].

Definition isHistoryInquiry (message : string) : bool :=
  someIncluded historyIndicators message.

Definition specificProductHistoryIndicators : list string :=
  [ "have i bought this"; "have i purchased this"; "did i buy this"; "did i purchase this";
    "sudah pernah beli ini"; "sudah pernah pesan ini"; "sudah pernah order ini";
    "pernah beli"; "pernah pesan"; "pernah order"; "bought before"; "purchased before" ].

Definition isSpecificProductHistoryInquiry (message : string) : bool :=
  someIncluded specificProductHistoryIndicators message.

Definition cartManagementIndicators : list string :=
  [ "how much"; "how many"; "what's in my cart"; "what is in my cart";
    "show my cart"; "my cart"; "cart items"; "cart contents";
    "remove"; "delete"; "reduce"; "decrease"; "kurangi"; "hapus";
    "i don't want"; "i don't need"; "cancel"; "batal";
    "change quantity"; "update quantity"; "modify quantity" ].

Definition isCartManagement (message : string) : bool :=
  someIncluded cartManagementIndicators message.

Definition isProductSearch (message : string) : bool :=
  hasSpecificIntent message || hasDetailedRequirements message
  || isAnsweringQuestions message || isFollowUpQuestion message.

Definition needsSystemAction (message : string) : bool :=
  isPurchaseIntent message || isHistoryInquiry message
  || isSpecificProductHistoryInquiry message || isCartManagement message.

End Intent.
Import Intent.

(** ** Quantity extraction (lines 165-168)

    [/(\d+)\s*(buah|pieces?|items?|pcs?|unit|satuan|item)/i], first match,
    [parseInt] of the first group, 1 when there is no match.  [parseInt]
    returns a double: the integer the digits write when it is below 2^53,
    and the nearest double (ties to even, [Infinity] from 2^1024 - 2^970 on)
    above.

    At a start position the greedy [\d+] takes the whole run of digits and
    [\s*] the whole run of white space; giving a character back cannot
    produce a match, because the character given back is a digit or a blank
    and no unit word starts with one.  So a position matches exactly when
    the unit word follows the maximal runs, which is what [matchAt] tests. *)

Module Quantity.

Definition isDigit (c : ascii) : bool :=
  let n := nat_of_ascii c in (48 <=? n)%nat && (n <=? 57)%nat.

(** [\s] on 8-bit characters: tab, line feed, vertical tab, form feed,
    carriage return, space *)
Definition isSpace (c : ascii) : bool :=
  let n := nat_of_ascii c in
  ((9 <=? n)%nat && (n <=? 13)%nat) || (n =? 32)%nat.

Fixpoint takeWhile (p : ascii -> bool) (s : string) : string :=
  match s with
  | EmptyString => EmptyString
  | String c t => if p c then String c (takeWhile p t) else EmptyString
  end.

Fixpoint dropWhile (p : ascii -> bool) (s : string) : string :=
  match s with
  | EmptyString => EmptyString
  | String c t => if p c then dropWhile p t else s
  end.

(** the alternation, each optional letter tried greedily first *)
Definition unitWords : list string :=
  [ "buah"; "pieces"; "piece"; "items"; "item"; "pcs"; "pc"; "unit"; "satuan"; "item" ].

Definition startsWithUnit (s : string) : bool :=
  existsb (fun u => String.prefix u (toLowerCase s)) unitWords.

(** the pattern anchored at the head of [s]; the result is group 1 *)
Definition matchAt (s : string) : option string :=
  match takeWhile isDigit s with
  | EmptyString => None
  | digits =>
      if startsWithUnit (dropWhile isSpace (dropWhile isDigit s))
      then Some digits else None
  end.

(** [message.match(quantityPattern)]: the leftmost position that matches *)
Fixpoint quantityMatch (s : string) : option string :=
  match matchAt s with
  | Some digits => Some digits
  | None =>
      match s with
      | EmptyString => None
      | String _ t => quantityMatch t
      end
  end.

Definition digitValue (c : ascii) : Z := Z.of_nat (nat_of_ascii c - 48).

Fixpoint parseDigits (acc : Z) (s : string) : Z :=
  match s with
  | EmptyString => acc
  | String c t => parseDigits (10 * acc + digitValue c) t
  end.

(** a JavaScript number that holds a non-negative integer: a finite double,
    given by the integer it is equal to, or [Infinity] *)
Inductive JsNumber :=
| Finite (value : Z)
| Infinity.

(** the double nearest to the integer [z >= 0]: [z] itself below 2^53; above,
    the 53 leading bits of [z], rounded to nearest with ties to even;
    [Infinity] when the rounded value reaches 2^1024 *)
Definition toDouble (z : Z) : JsNumber :=
  if (z <? 2 ^ 53)%Z then Finite z
  else
    let e := (Z.log2 z - 52)%Z in
    let q := Z.shiftr z e in
    let r := Z.land z (Z.ones e) in
    let half := Z.shiftl 1 (e - 1) in
    let q' := if (half <? r)%Z || ((r =? half)%Z && Z.odd q) then (q + 1)%Z else q in
    if (2 ^ 1024 <=? Z.shiftl q' e)%Z then Infinity else Finite (Z.shiftl q' e).

(** [parseInt] on a string of decimal digits *)
Definition parseInt (digits : string) : JsNumber := toDouble (parseDigits 0 digits).

Definition requestedQuantity (message : string) : JsNumber :=
  match quantityMatch message with
  | Some digits => parseInt digits
  | None => Finite 1
  end.

End Quantity.
Import Quantity.


(** ** The data model (the Prisma tables the service touches) *)

Definition Id := nat.

Inductive Role := user | assistant.

(** A Shopify product as the catalogue returns it and as a message stores it.
    [p_amount] is [priceRange.minVariantPrice.amount] read as a number. *)
Record Product := {
  p_id : string;
  p_title : string;
  p_description : string;
  p_handle : string;
  p_amount : Q;
  p_currencyCode : string;
  p_imageUrl : option string
}.

(** the JSON column [shopifyProducts]: an array, or any other truthy value *)
Inductive ShopifyProducts :=
| ProductArray (products : list Product)
| ProductObject (product : Product).

Record Response := { r_content : string }.

Record ChatSession := {
  cs_id : Id;
  cs_userId : Id;
  cs_updatedAt : nat
}.

Record ChatMessage := {
  m_id : Id;
  m_sessionId : Id;
  m_role : Role;
  m_content : string;
  m_timestamp : nat;
  m_link : option string;
  m_sensayResponse : option Response;
  m_shopifyProducts : option ShopifyProducts
}.

Record CartItem := {
  c_id : Id;
  c_userId : Id;
  c_productId : string;
  c_productName : string;
  c_description : string;
  c_price : Q;
  c_quantity : Z;
  c_total : Q;
  c_imageUrl : option string;
  c_productUrl : option string;
  c_createdAt : nat
}.

Record PurchaseHistory := {
  ph_id : Id;
  ph_userId : Id;
  ph_productName : string;
  ph_price : Q;
  ph_quantity : Z;
  ph_purchaseDate : nat
}.

Record Db := {
  chatSessions : list ChatSession;
  chatMessages : list ChatMessage;
  cartItems : list CartItem;
  purchaseHistory : list PurchaseHistory;
  nextId : Id;      (* the generator of fresh identifiers *)
  now : nat         (* the clock; every write advances it *)
}.

(** ** Queries

    Rows with equal sort keys come out in table order (the database leaves
    their order open). *)

Module Query.

Section OrderBy.
Context {A : Type} (key : A -> nat).

(** insertion before the first element whose key is not larger: rows with
    equal keys keep their table order *)
Fixpoint insertDesc (x : A) (l : list A) : list A :=
  match l with
  | [] => [x]
  | y :: t => if (key y <=? key x)%nat then x :: l else y :: insertDesc x t
  end.

(** [orderBy: { key: 'desc' }] *)
Definition orderByDesc (l : list A) : list A := fold_right insertDesc [] l.
End OrderBy.

(** [chatSession.findFirst({ where: { id, userId } })] *)
Definition sessionById (sessionId userId : Id) (d : Db) : option ChatSession :=
  find (fun s => (cs_id s =? sessionId)%nat && (cs_userId s =? userId)%nat)
       (chatSessions d).

(** [chatSession.findFirst({ where: { userId }, orderBy: { updatedAt: 'desc' } })] *)
Definition latestSession (userId : Id) (d : Db) : option ChatSession :=
  hd_error (orderByDesc cs_updatedAt
              (filter (fun s => (cs_userId s =? userId)%nat) (chatSessions d))).

(** [chatMessage.findMany({ where: { sessionId }, orderBy: { timestamp: 'desc' }, take })];
    an undefined [sessionId] is no filter at all in Prisma *)
Definition recentMessages (sessionId : option Id) (take : nat) (d : Db) : list ChatMessage :=
  firstn take
    (orderByDesc m_timestamp
       (filter (fun m => match sessionId with
                         | Some sid => (m_sessionId m =? sid)%nat
                         | None => true
                         end) (chatMessages d))).

(** [purchaseHistory.findMany({ where: { userId }, orderBy: { purchaseDate: 'desc' }, take: 10 })] *)
Definition recentPurchases (userId : Id) (d : Db) : list PurchaseHistory :=
  firstn 10
    (orderByDesc ph_purchaseDate
       (filter (fun p => (ph_userId p =? userId)%nat) (purchaseHistory d))).

(** [purchaseHistory.findMany] with [productName: { contains, mode: 'insensitive' }] *)
Definition purchasesOfProduct (userId : Id) (title : string) (d : Db) : list PurchaseHistory :=
  orderByDesc ph_purchaseDate
    (filter (fun p => (ph_userId p =? userId)%nat
                      && includes (toLowerCase (ph_productName p)) (toLowerCase title))
            (purchaseHistory d)).

(** [cartItem.findMany({ where: { userId }, orderBy: { createdAt: 'desc' } })] *)
Definition cartOf (userId : Id) (d : Db) : list CartItem :=
  orderByDesc c_createdAt
    (filter (fun c => (c_userId c =? userId)%nat) (cartItems d)).

End Query.
Import Query.

(** ** The environment of a turn *)

Record JsError := {
  e_code : option string;
  e_name : string;
  e_message : option string
}.

Record Env := {
  (** [getOrCreateSensayUser]: the Sensay user of the application user *)
  getOrCreateSensayUser : Id -> JsError + string;
  (** [sensayAPI.chatWithReplica]; the first argument counts the calls of the turn *)
  chatWithReplica : nat -> string -> string -> JsError + Response;
  (** [shopifyService.searchProducts(query, limit)] *)
  searchProducts : string -> nat -> JsError + list Product;
  (** [shopifyService.formatPrice(amount, currencyCode)] *)
  formatPrice : Q -> string -> string;
  (** whether [chatMessage.create] rejects the row of a role *)
  chatMessageCreateFails : Role -> option JsError;
  (** how a template literal prints a price or a total *)
  showNumber : Q -> string;
  (** [new Date(d).toLocaleDateString()] *)
  toLocaleDateString : nat -> string
}.

(** ** The monad of a turn: the database, the log of replica calls, exceptions *)

Record World := {
  db : Db;
  aiLog : list (string * (JsError + Response))   (* prompt and result, oldest first *)
}.

Inductive Outcome (A : Type) :=
| Returned (a : A)
| Thrown (e : JsError).
Arguments Returned {A} a.
Arguments Thrown {A} e.

Definition M (A : Type) : Type := World -> Outcome A * World.

Definition ret {A} (a : A) : M A := fun w => (Returned a, w).

Definition bind {A B} (m : M A) (k : A -> M B) : M B :=
  fun w => match m w with
           | (Returned a, w') => k a w'
           | (Thrown e, w') => (Thrown e, w')
           end.

Definition throw {A} (e : JsError) : M A := fun w => (Thrown e, w).

(** [try { m } catch (error) { handler }]; writes made before the throw stay *)
Definition tryCatch {A} (m : M A) (handler : JsError -> M A) : M A :=
  fun w => match m w with
           | (Returned a, w') => (Returned a, w')
           | (Thrown e, w') => handler e w'
           end.

Declare Scope turn_scope.
Delimit Scope turn_scope with turn.
Notation "x <- m ;; k" := (bind m (fun x => k))
  (at level 100, m at next level, right associativity) : turn_scope.
Notation "m ;;; k" := (bind m (fun _ => k))
  (at level 100, right associativity) : turn_scope.
Local Open Scope turn_scope.

(** a read of the database *)
Definition query {A} (q : Db -> A) : M A := fun w => (Returned (q (db w)), w).

Definition updateDb (f : Db -> Db) : M unit :=
  fun w => (Returned tt, {| db := f (db w); aiLog := aiLog w |}).

Module Prisma.

(** [chatSession.create({ data: { userId } })] *)
Definition chatSession_create (userId : Id) : M ChatSession :=
  d <- query (fun d => d) ;;
  let s := {| cs_id := nextId d; cs_userId := userId; cs_updatedAt := now d |} in
  updateDb (fun d =>
    {| chatSessions := chatSessions d ++ [s]; chatMessages := chatMessages d;
       cartItems := cartItems d; purchaseHistory := purchaseHistory d;
       nextId := S (nextId d); now := S (now d) |}) ;;;
  ret s.

(** [chatSession.update({ where: { id }, data: { updatedAt: new Date() } })] *)
Definition chatSession_touch (sessionId : Id) : M unit :=
  updateDb (fun d =>
    {| chatSessions :=
         map (fun s => if (cs_id s =? sessionId)%nat
                       then {| cs_id := cs_id s; cs_userId := cs_userId s;
                               cs_updatedAt := now d |}
                       else s) (chatSessions d);
       chatMessages := chatMessages d; cartItems := cartItems d;
       purchaseHistory := purchaseHistory d;
       nextId := nextId d; now := S (now d) |}).

(** [chatMessage.create({ data })]; the environment decides whether the
    write is rejected *)
Definition chatMessage_create (env : Env) (sessionId : Id) (role : Role)
    (content : string) (link : option string) (sensayResponse : option Response)
    (shopifyProducts : option ShopifyProducts) : M ChatMessage :=
  match chatMessageCreateFails env role with
  | Some e => throw e
  | None =>
      d <- query (fun d => d) ;;
      let m := {| m_id := nextId d; m_sessionId := sessionId; m_role := role;
                  m_content := content; m_timestamp := now d; m_link := link;
                  m_sensayResponse := sensayResponse;
                  m_shopifyProducts := shopifyProducts |} in
      updateDb (fun d =>
        {| chatSessions := chatSessions d; chatMessages := chatMessages d ++ [m];
           cartItems := cartItems d; purchaseHistory := purchaseHistory d;
           nextId := S (nextId d); now := S (now d) |}) ;;;
      ret m
  end.

(** [cartItem.create({ data })] *)
Definition cartItem_create (userId : Id) (productId productName description : string)
    (price : Q) (quantity : Z) (total : Q) (imageUrl productUrl : option string)
    : M CartItem :=
  d <- query (fun d => d) ;;
  let c := {| c_id := nextId d; c_userId := userId; c_productId := productId;
              c_productName := productName; c_description := description;
              c_price := price; c_quantity := quantity; c_total := total;
              c_imageUrl := imageUrl; c_productUrl := productUrl;
              c_createdAt := now d |} in
  updateDb (fun d =>
    {| chatSessions := chatSessions d; chatMessages := chatMessages d;
       cartItems := cartItems d ++ [c]; purchaseHistory := purchaseHistory d;
       nextId := S (nextId d); now := S (now d) |}) ;;;
  ret c.

(** the rejection of a row whose quantity is not finite: no value of the
    column (the text of the error is not used, line 567 only logs it) *)
Definition validationError : JsError :=
  {| e_code := None; e_name := "PrismaClientValidationError";
     e_message := Some "Invalid value provided for the argument quantity" |}.

(** [cartItem.update({ where: { id }, data: { quantity, total } })] *)
Definition cartItem_update (itemId : Id) (quantity : Z) (total : Q) : M unit :=
  updateDb (fun d =>
    {| chatSessions := chatSessions d; chatMessages := chatMessages d;
       cartItems :=
         map (fun c => if (c_id c =? itemId)%nat
                       then {| c_id := c_id c; c_userId := c_userId c;
                               c_productId := c_productId c;
                               c_productName := c_productName c;
                               c_description := c_description c;
                               c_price := c_price c; c_quantity := quantity;
                               c_total := total; c_imageUrl := c_imageUrl c;
                               c_productUrl := c_productUrl c;
                               c_createdAt := c_createdAt c |}
                       else c) (cartItems d);
       purchaseHistory := purchaseHistory d;
       nextId := nextId d; now := S (now d) |}).

(** [cartItem.delete({ where: { id } })] *)
Definition cartItem_delete (itemId : Id) : M unit :=
  updateDb (fun d =>
    {| chatSessions := chatSessions d; chatMessages := chatMessages d;
       cartItems := filter (fun c => negb (c_id c =? itemId)%nat) (cartItems d);
       purchaseHistory := purchaseHistory d;
       nextId := nextId d; now := S (now d) |}).

End Prisma.

(** [sensayAPI.chatWithReplica(replicaUUID, sensayUserId, prompt)]: the call is
    logged with its result; a failure of the service is thrown *)
Definition callReplica (env : Env) (sensayUserId prompt : string) : M Response :=
  fun w =>
    let result := chatWithReplica env (List.length (aiLog w)) sensayUserId prompt in
    let w' := {| db := db w; aiLog := aiLog w ++ [(prompt, result)] |} in
    match result with
    | inr response => (Returned response, w')
    | inl e => (Thrown e, w')
    end.

(** ** The product in focus (the loop of lines 259-267, 324-332 and 531-539) *)

Definition productsOf (sp : ShopifyProducts) : list Product :=
  match sp with
  | ProductArray products => products      (* [Array.isArray(msg.shopifyProducts)] *)
  | ProductObject product => [product]
  end.

Fixpoint focusProduct (recentMessages : list ChatMessage) : option Product :=
  match recentMessages with
  | [] => None
  | msg :: rest =>
      match m_role msg, m_shopifyProducts msg with
      | assistant, Some sp =>
          match productsOf sp with
          | product :: _ => Some product
          | [] => focusProduct rest
          end
      | _, _ => focusProduct rest
      end
  end.

(** the ten latest messages of the session, newest first, are scanned *)
Definition resolveFocusProduct (tempChatSession : option ChatSession) (d : Db)
    : option Product :=
  match tempChatSession with
  | Some s => focusProduct (recentMessages (Some (cs_id s)) 10 d)
  | None => None
  end.

(** the session of the request before it is resolved for good
    (lines 230-242 and 418-430) *)
Definition findTempSession (sessionId : option Id) (userId : Id) (d : Db)
    : option ChatSession :=
  match sessionId with
  | Some sid => sessionById sid userId d
  | None => latestSession userId d
  end.

(** ** The system-data block (lines 245-408) *)

Definition lines (l : list string) : string := join nl l.

Fixpoint mapiFrom {A B} (i : nat) (f : nat -> A -> B) (l : list A) : list B :=
  match l with
  | [] => []
  | x :: t => f i x :: mapiFrom (S i) f t
  end.

(** [xs.map((x, index) => f(index, x))] *)
Definition mapi {A B} (f : nat -> A -> B) (l : list A) : list B := mapiFrom 0 f l.

Module SystemData.

(** how a template literal prints the requested quantity: an integer below
    2^53 as its decimal digits; a larger double through the number printer
    of the environment (the shortest digits that read back as the double,
    with an exponent from 1e21 on) *)
Definition showQuantity (env : Env) (n : JsNumber) : string :=
  match n with
  | Finite z => if (z <? 2 ^ 53)%Z then showInt z else showNumber env (inject_Z z)
  | Infinity => "Infinity"
  end.

Definition purchaseFound (env : Env) (p : Product) (requestedQuantity : JsNumber)
    : string :=
  lines [ "[SYSTEM DATA - PURCHASE INTENT DETECTED]";
          "Product: " ++ p_title p;
          "Quantity: " ++ showQuantity env requestedQuantity;
          "Price: " ++ showNumber env (p_amount p) ++ " " ++ p_currencyCode p;
          "Description: " ++ p_description p;
          "Product ID: " ++ p_id p;
          "Handle: " ++ p_handle p;
          EmptyString;
          "[SYSTEM ACTION AVAILABLE: Add to cart automatically if user confirms purchase intent]" ].

Definition purchaseNotFound (env : Env) (message : string)
    (requestedQuantity : JsNumber) : string :=
  lines [ "[SYSTEM DATA - PURCHASE INTENT DETECTED]";
          "No specific product found in conversation context.";
          "User message: " ++ dquote ++ message ++ dquote;
          "Detected quantity: " ++ showQuantity env requestedQuantity;
          EmptyString;
          "[SYSTEM ACTION: Ask user to specify which product they want to purchase]" ].

Definition historyLine (env : Env) (index : nat) (purchase : PurchaseHistory) : string :=
  showNat (index + 1) ++ ". Product: " ++ ph_productName purchase
  ++ ", Quantity: " ++ showInt (ph_quantity purchase)
  ++ ", Date: " ++ toLocaleDateString env (ph_purchaseDate purchase)
  ++ ", Price: " ++ showNumber env (ph_price purchase).

Definition historyFound (env : Env) (purchaseHistory : list PurchaseHistory) : string :=
  lines [ "[SYSTEM DATA - PURCHASE HISTORY]";
          "Total purchases: " ++ showNat (List.length purchaseHistory);
          "Recent purchases:";
          join nl (mapi (historyLine env) purchaseHistory);
          EmptyString;
          "[SYSTEM ACTION: Provide natural response about user's purchase history]" ].

Definition historyEmpty : string :=
  lines [ "[SYSTEM DATA - PURCHASE HISTORY]";
          "No purchase history found for this user.";
          EmptyString;
          "[SYSTEM ACTION: Encourage user to start shopping]" ].

Definition productHistoryYes (env : Env) (p : Product) (productHistory : list PurchaseHistory)
    (lastPurchase : PurchaseHistory) : string :=
  let totalQuantity :=
    fold_left (fun sum purchase => (sum + ph_quantity purchase)%Z) productHistory 0%Z in
  lines [ "[SYSTEM DATA - SPECIFIC PRODUCT HISTORY]";
          "Product: " ++ p_title p;
          "Has been purchased: YES";
          "Total times purchased: " ++ showNat (List.length productHistory);
          "Total quantity bought: " ++ showInt totalQuantity;
          "Last purchase date: " ++ toLocaleDateString env (ph_purchaseDate lastPurchase);
          "Last purchase quantity: " ++ showInt (ph_quantity lastPurchase);
          EmptyString;
          "[SYSTEM ACTION: Confirm that user has purchased this product before and provide details]" ].

Definition productHistoryNo (p : Product) : string :=
  lines [ "[SYSTEM DATA - SPECIFIC PRODUCT HISTORY]";
          "Product: " ++ p_title p;
          "Has been purchased: NO";
          "This would be their first time buying this item.";
          EmptyString;
          "[SYSTEM ACTION: Inform user they haven't purchased this product before]" ].

Definition productHistoryNotFound (message : string) : string :=
  lines [ "[SYSTEM DATA - SPECIFIC PRODUCT HISTORY]";
          "No specific product found in conversation context.";
          "User message: " ++ dquote ++ message ++ dquote;
          EmptyString;
          "[SYSTEM ACTION: Ask user to specify which product they want to check]" ].

Definition cartLine (env : Env) (index : nat) (item : CartItem) : string :=
  showNat (index + 1) ++ ". " ++ c_productName item
  ++ " - Quantity: " ++ showInt (c_quantity item)
  ++ ", Price: $" ++ showNumber env (c_price item)
  ++ ", Total: $" ++ showNumber env (c_total item).

Definition cartFound (env : Env) (cartItems : list CartItem) : string :=
  let cartTotal := fold_left (fun sum item => (sum + c_total item)%Q) cartItems 0%Q in
  lines [ "[SYSTEM DATA - CART MANAGEMENT]";
          "Current cart items: " ++ showNat (List.length cartItems);
          "Total cart value: $" ++ showNumber env cartTotal;
          "Cart contents:";
          join nl (mapi (cartLine env) cartItems);
          EmptyString;
          "[SYSTEM ACTION: Provide natural response about cart contents. If user wants to remove/reduce items, ask for confirmation and provide options.]" ].

Definition cartEmpty : string :=
  lines [ "[SYSTEM DATA - CART MANAGEMENT]";
          "Cart is empty.";
          EmptyString;
          "[SYSTEM ACTION: Inform user that their cart is empty and suggest browsing products.]" ].

(** the chain [if (isPurchaseIntent) .. else if (isHistoryInquiry) .. else if
    (isSpecificProductHistoryInquiry) .. else if (isCartManagement) ..] *)
Definition systemData (env : Env) (userId : Id) (message : string)
    (tempChatSession : option ChatSession) (d : Db) : string :=
  if isPurchaseIntent message then
    match resolveFocusProduct tempChatSession d with
    | Some productToAdd => purchaseFound env productToAdd (requestedQuantity message)
    | None => purchaseNotFound env message (requestedQuantity message)
    end
  else if isHistoryInquiry message then
    match recentPurchases userId d with
    | [] => historyEmpty
    | purchaseHistory => historyFound env purchaseHistory
    end
  else if isSpecificProductHistoryInquiry message then
    match resolveFocusProduct tempChatSession d with
    | Some productToCheck =>
        match purchasesOfProduct userId (p_title productToCheck) d with
        | [] => productHistoryNo productToCheck
        | lastPurchase :: older =>
            productHistoryYes env productToCheck (lastPurchase :: older) lastPurchase
        end
    | None => productHistoryNotFound message
    end
  else if isCartManagement message then
    match cartOf userId d with
    | [] => cartEmpty
    | cartItems => cartFound env cartItems
    end
  else EmptyString.

Definition systemInstruction : string :=
  "[SYSTEM INSTRUCTION: Based on the system data above, provide a natural, conversational response. If this is a purchase intent, only add to cart if the user clearly wants to buy. If this is a history inquiry, provide helpful information about their purchase history. Make the conversation feel natural and human-like. Do not use hardcoded responses - be conversational and natural.]".

(** [systemContext] (line 404); both stay empty without a system action *)
Definition systemContext (systemData : string) : string :=
  nl ++ nl ++ systemData ++ nl ++ nl ++ systemInstruction.

End SystemData.

(** ** The conversation context (lines 413-458) *)

Definition contextLine (msg : ChatMessage) : string :=
  (match m_role msg with user => "User" | assistant => "Assistant" end)
  ++ ": " ++ m_content msg ++ nl.

Definition conversationContext (isNewChat : bool) (sessionId : option Id) (userId : Id)
    (d : Db) : string :=
  if isNewChat then EmptyString
  else
    match findTempSession sessionId userId d with
    | None => EmptyString
    | Some tempChatSession =>
        match recentMessages (Some (cs_id tempChatSession)) 15 d with
        | [] => EmptyString
        | recent =>
            nl ++ nl ++ "[CONVERSATION CONTEXT - Last 15 messages for context:]" ++ nl
            ++ String.concat EmptyString (map contextLine (rev recent))
            ++ "[END CONTEXT]" ++ nl
        end
    end.

(** ** Reading the reply of the replica (lines 486-509 and 582-597) *)

Module Reply.

(** [responseText.includes(...)] of line 503.  The literal, ten bytes in
    the file, is the text U+00F0 U+0178 U+203A U+2019.  U+0178 is an
    upper-case letter, and [responseText] is the reply in lower case
    (line 488), where that letter has become U+00FF: the test is false
    whatever the reply is. *)
Definition includesCartEmoji (responseText : string) : bool := false.

(** [responseText] is [response.content.toLowerCase()] *)
Definition shouldAddToCart (responseText : string) : bool :=
  includes responseText "added to cart"
  || includes responseText "successfully added"
  || includes responseText "cart updated"
  || includes responseText "added to your cart"
  || includes responseText "i'll add"
  || includes responseText "i will add"
  || includes responseText "adding to cart"
  || includes responseText "add another"
  || includes responseText "add to your cart"
  || includes responseText "great choice"
  || includes responseText "perfect"
  || includes responseText "enjoy your shopping"
  || includes responseText "enjoy your new"
  || includesCartEmoji responseText
  || includes responseText "cart"
  || (includes responseText "add" && includes responseText "cart")
  || (includes responseText "added" && includes responseText "collection")
  || (includes responseText "burgundy" && includes responseText "tee")
  || (includes responseText "statement" && includes responseText "tee").

Definition shouldReduceCart (responseText : string) : bool :=
  includes responseText "removed"
  || includes responseText "deleted"
  || includes responseText "reduced"
  || includes responseText "updated"
  || includes responseText "changed"
  || includes responseText "modified"
  || includes responseText "kurangi"
  || includes responseText "hapus"
  || includes responseText "berkurang".

End Reply.
Import Reply.

(** ** The link of a message (lines 779-780): [/(https?:\/\/[^\s]+)/g], first match *)

Module Link.

Definition notSpace (c : ascii) : bool := negb (isSpace c).

Definition schemeAt (scheme s : string) : option string :=
  if String.prefix scheme s then
    match takeWhile notSpace
            (String.substring (String.length scheme)
               (String.length s - String.length scheme) s) with
    | EmptyString => None
    | body => Some (scheme ++ body)
    end
  else None.

Definition linkAt (s : string) : option string :=
  match schemeAt "https://" s with
  | Some l => Some l
  | None => schemeAt "http://" s
  end.

Fixpoint detectedLink (s : string) : option string :=
  match linkAt s with
  | Some l => Some l
  | None =>
      match s with
      | EmptyString => None
      | String _ t => detectedLink t
      end
  end.

End Link.

(** ** The message for the user when the turn fails (lines 850-868) *)

Module Failure.

Definition optEq (o : option string) (s : string) : bool :=
  match o with Some x => String.eqb x s | None => false end.

(** [error.message?.includes(s)] *)
Definition messageIncludes (error : JsError) (s : string) : bool :=
  match e_message error with Some m => includes m s | None => false end.

Definition genericApology : string :=
  "Sorry, I'm having trouble connecting right now. Please try again in a moment.".
Definition timedOut : string :=
  "The request timed out. The AI service might be busy. Please try again.".
Definition unableToConnect : string :=
  "Unable to connect to the AI service. Please check your internet connection and try again.".
Definition authenticationError : string :=
  "Authentication error. Please try logging out and back in.".
Definition tooManyRequests : string :=
  "Too many requests. Please wait a moment before trying again.".

Definition isTimeout (error : JsError) : bool :=
  optEq (e_code error) "UND_ERR_CONNECT_TIMEOUT" || String.eqb (e_name error) "AbortError".
Definition isFetchFailed (error : JsError) : bool :=
  messageIncludes error "fetch failed".
Definition isUnauthorized (error : JsError) : bool :=
  messageIncludes error "401" || messageIncludes error "Unauthorized".
Definition isRateLimited (error : JsError) : bool :=
  messageIncludes error "429" || messageIncludes error "rate limit".

Definition userMessage (error : JsError) : string :=
  if isTimeout error then timedOut
  else if isFetchFailed error then unableToConnect
  else if isUnauthorized error then authenticationError
  else if isRateLimited error then tooManyRequests
  else genericApology.

(** [new Error(text)] *)
Definition newError (text : string) : JsError :=
  {| e_code := None; e_name := "Error"; e_message := Some text |}.

(** reading [.content] of [undefined] *)
Definition typeErrorContentOfUndefined : JsError :=
  {| e_code := None; e_name := "TypeError";
     e_message := Some "Cannot read properties of undefined (reading 'content')" |}.

End Failure.
Import Failure.

(** ** [sendChatMessage] (lines 62-869) *)

Record Payload := {
  success : bool;
  pl_message : string;
  pl_sessionId : Id;
  pl_timestamp : nat;
  isNewSession : bool;
  pl_shopifyProducts : option (list Product)
}.

Module Turn.

(** the temporary session of lines 228-243 *)
Definition systemActionSession (message : string) (isNewChat : bool)
    (sessionId : option Id) (userId : Id) (d : Db) : option ChatSession :=
  if needsSystemAction message && negb isNewChat
  then findTempSession sessionId userId d
  else None.

(** [tempChatSession] once lines 417-431 have run *)
Definition contextSession (isNewChat : bool) (sessionId : option Id) (userId : Id)
    (d : Db) : option ChatSession :=
  if isNewChat then None else findTempSession sessionId userId d.

(** the system-data block and the context that carries it (lines 224-408);
    both are empty when no system action is needed *)
Definition gatherSystemData (env : Env) (userId : Id) (message : string)
    (isNewChat : bool) (sessionId : option Id) (d : Db) : string * string :=
  if needsSystemAction message then
    let block :=
      SystemData.systemData env userId message
        (systemActionSession message isNewChat sessionId userId d) d in
    (block, SystemData.systemContext block)
  else (EmptyString, EmptyString).

(** lines 517-570: the product in focus goes to the cart in a new row; a
    failure of the create is logged and dropped (lines 566-568) *)
Definition addFocusProductToCart (userId : Id) (message : string)
    (tempChatSession : option ChatSession) : M unit :=
  productToAdd <- query (resolveFocusProduct tempChatSession) ;;
  match productToAdd with
  | Some p =>
      tryCatch
        (match requestedQuantity message with
         | Finite quantity =>
             Prisma.cartItem_create userId (p_id p) (p_title p) (p_description p)
               (p_amount p) quantity (p_amount p * inject_Z quantity)%Q
               (p_imageUrl p)
               (Some ("https://shoppysensay.myshopify.com/products/" ++ p_handle p)) ;;;
             ret tt
         | Infinity => throw Prisma.validationError
         end)
        (fun _ => ret tt)
  | None => ret tt
  end.

(** lines 582-634, the branch [else if (isCartManagement && response.content)]:
    the newest row of the cart is deleted when the reply speaks of a removal.
    [response] is the variable of line 411 as the branch finds it. *)
Definition cartManagementAction (userId : Id) (message : string)
    (response : option Response) : M unit :=
  if isCartManagement message then
    match response with
    | None => throw typeErrorContentOfUndefined
    | Some r =>
        if truthy (r_content r) then
          if shouldReduceCart (toLowerCase (r_content r)) then
            cartItems <- query (cartOf userId) ;;
            match cartItems with
            | itemToRemove :: _ =>
                tryCatch (Prisma.cartItem_delete (c_id itemToRemove)) (fun _ => ret tt)
            | [] => ret tt
            end
          else ret tt
        else ret tt
    end
  else ret tt.

(** lines 460-637.  The cart-management branch hangs on the [else] of
    [if (needsSystemAction)], where [response] has not been assigned yet. *)
Definition systemActionStep (env : Env) (userId : Id) (message : string)
    (sensayUserId conversationContext systemContext : string)
    (tempChatSession : option ChatSession) : M unit :=
  if needsSystemAction message then
    response <- callReplica env sensayUserId
                  (message ++ conversationContext ++ systemContext) ;;
    if isPurchaseIntent message && truthy (r_content response) then
      if shouldAddToCart (toLowerCase (r_content response))
      then addFocusProductToCart userId message tempChatSession
      else ret tt
    else ret tt
  else cartManagementAction userId message None.

Definition followUpKeywords : list string :=
  [ "t-shirt"; "shirt"; "phone"; "smartphone"; "laptop"; "computer"; "shoes";
    "bag"; "watch"; "clothes"; "electronics" ].

(** lines 644-670 *)
Definition searchQuery (userId : Id) (message : string) (isNewChat : bool) (d : Db)
    : string :=
  if isFollowUpQuestion message && negb isNewChat then
    let recent := recentMessages (option_map cs_id (latestSession userId d)) 10 d in
    let conversationText := join " " (map m_content recent) in
    match filter (fun keyword =>
                    includes (toLowerCase conversationText) (toLowerCase keyword))
                 followUpKeywords with
    | keyword :: _ => keyword ++ " " ++ message
    | [] => message
    end
  else message.

Definition productLine (env : Env) (index : nat) (product : Product) : string :=
  showNat (index + 1) ++ ". **" ++ p_title product ++ "** - "
  ++ formatPrice env (p_amount product) (p_currencyCode product).

Definition enhancedSearchMessage (env : Env) (message conversationContext : string)
    (searchResults : list Product) : string :=
  let productData :=
    match searchResults with
    | [] => "No products found matching your criteria."
    | _ => join nl (mapi (productLine env) searchResults)
    end in
  message ++ conversationContext ++ nl ++ nl
  ++ "[PRODUCT SEARCH RESULTS - " ++ showNat (List.length searchResults)
  ++ " products found:]" ++ nl ++ productData ++ nl ++ nl
  ++ "[SYSTEM: Based on the conversation context above and the product search results, provide a natural, contextual response. If this is a follow-up question like "
  ++ dquote ++ "is there any other option" ++ dquote
  ++ ", acknowledge what was previously discussed and offer relevant alternatives or additional information about the products shown.]".

Definition fallbackMessage (message conversationContext : string) : string :=
  message ++ conversationContext ++ nl ++ nl
  ++ "[SYSTEM: Shopify search temporarily unavailable, provide general assistance based on conversation context]".

Definition contextualMessage (message conversationContext : string) : string :=
  message ++ conversationContext
  ++ (if truthy conversationContext
      then nl ++ nl ++ "[SYSTEM: Use the conversation context above to provide relevant and contextual responses. Remember what the user was previously discussing.]"
      else EmptyString).

(** lines 639-727: the reply that is kept, with the products found.  The
    [try] of the search covers the catalogue and the replica; when the
    replica fails there, [shopifyProducts] already holds the results. *)
Definition replyStep (env : Env) (userId : Id) (message : string) (isNewChat : bool)
    (sensayUserId conversationContext : string) : M (Response * list Product) :=
  if isProductSearch message then
    query' <- query (searchQuery userId message isNewChat) ;;
    match searchProducts env query' 5 with
    | inr searchResults =>
        tryCatch
          (response <- callReplica env sensayUserId
                         (enhancedSearchMessage env message conversationContext
                            searchResults) ;;
           ret (response, searchResults))
          (fun _ =>
             response <- callReplica env sensayUserId
                           (fallbackMessage message conversationContext) ;;
             ret (response, searchResults))
    | inl _ =>
        response <- callReplica env sensayUserId
                      (fallbackMessage message conversationContext) ;;
        ret (response, [])
    end
  else
    response <- callReplica env sensayUserId
                  (contextualMessage message conversationContext) ;;
    ret (response, []).

(** lines 729-774 *)
Definition resolveSession (userId : Id) (isNewChat : bool) (sessionId : option Id)
    : M ChatSession :=
  if isNewChat then Prisma.chatSession_create userId
  else
    match sessionId with
    | Some sid =>
        found <- query (sessionById sid userId) ;;
        match found with
        | Some chatSession => ret chatSession
        | None => Prisma.chatSession_create userId
        end
    | None =>
        found <- query (latestSession userId) ;;
        match found with
        | Some chatSession => ret chatSession
        | None => Prisma.chatSession_create userId
        end
    end.

Definition attachedProducts (shopifyProducts : list Product) : option (list Product) :=
  match shopifyProducts with
  | [] => None
  | _ => Some shopifyProducts
  end.

(** lines 787-821: both rows in one [try]; a failure is logged and dropped *)
Definition saveMessages (env : Env) (chatSession : ChatSession) (message : string)
    (response : Response) (shopifyProducts : list Product) : M unit :=
  tryCatch
    (Prisma.chatMessage_create env (cs_id chatSession) user message
       (Link.detectedLink message) None None ;;;
     Prisma.chatMessage_create env (cs_id chatSession) assistant (r_content response)
       None (Some response)
       (option_map ProductArray (attachedProducts shopifyProducts)) ;;;
     ret tt)
    (fun _ => ret tt).

(** the body of the [try] of line 63.  [logApiUsage] (lines 833 and 852, and
    lines 49 and 54 in [getOrCreateSensayUser]) appends a row to the table
    [apiUsage] and drops its own failures.  That table is read by
    [GET /admin/api-usage] alone and is not one of the tables of [Db]: what
    is said below about the writes of a turn is about the four tables of
    [Db], and a turn, also one that fails, leaves a row in [apiUsage]
    besides. *)
Definition body (env : Env) (userId : Id) (message : string) (isNewChat : bool)
    (sessionId : option Id) : M Payload :=
  sensayUserId <- (match getOrCreateSensayUser env userId with
                   | inr sensayUserId => ret sensayUserId
                   | inl e => throw e
                   end) ;;
  gathered <- query (gatherSystemData env userId message isNewChat sessionId) ;;
  context <- query (conversationContext isNewChat sessionId userId) ;;
  tempChatSession <- query (contextSession isNewChat sessionId userId) ;;
  systemActionStep env userId message sensayUserId context (snd gathered)
    tempChatSession ;;;
  reply <- replyStep env userId message isNewChat sensayUserId context ;;
  chatSession <- resolveSession userId isNewChat sessionId ;;
  saveMessages env chatSession message (fst reply) (snd reply) ;;;
  Prisma.chatSession_touch (cs_id chatSession) ;;;
  timestamp <- query now ;;
  ret {| success := true;
         pl_message := r_content (fst reply);
         pl_sessionId := cs_id chatSession;
         pl_timestamp := timestamp;
         isNewSession := isNewChat;
         pl_shopifyProducts := attachedProducts (snd reply) |}.

(** the method: the [catch] of line 850 turns every failure into an
    [Error] that carries the message for the user *)
Definition sendChatMessage (env : Env) (userId : Id) (message : string)
    (isNewChat : bool) (sessionId : option Id) : M Payload :=
  tryCatch (body env userId message isNewChat sessionId)
           (fun error => throw (newError (userMessage error))).

(** a turn on a database, with an empty log of replica calls *)
Definition run (env : Env) (userId : Id) (message : string) (isNewChat : bool)
    (sessionId : option Id) (d : Db) : Outcome Payload * World :=
  sendChatMessage env userId message isNewChat sessionId {| db := d; aiLog := [] |}.

End Turn.

(** ** [POST /cart/add] (src/server/routes.ts, lines 488-577) *)

Module CartRoute.

Inductive Reply :=
| BadRequest (error : string)
| Processed (item : option CartItem) (cartTotal : Q) (cartCount : nat) (isUpdate : bool).

Definition Qzero (q : Q) : bool := (Qnum q =? 0)%Z.

(** the handler; [quantity] defaults to 1 when the body has none; the
    transaction is one step of the model *)
Definition cartAdd (userId : Id) (productId productName description : string)
    (price : Q) (quantity : option Z) (imageUrl productUrl : option string)
    : M Reply :=
  let quantity := match quantity with Some q => q | None => 1%Z end in
  if negb (truthy productId) || negb (truthy productName) || Qzero price then
    ret (BadRequest "Product ID, name, and price are required")
  else
    existingItem <- query (fun d =>
      find (fun c => (c_userId c =? userId)%nat && String.eqb (c_productId c) productId)
           (cartItems d)) ;;
    isUpdate <-
      match existingItem with
      | Some existing =>
          let newQuantity := (c_quantity existing + quantity)%Z in
          let newTotal := (price * inject_Z newQuantity)%Q in
          Prisma.cartItem_update (c_id existing) newQuantity newTotal ;;;
          ret (c_id existing, true)
      | None =>
          let total := (price * inject_Z quantity)%Q in
          created <- Prisma.cartItem_create userId productId productName description
                       price quantity total imageUrl productUrl ;;
          ret (c_id created, false)
      end ;;
    items <- query (fun d => filter (fun c => (c_userId c =? userId)%nat) (cartItems d)) ;;
    ret (Processed (find (fun c => (c_id c =? fst isUpdate)%nat) items)
           (fold_left (fun sum item => (sum + c_total item)%Q) items 0%Q)
           (List.length items) (snd isUpdate)).

(** the transaction of lines 501-553 alone, on fields that have passed the
    test of line 495; that test is made on the raw body
    ([Routes.cartAddRequest]), where a price can be true without being a
    number other than 0 *)
Definition cartAddTransaction (userId : Id) (productId productName description : string)
    (price : Q) (quantity : Z) (imageUrl productUrl : option string) : M Reply :=
  existingItem <- query (fun d =>
    find (fun c => (c_userId c =? userId)%nat && String.eqb (c_productId c) productId)
         (cartItems d)) ;;
  isUpdate <-
    match existingItem with
    | Some existing =>
        let newQuantity := (c_quantity existing + quantity)%Z in
        let newTotal := (price * inject_Z newQuantity)%Q in
        Prisma.cartItem_update (c_id existing) newQuantity newTotal ;;;
        ret (c_id existing, true)
    | None =>
        let total := (price * inject_Z quantity)%Q in
        created <- Prisma.cartItem_create userId productId productName description
                     price quantity total imageUrl productUrl ;;
        ret (c_id created, false)
    end ;;
  items <- query (fun d => filter (fun c => (c_userId c =? userId)%nat) (cartItems d)) ;;
  ret (Processed (find (fun c => (c_id c =? fst isUpdate)%nat) items)
         (fold_left (fun sum item => (sum + c_total item)%Q) items 0%Q)
         (List.length items) (snd isUpdate)).

End CartRoute.

(** * The other methods of the service *)

(** ** Ascending order *)

Section OrderByAsc.
Context {A : Type} (key : A -> nat).

(** insertion before the first element whose key is not smaller: rows with
    equal keys keep their table order *)
Fixpoint insertAsc (x : A) (l : list A) : list A :=
  match l with
  | [] => [x]
  | y :: t => if (key x <=? key y)%nat then x :: l else y :: insertAsc x t
  end.

(** [orderBy: { key: 'asc' }] *)
Definition orderByAsc (l : list A) : list A := fold_right insertAsc [] l.
End OrderByAsc.

(** the relation [messages] of a session, [orderBy: { timestamp: 'asc' }] *)
Definition messagesOf (sessionId : Id) (d : Db) : list ChatMessage :=
  orderByAsc m_timestamp
    (filter (fun m => (m_sessionId m =? sessionId)%nat) (chatMessages d)).

(** [a || b] on strings that may be missing: the first truthy one *)
Definition orElse (a : option string) (b : string) : string :=
  match a with
  | Some s => if truthy s then s else b
  | None => b
  end.

(** ** [generateSessionTitle] (lines 1009-1027) *)

Module Title.

(** the white space at the end is dropped *)
Fixpoint trimEnd (s : string) : string :=
  match s with
  | EmptyString => EmptyString
  | String c t =>
      match trimEnd t with
      | EmptyString => if isSpace c then EmptyString else String c EmptyString
      | rest => String c rest
      end
  end.

(** [s.trim()] *)
Definition trim (s : string) : string := trimEnd (dropWhile isSpace s).

Fixpoint drop (n : nat) (s : string) : string :=
  match n, s with
  | S k, String _ t => drop k t
  | _, _ => s
  end.

Definition greetings : list string := [ "hi"; "hello"; "hey"; "hai"; "halo" ].

(** [title.replace(/^(hi|hello|hey|hai|halo)\s*,?\s*/i, '')]: what follows the
    greeting can always be matched, so the first greeting that starts the
    title is the one removed, with the blanks, one comma and the blanks
    after it *)
Definition stripGreeting (title : string) : string :=
  match find (fun g => String.prefix g (toLowerCase title)) greetings with
  | Some g =>
      let afterBlanks := dropWhile isSpace (drop (String.length g) title) in
      let afterComma :=
        match afterBlanks with
        | String "," t => t
        | _ => afterBlanks
        end in
      dropWhile isSpace afterComma
  | None => title
  end.

Definition generateSessionTitle (firstMessage : string) : string :=
  let title := stripGreeting (trim firstMessage) in
  let title :=
    if (40 <? String.length title)%nat
    then String.substring 0 40 title ++ "..."
    else title in
  if (String.length title <? 3)%nat then "Chat Session" else title.

End Title.

(** ** [getChatSessions] (lines 940-1005) *)

Record SessionSummary := {
  ss_id : Id;
  ss_title : string;
  ss_lastMessage : string;
  ss_timestamp : nat;
  ss_messageCount : nat
}.

Module Sessions.

(** [chatMessage.findFirst({ where: { sessionId }, orderBy: { timestamp: 'desc' } })] *)
Definition lastMessage (sessionId : Id) (d : Db) : option ChatMessage :=
  hd_error (orderByDesc m_timestamp
              (filter (fun m => (m_sessionId m =? sessionId)%nat) (chatMessages d))).

(** the twenty sessions of the user that were updated last *)
Definition listed (userId : Id) (d : Db) : list ChatSession :=
  firstn 20 (orderByDesc cs_updatedAt
               (filter (fun s => (cs_userId s =? userId)%nat) (chatSessions d))).

Definition summary (d : Db) (session : ChatSession) : SessionSummary :=
  let messages := messagesOf (cs_id session) d in
  let firstUserMessage :=
    find (fun msg => match m_role msg with user => true | assistant => false end)
         messages in
  let titleMessage :=
    orElse (option_map m_content firstUserMessage)
           (orElse (option_map m_content (hd_error messages)) "Chat Session") in
  {| ss_id := cs_id session;
     ss_title := Title.generateSessionTitle titleMessage;
     ss_lastMessage :=
       orElse (option_map m_content (lastMessage (cs_id session) d)) "No messages";
     ss_timestamp := cs_updatedAt session;
     ss_messageCount := List.length messages |}.

Definition getChatSessions (userId : Id) (d : Db) : list SessionSummary :=
  map (summary d) (listed userId d).

End Sessions.

(** ** [getChatHistory] (lines 874-915) *)

(** the columns the query selects *)
Record HistoryMessage := {
  h_id : Id;
  h_role : Role;
  h_content : string;
  h_timestamp : nat;
  h_link : option string;
  h_shopifyProducts : option ShopifyProducts
}.

Module History.

Definition selected (m : ChatMessage) : HistoryMessage :=
  {| h_id := m_id m; h_role := m_role m; h_content := m_content m;
     h_timestamp := m_timestamp m; h_link := m_link m;
     h_shopifyProducts := m_shopifyProducts m |}.

(** the sessions of the query: of the user, with the given id when there is
    one; one session then, ten otherwise *)
Definition sessionsOf (userId : Id) (sessionId : option Id) (d : Db) : list ChatSession :=
  firstn (match sessionId with Some _ => 1 | None => 10 end)
    (orderByDesc cs_updatedAt
       (filter (fun s => (cs_userId s =? userId)%nat
                         && match sessionId with
                            | Some sid => (cs_id s =? sid)%nat
                            | None => true
                            end)
               (chatSessions d))).

(** [sessions.flatMap(session => session.messages)] *)
Definition getChatHistory (userId : Id) (sessionId : option Id) (d : Db)
    : list HistoryMessage :=
  flat_map (fun session => map selected (messagesOf (cs_id session) d))
           (sessionsOf userId sessionId d).

End History.

(** ** [getOrCreateSensayUser] (lines 22-57) *)

Record User := {
  u_id : Id;
  u_username : string;
  u_sensayUserId : option string
}.

(** the user table, the clock, and the names [createUser] was called with *)
Record Accounts := {
  users : list User;
  createdNames : list string;
  today : nat
}.

Module SensayUser.

Definition userNotFound : JsError :=
  {| e_code := None; e_name := "Error"; e_message := Some "User not found" |}.

(** [user.sensayUserId] when it is truthy *)
Definition linked (u : User) : option string :=
  match u_sensayUserId u with
  | Some sensayUserId => if truthy sensayUserId then Some sensayUserId else None
  | None => None
  end.

(** [createUser] is the call of the Sensay API; it answers the id of the new
    Sensay user.  [logApiUsage] is left out as in the chat turn. *)
Definition getOrCreateSensayUser (createUser : string -> JsError + string)
    (userId : Id) (a : Accounts) : (JsError + string) * Accounts :=
  match find (fun u => (u_id u =? userId)%nat) (users a) with
  | None => (inl userNotFound, a)
  | Some found =>
      match linked found with
      | Some sensayUserId => (inr sensayUserId, a)
      | None =>
          let name := "customer_" ++ showNat userId ++ "_" ++ showNat (today a) in
          match createUser name with
          | inl e =>
              (inl e, {| users := users a;
                         createdNames := (createdNames a ++ [name])%list;
                         today := today a |})
          | inr sensayId =>
              (inr sensayId,
               {| users := map (fun u => if (u_id u =? userId)%nat
                                         then {| u_id := u_id u;
                                                 u_username := u_username u;
                                                 u_sensayUserId := Some sensayId |}
                                         else u) (users a);
                  createdNames := (createdNames a ++ [name])%list;
                  today := S (today a) |})
          end
      end
  end.

End SensayUser.

(** * The routes (src/server/routes.ts) *)

Inductive HttpReply (A : Type) :=
| Json200 (data : A)
| Error400 (error : string)
| Error500 (error : string).
Arguments Json200 {A} data.
Arguments Error400 {A} error.
Arguments Error500 {A} error.

(** all the columns of a purchase; the table of the model keeps the columns
    the service reads ([purchaseRow]) *)
Record Purchase := {
  pu_id : Id;
  pu_userId : Id;
  pu_productId : string;
  pu_productName : string;
  pu_description : string;
  pu_price : Q;
  pu_quantity : Z;
  pu_total : Q;
  pu_imageUrl : option string;
  pu_productUrl : option string;
  pu_orderId : string;
  pu_status : string;
  pu_purchaseDate : nat
}.

Definition purchaseRow (p : Purchase) : PurchaseHistory :=
  {| ph_id := pu_id p; ph_userId := pu_userId p; ph_productName := pu_productName p;
     ph_price := pu_price p; ph_quantity := pu_quantity p;
     ph_purchaseDate := pu_purchaseDate p |}.

(** a field of the JSON body of a request *)
Inductive Json :=
| JAbsent                 (* the body has no such field: [undefined] *)
| JNull
| JBool (b : bool)
| JNumber (q : Q)
| JString (s : string)
| JCompound.              (* an array or an object *)

(** [!v] is [negb (jsTruthy v)] *)
Definition jsTruthy (v : Json) : bool :=
  match v with
  | JAbsent => false
  | JNull => false
  | JBool b => b
  | JNumber q => negb (Qnum q =? 0)%Z
  | JString s => truthy s
  | JCompound => true
  end.

Module Routes.

(** [error.message || fallback] *)
Definition errorMessage (e : JsError) (fallback : string) : string :=
  orElse (e_message e) fallback.

(** [message.trim()] on a value that is no string *)
Definition trimIsNotAFunction : JsError :=
  {| e_code := None; e_name := "TypeError";
     e_message := Some "message.trim is not a function" |}.

(** [POST /chat/send] (lines 93-115).  [message] is the field of the body as
    it comes; [isNewChat] and [sessionId] are taken as the method declares
    them, a boolean and a session id, or absent: a missing [isNewChat] is
    the default [false] of the method. *)
Definition chatSend (env : Env) (userId : Id) (message : Json)
    (isNewChat : option bool) (sessionId : option Id) : M (HttpReply Payload) :=
  tryCatch
    (if negb (jsTruthy message) then ret (Error400 "Message is required")
     else
       match message with
       | JString text =>
           if (String.length (Title.trim text) =? 0)%nat
           then ret (Error400 "Message is required")
           else
             response <- Turn.sendChatMessage env userId (Title.trim text)
                           (match isNewChat with Some b => b | None => false end)
                           sessionId ;;
             ret (Json200 response)
       | _ => throw trimIsNotAFunction
       end)
    (fun error => ret (Error500 (errorMessage error "Chat failed"))).

Definition sumTotals (items : list CartItem) : Q :=
  fold_left (fun sum item => (sum + c_total item)%Q) items 0%Q.

Definition userItems (userId : Id) (d : Db) : list CartItem :=
  filter (fun c => (c_userId c =? userId)%nat) (cartItems d).

(** [Number(price)] of lines 516, 528 and 536, where the result is a number
    the model names: a JSON number is itself, [true] is 1, [false] and
    [null] are 0, a text of at most 15 digits is the integer it writes (the
    empty text is 0).  [None] elsewhere: [undefined], an array, an object
    and a text of another form, which may give [NaN] *)
Definition toNumber (v : Json) : option Q :=
  match v with
  | JNumber q => Some q
  | JBool b => Some (if b then 1%Q else 0%Q)
  | JNull => Some 0%Q
  | JString s =>
      if String.eqb (Quantity.takeWhile Quantity.isDigit s) s
         && (String.length s <=? 15)%nat
      then Some (inject_Z (Quantity.parseDigits 0 s))
      else None
  | JAbsent => None
  | JCompound => None
  end.

(** [POST /cart/add] on the raw body (lines 488-577): the three required
    fields are the values the body holds.  Line 495 tests them as they are;
    past it the product id and name go to Prisma as they are and the price
    through [Number].  The result is [None] where the files of the service
    do not decide the answer: a product id or name that passes the test
    and is no text (Prisma checks it against its schema), and a price
    whose number the model does not name.  [quantity] defaults to 1 when
    the body has none. *)
Definition cartAddRequest (userId : Id) (productId productName : Json)
    (description : string) (price : Json) (quantity : option Z)
    (imageUrl productUrl : option string) : option (M CartRoute.Reply) :=
  let quantity := match quantity with Some q => q | None => 1%Z end in
  if negb (jsTruthy productId) || negb (jsTruthy productName) || negb (jsTruthy price) then
    Some (ret (CartRoute.BadRequest "Product ID, name, and price are required"))
  else
    match productId, productName, toNumber price with
    | JString productId, JString productName, Some price =>
        Some (CartRoute.cartAddTransaction userId productId productName description
                price quantity imageUrl productUrl)
    | _, _, _ => None
    end.

(** [GET /cart] (lines 418-443): the rows, their total, their number *)
Definition cartGet (userId : Id) (d : Db) : list CartItem * Q * nat :=
  let items := cartOf userId d in
  (items, sumTotals items, List.length items).

Definition notFound : JsError :=
  {| e_code := None; e_name := "Error"; e_message := Some "Cart item not found" |}.

Definition ownItem (userId itemId : Id) (d : Db) : option CartItem :=
  find (fun c => (c_id c =? itemId)%nat && (c_userId c =? userId)%nat) (cartItems d).

(** [PUT /cart/:itemId] (lines 582-640) *)
Definition cartUpdate (userId itemId : Id) (quantity : option Z)
    : M (HttpReply (option CartItem * Q * nat)) :=
  match quantity with
  | None => ret (Error400 "Valid quantity is required")
  | Some quantity =>
      if (quantity <? 1)%Z then ret (Error400 "Valid quantity is required")
      else
        tryCatch
          (cartItem <- query (ownItem userId itemId) ;;
           match cartItem with
           | None => throw notFound
           | Some cartItem =>
               let total := (c_price cartItem * inject_Z quantity)%Q in
               Prisma.cartItem_update itemId quantity total ;;;
               items <- query (userItems userId) ;;
               ret (Json200 (find (fun c => (c_id c =? itemId)%nat) items,
                             sumTotals items, List.length items))
           end)
          (fun error => ret (Error500 (errorMessage error "Failed to update cart item")))
  end.

(** [DELETE /cart/:itemId] (lines 642-691) *)
Definition cartRemove (userId itemId : Id) : M (HttpReply (Q * nat)) :=
  tryCatch
    (cartItem <- query (ownItem userId itemId) ;;
     match cartItem with
     | None => throw notFound
     | Some _ =>
         Prisma.cartItem_delete itemId ;;;
         items <- query (userItems userId) ;;
         ret (Json200 (sumTotals items, List.length items))
     end)
    (fun error => ret (Error500 (errorMessage error "Failed to remove item from cart"))).

(** [cartItem.deleteMany({ where: { userId } })] *)
Definition cartItem_deleteMany (userId : Id) : M unit :=
  updateDb (fun d =>
    {| chatSessions := chatSessions d; chatMessages := chatMessages d;
       cartItems := filter (fun c => negb (c_userId c =? userId)%nat) (cartItems d);
       purchaseHistory := purchaseHistory d;
       nextId := nextId d; now := S (now d) |}).

(** [DELETE /cart] (lines 693-711) *)
Definition cartClear (userId : Id) : M (HttpReply string) :=
  cartItem_deleteMany userId ;;;
  ret (Json200 "Cart cleared").

(** [GET /purchases] (lines 714-733) *)
Definition purchases (userId : Id) (d : Db) : list PurchaseHistory :=
  orderByDesc ph_purchaseDate
    (filter (fun p => (ph_userId p =? userId)%nat) (purchaseHistory d)).

(** [purchaseHistory.create({ data })] for a row of the cart *)
Definition purchaseHistory_create (orderId : string) (item : CartItem) : M Purchase :=
  d <- query (fun d => d) ;;
  let p := {| pu_id := nextId d; pu_userId := c_userId item;
              pu_productId := c_productId item; pu_productName := c_productName item;
              pu_description := c_description item; pu_price := c_price item;
              pu_quantity := c_quantity item; pu_total := c_total item;
              pu_imageUrl := c_imageUrl item; pu_productUrl := c_productUrl item;
              pu_orderId := orderId; pu_status := "completed";
              pu_purchaseDate := now d |} in
  updateDb (fun d =>
    {| chatSessions := chatSessions d; chatMessages := chatMessages d;
       cartItems := cartItems d;
       purchaseHistory := (purchaseHistory d ++ [purchaseRow p])%list;
       nextId := S (nextId d); now := S (now d) |}) ;;;
  ret p.

(** the creations of [Promise.all(cartItems.map(...))], in the order of the rows *)
Fixpoint createPurchases (orderId : string) (items : list CartItem) : M (list Purchase) :=
  match items with
  | [] => ret []
  | item :: rest =>
      p <- purchaseHistory_create orderId item ;;
      ps <- createPurchases orderId rest ;;
      ret (p :: ps)
  end.

Definition cartIsEmpty : JsError :=
  {| e_code := None; e_name := "Error"; e_message := Some "Cart is empty" |}.

Record Order := {
  o_purchases : list Purchase;
  o_totalAmount : Q;
  o_orderId : string
}.

(** [POST /checkout] (lines 735-804) *)
Definition checkout (userId : Id) : M (HttpReply Order) :=
  tryCatch
    (cartItems <- query (userItems userId) ;;
     match cartItems with
     | [] => throw cartIsEmpty
     | _ =>
         clock <- query now ;;
         let orderId := "ORDER_" ++ showNat clock ++ "_" ++ showNat userId in
         purchases <- createPurchases orderId cartItems ;;
         cartItem_deleteMany userId ;;;
         ret (Json200
                {| o_purchases := purchases;
                   o_totalAmount :=
                     fold_left (fun sum purchase => (sum + pu_total purchase)%Q)
                               purchases 0%Q;
                   o_orderId := orderId |})
     end)
    (fun error => ret (Error500 (errorMessage error "Failed to complete checkout"))).

End Routes.

(** * Vocabulary of the properties *)

(** [a] is not older than [b] *)
Definition newerOrEqual {A : Type} (key : A -> nat) (a b : A) : Prop := key b <= key a.

(** the session [chatSession.create] makes in a world *)
Definition createdSession (userId : Id) (w : World) : ChatSession :=
  {| cs_id := nextId (db w); cs_userId := userId; cs_updatedAt := now (db w) |}.

Definition userRow (message : string) (chatSession : ChatSession) (d : Db)
    : ChatMessage :=
  {| m_id := nextId d; m_sessionId := cs_id chatSession; m_role := user;
     m_content := message; m_timestamp := now d;
     m_link := Link.detectedLink message; m_sensayResponse := None;
     m_shopifyProducts := None |}.

Definition assistantRow (chatSession : ChatSession) (response : Response)
    (shopifyProducts : list Product) (d : Db) : ChatMessage :=
  {| m_id := S (nextId d); m_sessionId := cs_id chatSession; m_role := assistant;
     m_content := r_content response; m_timestamp := S (now d);
     m_link := None; m_sensayResponse := Some response;
     m_shopifyProducts :=
       option_map ProductArray (Turn.attachedProducts shopifyProducts) |}.

(** the rows a turn leaves in the message table *)
Definition savedRows (env : Env) (message : string) (chatSession : ChatSession)
    (response : Response) (shopifyProducts : list Product) (d : Db)
    : list ChatMessage :=
  match chatMessageCreateFails env user with
  | Some _ => []
  | None =>
      match chatMessageCreateFails env assistant with
      | Some _ => [userRow message chatSession d]
      | None => [userRow message chatSession d;
                 assistantRow chatSession response shopifyProducts d]
      end
  end.

(** the course of a turn: the Sensay user, the system action, the reply,
    the session and the two rows *)
Inductive Course (env : Env) (userId : Id) (message : string) (isNewChat : bool)
    (sessionId : option Id) (d : Db) : Outcome Payload -> World -> Prop :=
| NoSensayUser e :
    getOrCreateSensayUser env userId = inl e ->
    Course env userId message isNewChat sessionId d (Thrown e) {| db := d; aiLog := [] |}
| SystemActionFailed su e w1 :
    getOrCreateSensayUser env userId = inr su ->
    Turn.systemActionStep env userId message su
      (conversationContext isNewChat sessionId userId d)
      (snd (Turn.gatherSystemData env userId message isNewChat sessionId d))
      (Turn.contextSession isNewChat sessionId userId d)
      {| db := d; aiLog := [] |} = (Thrown e, w1) ->
    Course env userId message isNewChat sessionId d (Thrown e) w1
| ReplyFailed su e w1 w2 :
    getOrCreateSensayUser env userId = inr su ->
    Turn.systemActionStep env userId message su
      (conversationContext isNewChat sessionId userId d)
      (snd (Turn.gatherSystemData env userId message isNewChat sessionId d))
      (Turn.contextSession isNewChat sessionId userId d)
      {| db := d; aiLog := [] |} = (Returned tt, w1) ->
    Turn.replyStep env userId message isNewChat su
      (conversationContext isNewChat sessionId userId d) w1 = (Thrown e, w2) ->
    Course env userId message isNewChat sessionId d (Thrown e) w2
| Replied su w1 response products w2 chatSession w3 w4 w5 :
    getOrCreateSensayUser env userId = inr su ->
    Turn.systemActionStep env userId message su
      (conversationContext isNewChat sessionId userId d)
      (snd (Turn.gatherSystemData env userId message isNewChat sessionId d))
      (Turn.contextSession isNewChat sessionId userId d)
      {| db := d; aiLog := [] |} = (Returned tt, w1) ->
    Turn.replyStep env userId message isNewChat su
      (conversationContext isNewChat sessionId userId d) w1
    = (Returned (response, products), w2) ->
    Turn.resolveSession userId isNewChat sessionId w2 = (Returned chatSession, w3) ->
    Turn.saveMessages env chatSession message response products w3
    = (Returned tt, w4) ->
    Prisma.chatSession_touch (cs_id chatSession) w4 = (Returned tt, w5) ->
    Course env userId message isNewChat sessionId d
      (Returned {| success := true;
                   pl_message := r_content response;
                   pl_sessionId := cs_id chatSession;
                   pl_timestamp := now (db w5);
                   isNewSession := isNewChat;
                   pl_shopifyProducts := Turn.attachedProducts products |})
      w5.

(** the ids of the sessions come from the generator of the database *)
Definition sessionIdsGenerated (d : Db) : Prop :=
  forall s, In s (chatSessions d) -> cs_id s < nextId d.

(** between [d] and [d'] one session was created for the user, with an
    identifier no session of [d] has *)
Definition sessionCreated (userId : Id) (d d' : Db) (sid : Id) : Prop :=
  ~ In sid (map cs_id (chatSessions d))
  /\ map cs_id (chatSessions d') = (map cs_id (chatSessions d) ++ [sid])%list
  /\ map cs_userId (chatSessions d') = (map cs_userId (chatSessions d) ++ [userId])%list.

(** between [d] and [d'] no session was created *)
Definition sessionsKept (d d' : Db) : Prop :=
  map cs_id (chatSessions d') = map cs_id (chatSessions d).

(** an assistant message that carries a product *)
Definition carriesProduct (m : ChatMessage) : bool :=
  match m_role m, m_shopifyProducts m with
  | assistant, Some sp => match productsOf sp with [] => false | _ => true end
  | _, _ => false
  end.

(** every character of [s] satisfies [p] *)
Fixpoint stringForall (p : ascii -> bool) (s : string) : bool :=
  match s with
  | EmptyString => true
  | String c t => p c && stringForall p t
  end.


(** a text of ASCII characters: on these the strings of the model are the
    strings of the code, character by character *)
Definition isAscii (s : string) : bool :=
  stringForall (fun c => (nat_of_ascii c <? 128)%nat) s.

(** [s] is empty or starts with a character that fails [p] *)
Definition headFails (p : ascii -> bool) (s : string) : Prop :=
  match s with
  | EmptyString => True
  | String c _ => p c = false
  end.

(** [s] is empty or ends with a character that fails [p] *)
Fixpoint lastFails (p : ascii -> bool) (s : string) : Prop :=
  match s with
  | EmptyString => True
  | String c t =>
      match t with
      | EmptyString => p c = false
      | _ => lastFails p t
      end
  end.

(** ** Concrete data for the examples *)

Module Fixture.

Definition tee : Product :=
  {| p_id := "p1"; p_title := "Tee"; p_description := "A plain tee";
     p_handle := "tee"; p_amount := 20 # 1; p_currencyCode := "USD";
     p_imageUrl := None |}.

Definition mug : Product :=
  {| p_id := "P"; p_title := "Mug"; p_description := "A mug";
     p_handle := "mug"; p_amount := 10 # 1; p_currencyCode := "USD";
     p_imageUrl := None |}.

Definition reply (text : string) : JsError + Response := inr {| r_content := text |}.

Definition timeout : JsError :=
  {| e_code := Some "UND_ERR_CONNECT_TIMEOUT"; e_name := "ConnectTimeoutError";
     e_message := Some "Connect Timeout Error" |}.

Definition writeRejected : JsError :=
  {| e_code := Some "P2002"; e_name := "PrismaClientKnownRequestError";
     e_message := Some "the write was rejected" |}.

Definition fetchFailed : JsError :=
  {| e_code := None; e_name := "TypeError"; e_message := Some "fetch failed" |}.

(** an environment whose replica is [replica], whose catalogue finds
    [found], and whose message writes fail as [saveFails] says *)
Definition envOf (replica : nat -> string -> JsError + Response)
    (found : list Product) (saveFails : Role -> option JsError) : Env :=
  {| getOrCreateSensayUser := fun _ => inr "sensay-user";
     chatWithReplica := fun k _ prompt => replica k prompt;
     searchProducts := fun _ _ => inr found;
     formatPrice := fun amount currency => currency ++ " " ++ showInt (Qnum amount);
     chatMessageCreateFails := saveFails;
     showNumber := fun q => showInt (Qnum q);
     toLocaleDateString := showNat |}.

(** the replica always answers [text] *)
Definition envSaying (text : string) : Env :=
  envOf (fun _ _ => reply text) [] (fun _ => None).

Definition plainRow (i : Id) (sid : Id) (role : Role) (text : string) (t : nat)
    : ChatMessage :=
  {| m_id := i; m_sessionId := sid; m_role := role; m_content := text;
     m_timestamp := t; m_link := None; m_sensayResponse := None;
     m_shopifyProducts := None |}.

Definition productRow (i : Id) (sid : Id) (text : string) (t : nat) (p : Product)
    : ChatMessage :=
  {| m_id := i; m_sessionId := sid; m_role := assistant; m_content := text;
     m_timestamp := t; m_link := None; m_sensayResponse := None;
     m_shopifyProducts := Some (ProductArray [p]) |}.

Definition cartRow (i : Id) (uid : Id) (p : Product) (quantity : Z) (t : nat) : CartItem :=
  {| c_id := i; c_userId := uid; c_productId := p_id p; c_productName := p_title p;
     c_description := p_description p; c_price := p_amount p; c_quantity := quantity;
     c_total := (p_amount p * inject_Z quantity)%Q; c_imageUrl := None;
     c_productUrl := None; c_createdAt := t |}.

Definition emptyDb : Db :=
  {| chatSessions := []; chatMessages := []; cartItems := []; purchaseHistory := [];
     nextId := 1; now := 1 |}.

(** user 1 has session 7, in which the assistant showed the mug; the mug
    and the tee are in the cart, the tee added last *)
Definition shopDb : Db :=
  {| chatSessions := [ {| cs_id := 7; cs_userId := 1; cs_updatedAt := 12 |} ];
     chatMessages := [ plainRow 8 7 user "show me a mug" 10;
                       productRow 9 7 "Here is a mug" 11 mug ];
     cartItems := [ cartRow 10 1 mug 1 13; cartRow 11 1 tee 1 14 ];
     purchaseHistory :=
       [ {| ph_id := 12; ph_userId := 1; ph_productName := "Tee";
            ph_price := 20 # 1; ph_quantity := 2%Z; ph_purchaseDate := 5 |} ];
     nextId := 20; now := 20 |}.

(** user 1 has session 7 with two messages, none with a product, and an
    empty cart *)
Definition plainDb : Db :=
  {| chatSessions := [ {| cs_id := 7; cs_userId := 1; cs_updatedAt := 12 |} ];
     chatMessages := [ plainRow 8 7 user "hi" 10;
                       plainRow 9 7 assistant "Hello! What are you looking for?" 11 ];
     cartItems := []; purchaseHistory := [];
     nextId := 20; now := 20 |}.

(** session 7 with the mug shown first and ten plain messages after it *)
Definition longDb : Db :=
  {| chatSessions := [ {| cs_id := 7; cs_userId := 1; cs_updatedAt := 30 |} ];
     chatMessages :=
       productRow 8 7 "Here is a mug" 10 mug
       :: map (fun k => plainRow (9 + k) 7 (if Nat.even k then user else assistant)
                          "tell me more" (11 + k))
              (seq 0 10);
     cartItems := []; purchaseHistory := [];
     nextId := 40; now := 40 |}.

End Fixture.

(** ** Vocabulary of the further properties *)

(** [piece] is a run of consecutive characters of [s] *)
Definition isPieceOf (piece s : string) : Prop :=
  exists before after, s = before ++ piece ++ after.

(** every row of the cart has [total = price * quantity] *)
Definition cartConsistent (d : Db) : Prop :=
  forall c, In c (cartItems d) -> c_total c = (c_price c * inject_Z (c_quantity c))%Q.

(** at most one row per user and product *)
Definition onePerProduct (d : Db) : Prop :=
  NoDup (map (fun c => (c_userId c, c_productId c)) (cartItems d)).

(** the ids of the cart rows are distinct *)
Definition cartIdsDistinct (d : Db) : Prop := NoDup (map c_id (cartItems d)).

(** [chatSession.update]: the session with the new time stamp *)
Definition touched (sessionId : Id) (stamp : nat) (s : ChatSession) : ChatSession :=
  if (cs_id s =? sessionId)%nat
  then {| cs_id := cs_id s; cs_userId := cs_userId s; cs_updatedAt := stamp |}
  else s.

(** a purchase made from a row of the cart under an order *)
Definition mirrors (orderId : string) (item : CartItem) (p : Purchase) : Prop :=
  pu_userId p = c_userId item /\ pu_productId p = c_productId item
  /\ pu_productName p = c_productName item /\ pu_description p = c_description item
  /\ pu_price p = c_price item /\ pu_quantity p = c_quantity item
  /\ pu_total p = c_total item /\ pu_imageUrl p = c_imageUrl item
  /\ pu_productUrl p = c_productUrl item
  /\ pu_orderId p = orderId /\ pu_status p = "completed".

(** a row of the cart with another quantity and total *)
Definition requantified (quantity : Z) (total : Q) (c : CartItem) : CartItem :=
  {| c_id := c_id c; c_userId := c_userId c; c_productId := c_productId c;
     c_productName := c_productName c; c_description := c_description c;
     c_price := c_price c; c_quantity := quantity; c_total := total;
     c_imageUrl := c_imageUrl c; c_productUrl := c_productUrl c;
     c_createdAt := c_createdAt c |}.

(** the ids of the cart rows come from the generator *)
Definition cartIdsBelow (d : Db) : Prop :=
  forall c, In c (cartItems d) -> c_id c < nextId d.

(** the requests that write the cart *)
Inductive CartRequest :=
| AddItem (productId productName description : string) (price : Q)
    (quantity : option Z) (imageUrl productUrl : option string)
| UpdateItem (itemId : Id) (quantity : option Z)
| RemoveItem (itemId : Id)
| ClearCart
| Checkout.

(** the world after a request of a user is served *)
Definition served (w : World) (request : Id * CartRequest) : World :=
  let userId := fst request in
  match snd request with
  | AddItem productId productName description price quantity imageUrl productUrl =>
      snd (CartRoute.cartAdd userId productId productName description price quantity
             imageUrl productUrl w)
  | UpdateItem itemId quantity => snd (Routes.cartUpdate userId itemId quantity w)
  | RemoveItem itemId => snd (Routes.cartRemove userId itemId w)
  | ClearCart => snd (Routes.cartClear userId w)
  | Checkout => snd (Routes.checkout userId w)
  end.

Definition servedAll (requests : list (Id * CartRequest)) (w : World) : World :=
  fold_left served requests w.

(** the three properties of the keys of the cart *)
Definition cartKeyed (d : Db) : Prop :=
  cartIdsDistinct d /\ cartIdsBelow d /\ onePerProduct d.

(** the five messages a failed turn can carry *)
Definition userFacing (text : string) : Prop :=
  text = genericApology \/ text = timedOut \/ text = unableToConnect
  \/ text = authenticationError \/ text = tooManyRequests.

Module Fixture2.

Definition accounts : Accounts :=
  {| users := [ {| u_id := 1; u_username := "ana"; u_sensayUserId := None |};
                {| u_id := 2; u_username := "bo"; u_sensayUserId := Some "s-2" |} ];
     createdNames := []; today := 100 |}.

Definition createUser (name : string) : JsError + string := inr ("sensay:" ++ name).

(** two users with a cart each; user 1 has the mug twice (two pieces) and the tee *)
Definition cartsDb : Db :=
  {| chatSessions := []; chatMessages := [];
     cartItems := [ Fixture.cartRow 10 1 Fixture.mug 2 13;
                    Fixture.cartRow 11 2 Fixture.mug 1 14;
                    Fixture.cartRow 12 1 Fixture.tee 1 15 ];
     purchaseHistory := [];
     nextId := 20; now := 20 |}.

(** session 7 of the shop database, where the mug is in focus, for a user
    who bought the mug once, two pieces *)
Definition boughtDb : Db :=
  {| chatSessions := chatSessions Fixture.shopDb;
     chatMessages := chatMessages Fixture.shopDb;
     cartItems := [];
     purchaseHistory :=
       [ {| ph_id := 12; ph_userId := 1; ph_productName := "Mug";
            ph_price := 10 # 1; ph_quantity := 2%Z; ph_purchaseDate := 5 |} ];
     nextId := 20; now := 20 |}.

End Fixture2.

(** splits an equation between pairs, and between [Returned] values *)
Ltac step_eq H :=
  injection H as; subst.


(** * Properties *)

(** ** Ordered queries *)

Lemma firstn_In {A} (x : A) n l : In x (firstn n l) -> In x l.
Proof.
  intros H. rewrite <- (firstn_skipn n l). apply in_or_app. left; exact H.
Qed.

Lemma skipn_In {A} (x : A) n l : In x (skipn n l) -> In x l.
Proof.
  intros H. rewrite <- (firstn_skipn n l). apply in_or_app. right; exact H.
Qed.

Section OrderByFacts.
Context {A : Type} (key : A -> nat).

Lemma insertDesc_In x y l : In y (insertDesc key x l) <-> y = x \/ In y l.
Proof.
  induction l as [|z t IH]; simpl.
  - intuition.
  - destruct (key z <=? key x)%nat; simpl; [intuition|].
    rewrite IH. intuition.
Qed.

Lemma orderByDesc_In y l : In y (orderByDesc key l) <-> In y l.
Proof.
  induction l as [|x t IH]; simpl; [tauto|].
  rewrite insertDesc_In, IH. intuition.
Qed.

Lemma insertDesc_sorted x l :
  StronglySorted (newerOrEqual key) l -> StronglySorted (newerOrEqual key) (insertDesc key x l).
Proof.
  induction 1 as [|z t Hs IH Hall]; simpl.
  - constructor; constructor.
  - destruct (key z <=? key x)%nat eqn:E.
    + apply Nat.leb_le in E. constructor.
      * constructor; assumption.
      * constructor; [exact E|].
        eapply Forall_impl; [|exact Hall].
        unfold newerOrEqual. intros; lia.
    + apply Nat.leb_gt in E. constructor; [exact IH|].
      apply Forall_forall. intros y Hy.
      apply insertDesc_In in Hy. destruct Hy as [->|Hy].
      * unfold newerOrEqual; lia.
      * rewrite Forall_forall in Hall. auto.
Qed.

Lemma orderByDesc_sorted l : StronglySorted (newerOrEqual key) (orderByDesc key l).
Proof.
  induction l as [|x t IH]; simpl; [constructor|].
  apply insertDesc_sorted, IH.
Qed.

Lemma sorted_firstn n l :
  StronglySorted (newerOrEqual key) l -> StronglySorted (newerOrEqual key) (firstn n l).
Proof.
  intros H. revert n. induction H as [|z t Hs IH Hall]; intros [|n]; simpl;
    try constructor; auto.
  apply Forall_forall. intros y Hy. rewrite Forall_forall in Hall.
  apply Hall. eapply firstn_In; eauto.
Qed.

(** what [take] leaves out is not newer than what it keeps *)
Lemma sorted_firstn_skipn n l x y :
  StronglySorted (newerOrEqual key) l ->
  In x (firstn n l) -> In y (skipn n l) -> key y <= key x.
Proof.
  intros H. revert n. induction H as [|z t Hs IH Hall]; intros [|n]; simpl;
    try tauto.
  intros [->|Hx] Hy.
  - rewrite Forall_forall in Hall. apply Hall. eapply skipn_In; eauto.
  - eauto.
Qed.

Lemma sorted_head s l :
  StronglySorted (newerOrEqual key) l -> hd_error l = Some s ->
  forall y, In y l -> key y <= key s.
Proof.
  intros H E y Hy. destruct l as [|z t]; [discriminate|].
  simpl in E. injection E as ->.
  apply StronglySorted_inv in H. destruct H as [_ Hall].
  destruct Hy as [->|Hy]; [lia|].
  rewrite Forall_forall in Hall. apply Hall, Hy.
Qed.

Lemma insertDesc_length' x l : List.length (insertDesc key x l) = S (List.length l).
Proof.
  induction l as [|z t IH]; simpl; [reflexivity|].
  destruct (key z <=? key x)%nat; simpl; congruence.
Qed.

Lemma orderByDesc_length' l : List.length (orderByDesc key l) = List.length l.
Proof.
  induction l as [|x t IH]; simpl; [reflexivity|].
  rewrite insertDesc_length'. congruence.
Qed.

(** what a query with [orderBy: desc] and [take] answers: the [take] newest
    rows, newest first *)
Lemma latest_facts take (rows : list A) :
  let window := firstn take (orderByDesc key rows) in
  List.length window = Nat.min take (List.length rows)
  /\ StronglySorted (newerOrEqual key) window
  /\ (forall x, In x window -> In x rows)
  /\ (forall x y, In x window -> In y rows -> ~ In y window -> key y <= key x).
Proof.
  cbv zeta. split; [rewrite length_firstn, orderByDesc_length'; reflexivity|].
  split; [apply sorted_firstn, orderByDesc_sorted|].
  split; [intros x Hx; apply orderByDesc_In; eapply firstn_In; exact Hx|].
  intros x y Hx Hy Hout.
  apply orderByDesc_In in Hy.
  rewrite <- (firstn_skipn take (orderByDesc key rows)) in Hy.
  apply in_app_or in Hy. destruct Hy as [Hy|Hy]; [contradiction|].
  eapply (sorted_firstn_skipn take (orderByDesc key rows));
    [apply orderByDesc_sorted|exact Hx|exact Hy].
Qed.
End OrderByFacts.

(** ** The monad *)

Lemma query_eq {A} (q : Db -> A) w : query q w = (Returned (q (db w)), w).
Proof. reflexivity. Qed.

(** ** The steps of a turn, one by one *)

Section Steps.
Variable env : Env.
Variables (userId : Id) (message : string) (isNewChat : bool) (sessionId : option Id).

Lemma needsSystemAction_false_cart :
  needsSystemAction message = false -> isCartManagement message = false.
Proof.
  unfold needsSystemAction. intros H.
  apply orb_false_iff in H. tauto.
Qed.

Lemma callReplica_eq su prompt w :
  callReplica env su prompt w =
  ( match chatWithReplica env (List.length (aiLog w)) su prompt with
    | inr r => Returned r
    | inl e => Thrown e
    end,
    {| db := db w;
       aiLog := (aiLog w
                 ++ [(prompt, chatWithReplica env (List.length (aiLog w)) su prompt)])%list |} ).
Proof. unfold callReplica. destruct (chatWithReplica env _ su prompt); reflexivity. Qed.

(** adding the product in focus writes at most one row, at the end of the
    cart table, and never fails *)
Lemma addFocusProductToCart_spec temp w :
  exists w', Turn.addFocusProductToCart userId message temp w = (Returned tt, w')
    /\ aiLog w' = aiLog w
    /\ chatSessions (db w') = chatSessions (db w)
    /\ chatMessages (db w') = chatMessages (db w)
    /\ purchaseHistory (db w') = purchaseHistory (db w)
    /\ nextId (db w) <= nextId (db w')
    /\ exists extra, cartItems (db w') = (cartItems (db w) ++ extra)%list.
Proof.
  unfold Turn.addFocusProductToCart, bind, query.
  destruct (resolveFocusProduct temp (db w)) as [p|].
  - unfold tryCatch. destruct (requestedQuantity message) as [quantity|].
    + eexists. split; [reflexivity|]. cbn. repeat split; auto. eexists; reflexivity.
    + exists w. repeat split; auto. exists []. symmetry; apply app_nil_r.
  - exists w. repeat split; auto. exists []. symmetry; apply app_nil_r.
Qed.

Lemma systemActionStep_db su context systemContext temp w o w' :
  Turn.systemActionStep env userId message su context systemContext temp w = (o, w') ->
  chatSessions (db w') = chatSessions (db w)
  /\ chatMessages (db w') = chatMessages (db w)
  /\ purchaseHistory (db w') = purchaseHistory (db w)
  /\ nextId (db w) <= nextId (db w')
  /\ exists extra, cartItems (db w') = (cartItems (db w) ++ extra)%list.
Proof.
  assert (Hsame : forall w0 : World,
             chatSessions (db w0) = chatSessions (db w0)
             /\ chatMessages (db w0) = chatMessages (db w0)
             /\ purchaseHistory (db w0) = purchaseHistory (db w0)
             /\ nextId (db w0) <= nextId (db w0)
             /\ exists extra, cartItems (db w0) = (cartItems (db w0) ++ extra)%list).
  { intros w0. repeat split; auto. exists []. symmetry; apply app_nil_r. }
  unfold Turn.systemActionStep.
  destruct (needsSystemAction message) eqn:Hn.
  - unfold bind. rewrite callReplica_eq.
    destruct (chatWithReplica env _ su _) as [e|r].
    + intros H. step_eq H. apply (Hsame {| db := db w; aiLog := _ |}).
    + destruct (isPurchaseIntent message && truthy (r_content r)).
      * destruct (shouldAddToCart _).
        -- match goal with
           | |- Turn.addFocusProductToCart _ _ _ ?w0 = _ -> _ =>
               destruct (addFocusProductToCart_spec temp w0)
                 as (w1 & E & _ & Hs & Hm & Hp & Hi & Hc)
           end.
           rewrite E. intros H. step_eq H. cbn in *. auto.
        -- intros H. step_eq H. apply (Hsame {| db := db w; aiLog := _ |}).
      * intros H. step_eq H. apply (Hsame {| db := db w; aiLog := _ |}).
  - unfold Turn.cartManagementAction.
    rewrite (needsSystemAction_false_cart Hn).
    intros H. step_eq H. apply Hsame.
Qed.

(** the step fails only when its call of the replica fails *)
Lemma systemActionStep_Thrown su context systemContext temp w e w' :
  Turn.systemActionStep env userId message su context systemContext temp w
  = (Thrown e, w') ->
  exists prompt, aiLog w' = (aiLog w ++ [(prompt, inl e)])%list.
Proof.
  unfold Turn.systemActionStep.
  destruct (needsSystemAction message) eqn:Hn.
  - unfold bind. rewrite callReplica_eq.
    destruct (chatWithReplica env _ su _) as [e0|r] eqn:Hc.
    + intros H. step_eq H. eexists. cbn. reflexivity.
    + destruct (isPurchaseIntent message && truthy (r_content r)).
      * destruct (shouldAddToCart _).
        -- match goal with
           | |- Turn.addFocusProductToCart _ _ _ ?w0 = _ -> _ =>
               destruct (addFocusProductToCart_spec temp w0) as (w1 & E & _)
           end.
           rewrite E. discriminate.
        -- discriminate.
      * discriminate.
  - unfold Turn.cartManagementAction.
    rewrite (needsSystemAction_false_cart Hn). discriminate.
Qed.

(** the first call of a turn that needs a system action carries the block *)
Lemma systemActionStep_log su context systemContext temp w o w' :
  Turn.systemActionStep env userId message su context systemContext temp w = (o, w') ->
  if needsSystemAction message
  then exists result,
         aiLog w' = (aiLog w ++ [((message ++ context ++ systemContext)%string, result)])%list
  else aiLog w' = aiLog w.
Proof.
  unfold Turn.systemActionStep.
  destruct (needsSystemAction message) eqn:Hn.
  - unfold bind. rewrite callReplica_eq.
    destruct (chatWithReplica env _ su _) as [e0|r] eqn:Hc.
    + intros H. step_eq H. eexists. cbn. reflexivity.
    + destruct (isPurchaseIntent message && truthy (r_content r)).
      * destruct (shouldAddToCart _).
        -- match goal with
           | |- Turn.addFocusProductToCart _ _ _ ?w0 = _ -> _ =>
               destruct (addFocusProductToCart_spec temp w0) as (w1 & E & Hl & _)
           end.
           rewrite E. intros H. step_eq H. eexists. rewrite Hl. cbn. reflexivity.
        -- intros H. step_eq H. eexists. cbn. reflexivity.
      * intros H. step_eq H. eexists. cbn. reflexivity.
  - unfold Turn.cartManagementAction.
    rewrite (needsSystemAction_false_cart Hn).
    intros H. step_eq H. reflexivity.
Qed.
End Steps.

Section ReplyAndPersist.
Variable env : Env.
Variables (userId : Id) (message : string) (isNewChat : bool) (sessionId : option Id).

(** the reply step only talks to the catalogue and to the replica; its
    outcome is the result of the last call it made *)
Lemma replyStep_spec su context w o w' :
  Turn.replyStep env userId message isNewChat su context w = (o, w') ->
  db w' = db w
  /\ exists calls prompt result,
       aiLog w' = (aiLog w ++ calls ++ [(prompt, result)])%list
       /\ match result with
          | inr response => exists products, o = Returned (response, products)
          | inl e => o = Thrown e
          end.
Proof.
  unfold Turn.replyStep.
  destruct (isProductSearch message).
  - unfold bind at 1. rewrite query_eq.
    destruct (searchProducts env _ 5) as [e0|results].
    + unfold bind. rewrite callReplica_eq.
      destruct (chatWithReplica env _ su _) as [e|r] eqn:Hc;
        intros H; step_eq H; (split; [reflexivity|]);
        exists []; eexists; eexists; (split; [cbn; reflexivity|]);
        cbn; eauto.
    + unfold tryCatch, bind. rewrite callReplica_eq.
      destruct (chatWithReplica env _ su _) as [e|r] eqn:Hc.
      * rewrite callReplica_eq. cbn [db aiLog].
        match goal with
        | |- context [chatWithReplica env ?k su ?p] =>
            destruct (chatWithReplica env k su p) as [e'|r'] eqn:Hc'
        end;
          intros H; step_eq H; (split; [reflexivity|]);
          eexists [_]; eexists; eexists;
          (split; [cbn; rewrite <- app_assoc; cbn; reflexivity|]);
          cbn; eauto.
      * intros H. step_eq H. split; [reflexivity|].
        exists []; eexists; eexists. split; [cbn; reflexivity|].
        cbn; eauto.
  - unfold bind. rewrite callReplica_eq.
    destruct (chatWithReplica env _ su _) as [e|r] eqn:Hc;
      intros H; step_eq H; (split; [reflexivity|]);
      exists []; eexists; eexists; (split; [cbn; reflexivity|]);
      cbn; eauto.
Qed.
End ReplyAndPersist.

Section Persist.
Variable env : Env.
Variables (userId : Id) (message : string) (isNewChat : bool) (sessionId : option Id).

Lemma chatSession_create_eq w :
  Prisma.chatSession_create userId w =
  ( Returned (createdSession userId w),
    {| db := {| chatSessions := chatSessions (db w) ++ [createdSession userId w];
                chatMessages := chatMessages (db w);
                cartItems := cartItems (db w);
                purchaseHistory := purchaseHistory (db w);
                nextId := S (nextId (db w));
                now := S (now (db w)) |};
       aiLog := aiLog w |} ).
Proof. reflexivity. Qed.

(** the session of the turn is the one the context was read from, or a new one *)
Lemma resolveSession_eq w :
  Turn.resolveSession userId isNewChat sessionId w =
  match Turn.contextSession isNewChat sessionId userId (db w) with
  | Some chatSession => (Returned chatSession, w)
  | None => Prisma.chatSession_create userId w
  end.
Proof.
  unfold Turn.resolveSession, Turn.contextSession, findTempSession.
  destruct isNewChat; [reflexivity|].
  destruct sessionId as [sid|]; unfold bind; rewrite query_eq;
    match goal with |- context [match ?x with _ => _ end] => destruct x end;
    reflexivity.
Qed.

(** saving never fails, whatever the message writes do *)
Lemma saveMessages_spec chatSession response shopifyProducts w :
  exists w',
    Turn.saveMessages env chatSession message response shopifyProducts w
    = (Returned tt, w')
    /\ aiLog w' = aiLog w
    /\ chatSessions (db w') = chatSessions (db w)
    /\ cartItems (db w') = cartItems (db w)
    /\ purchaseHistory (db w') = purchaseHistory (db w)
    /\ chatMessages (db w')
       = (chatMessages (db w)
          ++ savedRows env message chatSession response shopifyProducts (db w))%list.
Proof.
  unfold Turn.saveMessages, tryCatch, bind, Prisma.chatMessage_create, savedRows.
  destruct (chatMessageCreateFails env user) as [e|].
  - exists w. cbn. repeat split; auto. symmetry; apply app_nil_r.
  - destruct (chatMessageCreateFails env assistant) as [e|].
    + eexists. cbn. repeat split; reflexivity.
    + eexists. cbn. repeat split; try reflexivity.
      rewrite <- app_assoc. reflexivity.
Qed.

Lemma chatSession_touch_spec sid w :
  exists w',
    Prisma.chatSession_touch sid w = (Returned tt, w')
    /\ aiLog w' = aiLog w
    /\ chatMessages (db w') = chatMessages (db w)
    /\ cartItems (db w') = cartItems (db w)
    /\ purchaseHistory (db w') = purchaseHistory (db w)
    /\ map cs_id (chatSessions (db w')) = map cs_id (chatSessions (db w))
    /\ map cs_userId (chatSessions (db w')) = map cs_userId (chatSessions (db w)).
Proof.
  eexists. split; [reflexivity|]. cbn. repeat split; auto.
  - rewrite map_map. apply map_ext. intros s. destruct (cs_id s =? sid)%nat; reflexivity.
  - rewrite map_map. apply map_ext. intros s. destruct (cs_id s =? sid)%nat; reflexivity.
Qed.

Lemma body_course d o w' :
  Turn.body env userId message isNewChat sessionId {| db := d; aiLog := [] |} = (o, w') ->
  Course env userId message isNewChat sessionId d o w'.
Proof.
  unfold Turn.body. unfold bind at 1.
  destruct (getOrCreateSensayUser env userId) as [e|su] eqn:Hu.
  - cbn. intros H. step_eq H. apply NoSensayUser. exact Hu.
  - unfold ret at 1. cbv beta iota.
    unfold bind at 1. rewrite query_eq.
    unfold bind at 1. rewrite query_eq.
    unfold bind at 1. rewrite query_eq.
    cbn [db].
    unfold bind at 1.
    destruct (Turn.systemActionStep _ _ _ _ _ _ _ _) as [[[]|e] w1] eqn:H1.
    + unfold bind at 1.
      destruct (Turn.replyStep _ _ _ _ _ _ _) as [[[response products]|e] w2] eqn:H2.
      * unfold bind at 1. cbn [fst snd].
        rewrite resolveSession_eq.
        destruct (Turn.contextSession isNewChat sessionId userId (db w2))
          as [found|] eqn:Hf.
        -- cbv beta iota. unfold bind at 1.
           destruct (saveMessages_spec found response products w2)
             as (w4 & E4 & _).
           rewrite E4. cbv beta iota.
           unfold bind at 1.
           destruct (chatSession_touch_spec (cs_id found) w4) as (w5 & E5 & _).
           rewrite E5. cbn.
           intros H. step_eq H.
           eapply Replied; eauto.
           rewrite resolveSession_eq, Hf. reflexivity.
        -- rewrite chatSession_create_eq. cbv beta iota.
           unfold bind at 1.
           match goal with
           | |- context [Turn.saveMessages _ ?s _ _ _ ?w] =>
               destruct (saveMessages_spec s response products w) as (w4 & E4 & _)
           end.
           rewrite E4. cbv beta iota.
           unfold bind at 1.
           destruct (chatSession_touch_spec (cs_id (createdSession userId w2)) w4)
             as (w5 & E5 & _).
           rewrite E5. cbn.
           intros H. step_eq H.
           eapply (Replied _ _ _ _ _ _ su w1 response products w2 (createdSession userId w2)); eauto.
           rewrite resolveSession_eq, Hf, chatSession_create_eq. reflexivity.
      * intros H. step_eq H. eapply ReplyFailed; eauto.
    + intros H. step_eq H. eapply SystemActionFailed; eauto.
Qed.
End Persist.

(** ** What a turn leaves behind *)

Lemma contextSession_sessions isNewChat sessionId userId d1 d2 :
  chatSessions d1 = chatSessions d2 ->
  Turn.contextSession isNewChat sessionId userId d1
  = Turn.contextSession isNewChat sessionId userId d2.
Proof.
  intros H. unfold Turn.contextSession, findTempSession, sessionById, latestSession.
  rewrite H. reflexivity.
Qed.

Section CourseFacts.
Variable env : Env.
Variables (userId : Id) (message : string) (isNewChat : bool) (sessionId : option Id).

Lemma run_course d o w' :
  Turn.run env userId message isNewChat sessionId d = (o, w') ->
  match o with
  | Returned p => Course env userId message isNewChat sessionId d (Returned p) w'
  | Thrown thrown =>
      exists e, Course env userId message isNewChat sessionId d (Thrown e) w'
                /\ thrown = newError (userMessage e)
  end.
Proof.
  unfold Turn.run, Turn.sendChatMessage, tryCatch.
  destruct (Turn.body _ _ _ _ _ _) as [[p|e] w1] eqn:Hb;
    intros H; step_eq H; apply body_course in Hb.
  - exact Hb.
  - exists e. split; [exact Hb|reflexivity].
Qed.

(** a failed turn wrote no message and no session; it failed on the Sensay
    user or on the last call of the replica *)
Lemma course_failure d e w' :
  Course env userId message isNewChat sessionId d (Thrown e) w' ->
  chatMessages (db w') = chatMessages d
  /\ chatSessions (db w') = chatSessions d
  /\ ( (getOrCreateSensayUser env userId = inl e /\ aiLog w' = [])
       \/ exists calls prompt, aiLog w' = (calls ++ [(prompt, inl e)])%list ).
Proof.
  intros H. inversion H; subst; clear H.
  - cbn. auto.
  - match goal with
    | H1 : Turn.systemActionStep _ _ _ _ _ _ _ _ = _ |- _ =>
        destruct (systemActionStep_db _ _ _ _ _ _ _ _ _ _ H1) as (Hs & Hm & _);
        destruct (systemActionStep_Thrown _ _ _ _ _ _ _ _ _ _ H1) as (prompt & Hl)
    end.
    cbn in *. repeat split; auto. right. exists [], prompt. exact Hl.
  - match goal with
    | H1 : Turn.systemActionStep _ _ _ _ _ _ _ _ = _,
      H2 : Turn.replyStep _ _ _ _ _ _ _ = _ |- _ =>
        destruct (systemActionStep_db _ _ _ _ _ _ _ _ _ _ H1) as (Hs & Hm & _);
        destruct (replyStep_spec _ _ _ _ _ _ _ _ _ H2)
          as (Hd & calls & prompt & result & Hl & Ho)
    end.
    cbn in *. rewrite Hd. repeat split; auto. right.
    destruct result as [e0|r]; [|destruct Ho; discriminate].
    injection Ho as <-. exists (aiLog w1 ++ calls)%list, prompt.
    rewrite Hl. rewrite app_assoc. reflexivity.
Qed.

(** a turn that returned: its reply is the result of the last call of the
    replica, its session is the one of the context or a fresh one, and its
    rows are appended to the message table *)
Lemma course_success d p w' :
  Course env userId message isNewChat sessionId d (Returned p) w' ->
  exists calls prompt response products chatSession dSave,
    aiLog w' = (calls ++ [(prompt, inr response)])%list
    /\ p = {| success := true;
              pl_message := r_content response;
              pl_sessionId := cs_id chatSession;
              pl_timestamp := now (db w');
              isNewSession := isNewChat;
              pl_shopifyProducts := Turn.attachedProducts products |}
    /\ chatMessages (db w')
       = (chatMessages d
          ++ savedRows env message chatSession response products dSave)%list
    /\ (exists extra, cartItems (db w') = (cartItems d ++ extra)%list)
    /\ match Turn.contextSession isNewChat sessionId userId d with
       | Some found =>
           chatSession = found
           /\ map cs_id (chatSessions (db w')) = map cs_id (chatSessions d)
       | None =>
           nextId d <= cs_id chatSession
           /\ map cs_id (chatSessions (db w'))
              = (map cs_id (chatSessions d) ++ [cs_id chatSession])%list
           /\ map cs_userId (chatSessions (db w'))
              = (map cs_userId (chatSessions d) ++ [userId])%list
       end.
Proof.
  intros H. inversion H as [| | |su w1 response products w2 chatSession w3 w4 w5
                              Hu H1 H2 H3 H4 H5]; subst; clear H.
  destruct (systemActionStep_db _ _ _ _ _ _ _ _ _ _ H1) as (Hs1 & Hm1 & _ & Hi1 & Hc1).
  destruct (replyStep_spec _ _ _ _ _ _ _ _ _ H2)
    as (Hd2 & calls & prompt & result & Hl2 & Ho2).
  rewrite resolveSession_eq in H3.
  destruct (saveMessages_spec env message chatSession response products w3)
    as (w4' & E4 & Hl4 & Hs4 & Hc4 & _ & Hm4).
  rewrite E4 in H4. injection H4 as <-.
  destruct (chatSession_touch_spec (cs_id chatSession) w4')
    as (w5' & E5 & Hl5 & Hm5 & Hc5 & _ & Hs5 & Hu5).
  rewrite E5 in H5. injection H5 as <-.
  destruct result as [e0|r]; [discriminate|].
  destruct Ho2 as (ps & Ho2). injection Ho2 as <- <-.
  rewrite (contextSession_sessions isNewChat sessionId userId (db w2) d) in H3
    by (rewrite Hd2; exact Hs1).
  exists (aiLog w1 ++ calls)%list, prompt, response, products, chatSession, (db w3).
  split.
  { rewrite Hl5, Hl4.
    destruct (Turn.contextSession isNewChat sessionId userId d);
      [|rewrite chatSession_create_eq in H3]; injection H3 as <- <-; cbn;
      rewrite Hl2, app_assoc; reflexivity. }
  split; [reflexivity|].
  destruct (Turn.contextSession isNewChat sessionId userId d) as [found|].
  - injection H3 as <- <-.
    rewrite Hm5, Hm4, Hc5, Hc4, Hs5, Hs4, Hd2, Hm1, Hs1. repeat split; auto.
  - rewrite chatSession_create_eq in H3. injection H3 as <- <-.
    rewrite Hm5, Hm4, Hc5, Hc4, Hs5, Hu5, Hs4. cbn [db chatMessages cartItems chatSessions].
    rewrite !map_app, Hd2, Hm1, Hs1. cbn. repeat split; auto.
    rewrite Hd2. exact Hi1.
Qed.
End CourseFacts.

(** ** Looking a session up *)

Lemma sessionById_Some given userId d s :
  sessionById given userId d = Some s ->
  In s (chatSessions d) /\ cs_id s = given /\ cs_userId s = userId.
Proof.
  unfold sessionById. intros H. apply find_some in H. destruct H as [Hin Hb].
  apply andb_true_iff in Hb. destruct Hb as [H1 H2].
  apply Nat.eqb_eq in H1, H2. auto.
Qed.

Lemma sessionById_None given userId d :
  sessionById given userId d = None ->
  forall s, In s (chatSessions d) -> ~ (cs_id s = given /\ cs_userId s = userId).
Proof.
  unfold sessionById. intros H s Hin [H1 H2].
  apply (find_none _ _ H) in Hin. subst.
  rewrite !Nat.eqb_refl in Hin. discriminate.
Qed.

Lemma latestSession_Some userId d s :
  latestSession userId d = Some s ->
  In s (chatSessions d) /\ cs_userId s = userId
  /\ forall s', In s' (chatSessions d) -> cs_userId s' = userId ->
                cs_updatedAt s' <= cs_updatedAt s.
Proof.
  unfold latestSession. intros H.
  assert (Hin : In s (orderByDesc cs_updatedAt
                        (filter (fun s => (cs_userId s =? userId)%nat) (chatSessions d)))).
  { destruct (orderByDesc _ _); [discriminate|]. injection H as ->. left; reflexivity. }
  apply orderByDesc_In, filter_In in Hin. destruct Hin as [Hin Hu].
  apply Nat.eqb_eq in Hu. repeat split; auto.
  intros s' Hin' Hu'.
  apply (sorted_head cs_updatedAt s _ (orderByDesc_sorted cs_updatedAt _) H).
  apply orderByDesc_In, filter_In. split; [exact Hin'|].
  apply Nat.eqb_eq. exact Hu'.
Qed.

Lemma latestSession_None userId d :
  latestSession userId d = None ->
  forall s, In s (chatSessions d) -> cs_userId s <> userId.
Proof.
  unfold latestSession. intros H s Hin Hu.
  assert (Hs : In s (orderByDesc cs_updatedAt
                       (filter (fun s => (cs_userId s =? userId)%nat) (chatSessions d)))).
  { apply orderByDesc_In, filter_In. split; [exact Hin|]. apply Nat.eqb_eq. exact Hu. }
  destruct (orderByDesc _ _); [destruct Hs|discriminate].
Qed.

(** the ten latest messages of a session are messages of the session *)
Lemma recentMessages_In sid take d m :
  In m (recentMessages (Some sid) take d) ->
  In m (chatMessages d) /\ m_sessionId m = sid.
Proof.
  unfold recentMessages. intros H. apply firstn_In in H.
  apply orderByDesc_In, filter_In in H. destruct H as [Hin Hs].
  apply Nat.eqb_eq in Hs. auto.
Qed.

(** the window of a query on the messages of a session: its [take] latest
    messages, newest first *)
Lemma recentMessages_facts sid take d :
  let own := filter (fun m => (m_sessionId m =? sid)%nat) (chatMessages d) in
  let window := recentMessages (Some sid) take d in
  List.length window = Nat.min take (List.length own)
  /\ StronglySorted (newerOrEqual m_timestamp) window
  /\ (forall m, In m window -> In m (chatMessages d) /\ m_sessionId m = sid)
  /\ (forall m m', In m window -> In m' (chatMessages d) -> m_sessionId m' = sid ->
                   ~ In m' window -> m_timestamp m' <= m_timestamp m).
Proof.
  unfold recentMessages.
  set (own := filter (fun m => (m_sessionId m =? sid)%nat) (chatMessages d)).
  destruct (latest_facts m_timestamp take own) as (Hlen & Hsort & Hin & Hold).
  assert (Hown : forall m, In m own <-> In m (chatMessages d) /\ m_sessionId m = sid).
  { intros m. unfold own. rewrite filter_In, Nat.eqb_eq. tauto. }
  cbv zeta. split; [exact Hlen|]. split; [exact Hsort|].
  split; [intros m Hm; apply Hown, Hin, Hm|].
  intros m m' Hm Hd Hs Hout. apply (Hold m m' Hm); [apply Hown; auto|exact Hout].
Qed.

Lemma generated_fresh d sid :
  sessionIdsGenerated d -> nextId d <= sid -> ~ In sid (map cs_id (chatSessions d)).
Proof.
  intros Hg Hle Hin. apply in_map_iff in Hin. destruct Hin as (s & <- & Hin).
  apply Hg in Hin. lia.
Qed.

(** * The claims *)

(** ** Session resolution *)

(** C5.  A turn that returns resolved its session as follows.  With
    [isNewChat] a session is created, so the returned id is none of the ids
    the database held before.  Without [isNewChat] and with a [sessionId],
    the session with that id and that user is used, and a session is created
    if there is none.  Without [isNewChat] and without [sessionId], the
    session of the user that was updated last is used, and a session is
    created if the user has none. *)
Theorem C5_session_resolution env userId message isNewChat sessionId d p w' :
  Turn.run env userId message isNewChat sessionId d = (Returned p, w') ->
  sessionIdsGenerated d ->
  (isNewChat = true -> sessionCreated userId d (db w') (pl_sessionId p))
  /\ (isNewChat = false -> forall given, sessionId = Some given ->
        (exists s, In s (chatSessions d) /\ cs_id s = given /\ cs_userId s = userId
                   /\ pl_sessionId p = given /\ sessionsKept d (db w'))
        \/ ((forall s, In s (chatSessions d) ->
                       ~ (cs_id s = given /\ cs_userId s = userId))
            /\ sessionCreated userId d (db w') (pl_sessionId p)))
  /\ (isNewChat = false -> sessionId = None ->
        (exists s, In s (chatSessions d) /\ cs_userId s = userId
                   /\ (forall s', In s' (chatSessions d) -> cs_userId s' = userId ->
                                  cs_updatedAt s' <= cs_updatedAt s)
                   /\ pl_sessionId p = cs_id s /\ sessionsKept d (db w'))
        \/ ((forall s, In s (chatSessions d) -> cs_userId s <> userId)
            /\ sessionCreated userId d (db w') (pl_sessionId p))).
Proof.
  intros Hrun Hgen.
  apply run_course, course_success in Hrun.
  destruct Hrun as (calls & prompt & response & products & chatSession & dSave
                    & _ & -> & _ & _ & Hsession).
  cbn [pl_sessionId].
  assert (Hcreate :
            Turn.contextSession isNewChat sessionId userId d = None ->
            sessionCreated userId d (db w') (cs_id chatSession)).
  { intros E. rewrite E in Hsession. destruct Hsession as (Hle & Hids & Hus).
    repeat split; auto. apply generated_fresh; assumption. }
  unfold Turn.contextSession, findTempSession in *.
  split; [|split].
  - intros ->. apply Hcreate. reflexivity.
  - intros -> given ->.
    destruct (sessionById given userId d) as [s|] eqn:E.
    + left. destruct Hsession as [-> Hkept].
      destruct (sessionById_Some _ _ _ _ E) as (Hin & Hid & Hu).
      exists s. repeat split; auto.
    + right. split; [exact (sessionById_None _ _ _ E)|]. apply Hcreate. reflexivity.
  - intros -> ->.
    destruct (latestSession userId d) as [s|] eqn:E.
    + left. destruct Hsession as [-> Hkept].
      destruct (latestSession_Some _ _ _ E) as (Hin & Hu & Hmax).
      exists s. repeat split; auto.
    + right. split; [exact (latestSession_None _ _ E)|]. apply Hcreate. reflexivity.
Qed.

(** a new chat of user 1 on the shop database gets session 20, which is not
    session 7 *)
Lemma C5_session_resolution_witness :
  exists p w',
    Turn.run (Fixture.envSaying "Hello!") 1 "hello" true None Fixture.shopDb
    = (Returned p, w')
    /\ sessionIdsGenerated Fixture.shopDb
    /\ sessionCreated 1 Fixture.shopDb (db w') (pl_sessionId p).
Proof.
  eexists. eexists.
  assert (Hgen : sessionIdsGenerated Fixture.shopDb).
  { intros s [<-|[]]. cbn. lia. }
  split; [vm_compute; reflexivity|].
  split; [exact Hgen|].
  refine (proj1 (C5_session_resolution (Fixture.envSaying "Hello!") 1 "hello" true None
                   Fixture.shopDb _ _ _ Hgen) eq_refl).
  vm_compute. reflexivity.
Defined.

(** C10.  The [isNewSession] field of the payload is the [isNewChat]
    argument: also when the turn created a session because the given
    [sessionId] matched no session of the user, or because the user had no
    session, the field stays [false]. *)
Theorem C10_isNewSession_echoes_isNewChat env userId message isNewChat sessionId d p w' :
  Turn.run env userId message isNewChat sessionId d = (Returned p, w') ->
  isNewSession p = isNewChat
  /\ (isNewChat = false ->
      findTempSession sessionId userId d = None ->
      sessionIdsGenerated d ->
      sessionCreated userId d (db w') (pl_sessionId p) /\ isNewSession p = false).
Proof.
  intros Hrun.
  apply run_course, course_success in Hrun.
  destruct Hrun as (calls & prompt & response & products & chatSession & dSave
                    & _ & -> & _ & _ & Hsession).
  cbn [pl_sessionId isNewSession].
  split; [reflexivity|].
  intros -> Hnone Hgen.
  unfold Turn.contextSession in Hsession. rewrite Hnone in Hsession.
  destruct Hsession as (Hle & Hids & Hus).
  repeat split; auto. apply generated_fresh; assumption.
Qed.

(** session 99 does not exist: the turn creates session 20 and still
    reports [isNewSession = false] *)
Lemma C10_isNewSession_witness :
  exists p w',
    Turn.run (Fixture.envSaying "Hello!") 1 "hello" false (Some 99) Fixture.shopDb
    = (Returned p, w')
    /\ isNewSession p = false
    /\ pl_sessionId p = 20.
Proof.
  eexists. eexists.
  split; [vm_compute; reflexivity|].
  split; [|reflexivity].
  refine (proj1 (C10_isNewSession_echoes_isNewChat (Fixture.envSaying "Hello!") 1
                   "hello" false (Some 99) Fixture.shopDb _ _ _)).
  vm_compute. reflexivity.
Defined.

(** ** Failure of the replica, failure of the message writes *)

Lemma contextSession_In isNewChat sessionId userId d s :
  Turn.contextSession isNewChat sessionId userId d = Some s -> In s (chatSessions d).
Proof.
  unfold Turn.contextSession, findTempSession.
  destruct isNewChat; [discriminate|].
  destruct sessionId as [given|]; intros H.
  - apply sessionById_Some in H. tauto.
  - apply latestSession_Some in H. tauto.
Qed.

(** C6.  When the last call of the replica succeeded, the turn returns a
    payload with the reply and the id of a session of the database, whatever
    the writes of the two message rows do; a failed write only leaves the
    rows out.  When no write fails, the row of the user and the row of the
    assistant are appended to the message table, in this order. *)
Theorem C6_message_write_failure_swallowed env userId message isNewChat sessionId d o w'
    calls prompt response :
  Turn.run env userId message isNewChat sessionId d = (o, w') ->
  aiLog w' = (calls ++ [(prompt, inr response)])%list ->
  exists p,
    o = Returned p
    /\ success p = true
    /\ pl_message p = r_content response
    /\ In (pl_sessionId p) (map cs_id (chatSessions (db w')))
    /\ (chatMessageCreateFails env user <> None ->
        chatMessages (db w') = chatMessages d)
    /\ (chatMessageCreateFails env user = None ->
        chatMessageCreateFails env assistant <> None ->
        exists userTurn,
          chatMessages (db w') = (chatMessages d ++ [userTurn])%list
          /\ m_role userTurn = user /\ m_content userTurn = message)
    /\ (chatMessageCreateFails env user = None ->
        chatMessageCreateFails env assistant = None ->
        exists userTurn assistantTurn,
          chatMessages (db w') = (chatMessages d ++ [userTurn; assistantTurn])%list
          /\ m_role userTurn = user
          /\ m_content userTurn = message
          /\ m_sessionId userTurn = pl_sessionId p
          /\ m_role assistantTurn = assistant
          /\ m_content assistantTurn = pl_message p
          /\ m_sessionId assistantTurn = pl_sessionId p).
Proof.
  intros Hrun Hlog.
  apply run_course in Hrun.
  destruct o as [p|thrown].
  - exists p. split; [reflexivity|].
    apply course_success in Hrun.
    destruct Hrun as (calls' & prompt' & response' & products & chatSession & dSave
                      & Hl & -> & Hrows & _ & Hsession).
    rewrite Hlog in Hl. apply app_inj_tail in Hl. destruct Hl as [_ Hl].
    injection Hl as _ <-.
    cbn [success pl_message pl_sessionId].
    split; [reflexivity|]. split; [reflexivity|].
    split.
    { destruct (Turn.contextSession isNewChat sessionId userId d) as [found|] eqn:E.
      - destruct Hsession as [-> Hids]. rewrite Hids.
        apply in_map. eapply contextSession_In; eauto.
      - destruct Hsession as (_ & Hids & _). rewrite Hids.
        apply in_or_app. right. left. reflexivity. }
    unfold savedRows in Hrows.
    split; [|split].
    + intros Hu. destruct (chatMessageCreateFails env user); [|congruence].
      rewrite Hrows. apply app_nil_r.
    + intros Hu Ha. rewrite Hu in Hrows.
      destruct (chatMessageCreateFails env assistant); [|congruence].
      eexists. split; [exact Hrows|]. split; reflexivity.
    + intros Hu Ha. rewrite Hu, Ha in Hrows.
      eexists. eexists. split; [exact Hrows|]. repeat split.
  - exfalso. destruct Hrun as (e0 & Hc & ->).
    apply course_failure in Hc. destruct Hc as (_ & _ & [[_ Hl]|Hl]).
    + rewrite Hlog in Hl. destruct calls; discriminate.
    + destruct Hl as (calls' & prompt' & Hl).
      rewrite Hlog in Hl. apply app_inj_tail in Hl. destruct Hl as [_ Hl].
      discriminate.
Qed.

(** the write of the assistant row fails: the turn still returns the reply *)
Lemma C6_message_write_failure_witness :
  exists p w',
    Turn.run (Fixture.envOf (fun _ _ => Fixture.reply "Hello!") []
                (fun role => match role with
                             | assistant => Some Fixture.writeRejected
                             | user => None
                             end))
      1 "hello" false (Some 7) Fixture.shopDb
    = (Returned p, w')
    /\ pl_message p = "Hello!"
    /\ pl_sessionId p = 7.
Proof.
  pose proof (C6_message_write_failure_swallowed
                (Fixture.envOf (fun _ _ => Fixture.reply "Hello!") []
                   (fun role => match role with
                                | assistant => Some Fixture.writeRejected
                                | user => None
                                end))
                1 "hello" false (Some 7) Fixture.shopDb _ _ [] _ _
                eq_refl eq_refl) as (p & Ho & _ & Hm & _).
  exists p. eexists.
  split; [|split].
  - rewrite <- Ho. vm_compute. reflexivity.
  - exact Hm.
  - vm_compute in Ho. injection Ho as <-. reflexivity.
Defined.

(** ** The cart *)

(** whatever the turn does, the rows the cart held are still there, in
    their order: the turn never deletes a row *)
Lemma turn_keeps_cart_rows env userId message isNewChat sessionId d o w' :
  Turn.run env userId message isNewChat sessionId d = (o, w') ->
  exists extra, cartItems (db w') = (cartItems d ++ extra)%list.
Proof.
  intros Hrun. apply run_course in Hrun.
  destruct o as [p|thrown].
  - apply course_success in Hrun.
    destruct Hrun as (_ & _ & _ & _ & _ & _ & _ & _ & _ & Hc & _). exact Hc.
  - destruct Hrun as (e & Hc & _).
    inversion Hc as [e0 Hu|su e0 w1 Hu H1|su e0 w1 w2 Hu H1 H2|]; subst; clear Hc.
    + exists []. symmetry. apply app_nil_r.
    + apply systemActionStep_db in H1. tauto.
    + apply systemActionStep_db in H1. apply replyStep_spec in H2.
      destruct H2 as [-> _]. tauto.
Qed.

(** the branch that deletes the newest row needs [isCartManagement] and is
    entered only without [needsSystemAction]: it never runs *)
Lemma cartManagementAction_unreachable userId message response :
  needsSystemAction message = false ->
  Turn.cartManagementAction userId message response = ret tt.
Proof.
  intros H. unfold Turn.cartManagementAction.
  rewrite (needsSystemAction_false_cart message H). reflexivity.
Qed.

(** C1 (the code differs).  The message asks for a removal, the replica
    answers that the item was removed, the cart of the user holds two rows:
    after the turn the cart is what it was, the newest row included. *)
Theorem C1_newest_cart_row_not_deleted :
  isCartManagement "remove it" = true
  /\ shouldReduceCart (toLowerCase "I have removed the item from your cart.") = true
  /\ hd_error (cartOf 1 Fixture.shopDb) = Some (Fixture.cartRow 11 1 Fixture.tee 1 14)
  /\ exists p w',
       Turn.run (Fixture.envSaying "I have removed the item from your cart.")
         1 "remove it" false (Some 7) Fixture.shopDb
       = (Returned p, w')
       /\ pl_message p = "I have removed the item from your cart."
       /\ cartItems (db w') = cartItems Fixture.shopDb.
Proof.
  split; [vm_compute; reflexivity|].
  split; [vm_compute; reflexivity|].
  split; [vm_compute; reflexivity|].
  eexists. eexists.
  split; [vm_compute; reflexivity|].
  split; reflexivity.
Qed.

(** [POST /cart/add] on a product that is in the cart of the user: the row
    is updated, no row is added *)
Lemma cartAdd_existing_row userId productId productName description price quantity
    imageUrl productUrl w existing :
  truthy productId = true -> truthy productName = true ->
  CartRoute.Qzero price = false ->
  find (fun c => (c_userId c =? userId)%nat && String.eqb (c_productId c) productId)
       (cartItems (db w)) = Some existing ->
  exists reply w',
    CartRoute.cartAdd userId productId productName description price (Some quantity)
      imageUrl productUrl w = (Returned reply, w')
    /\ map c_id (cartItems (db w')) = map c_id (cartItems (db w))
    /\ forall c', In c' (cartItems (db w')) -> c_id c' = c_id existing ->
                  c_quantity c' = (c_quantity existing + quantity)%Z
                  /\ c_total c'
                     = (price * inject_Z (c_quantity existing + quantity))%Q.
Proof.
  intros Hp Hn Hz Hfind.
  unfold CartRoute.cartAdd. rewrite Hp, Hn, Hz. cbn [negb orb].
  unfold bind at 1. rewrite query_eq, Hfind.
  eexists. eexists. split; [reflexivity|].
  cbn [db cartItems snd]. split.
  - rewrite map_map. apply map_ext. intros c.
    destruct (c_id c =? c_id existing)%nat; reflexivity.
  - intros c' Hin Hid. apply in_map_iff in Hin.
    destruct Hin as (c & Hc & _).
    destruct (c_id c =? c_id existing)%nat eqn:E; subst c'; cbn in *.
    + split; reflexivity.
    + apply Nat.eqb_neq in E. contradiction.
Qed.

(** the add of the chat pipeline: whenever a product is in focus and the
    quantity is finite, a row is appended, whatever the cart holds *)
Lemma addFocusProductToCart_appends userId message temp w p quantity :
  resolveFocusProduct temp (db w) = Some p ->
  requestedQuantity message = Finite quantity ->
  exists w' row,
    Turn.addFocusProductToCart userId message temp w = (Returned tt, w')
    /\ cartItems (db w') = (cartItems (db w) ++ [row])%list
    /\ c_userId row = userId /\ c_productId row = p_id p
    /\ c_quantity row = quantity
    /\ c_total row = (p_amount p * inject_Z quantity)%Q.
Proof.
  intros H Hq. unfold Turn.addFocusProductToCart, bind. rewrite query_eq, H.
  unfold tryCatch. rewrite Hq.
  eexists. eexists. split; [reflexivity|]. cbn. repeat split.
Qed.

(** C2 (the code differs).  The mug, priced 10, is in the cart of user 1
    with quantity 1; the user confirms, the replica answers that it was
    added: the cart then holds two rows of the mug, each with quantity 1
    and total 10, where the route would have left one row with quantity 2
    and total 20. *)
Theorem C2_chat_add_duplicates_row :
  let mugRows (d : Db) :=
    map (fun c => (c_quantity c, c_total c))
        (filter (fun c => (c_userId c =? 1)%nat && String.eqb (c_productId c) "P")
                (cartItems d)) in
  mugRows Fixture.shopDb = [(1%Z, (10 # 1)%Q)]
  /\ (exists p w',
        Turn.run (Fixture.envSaying "Great choice! I have added to cart the mug.")
          1 "yes add it" false (Some 7) Fixture.shopDb
        = (Returned p, w')
        /\ mugRows (db w') = [(1%Z, (10 # 1)%Q); (1%Z, (10 # 1)%Q)])
  /\ (exists reply w',
        CartRoute.cartAdd 1 "P" "Mug" "A mug" (10 # 1)%Q (Some 1%Z) None None
          {| db := Fixture.shopDb; aiLog := [] |}
        = (Returned reply, w')
        /\ mugRows (db w') = [(2%Z, (20 # 1)%Q)]).
Proof.
  cbv zeta.
  split; [vm_compute; reflexivity|].
  split.
  - eexists. eexists. split; vm_compute; reflexivity.
  - eexists. eexists. split; vm_compute; reflexivity.
Qed.

(** ** The prompts of a turn *)

Section Prompts.
Variable env : Env.
Variables (userId : Id) (message : string) (isNewChat : bool) (sessionId : option Id).

(** the log and the cart of a turn are those of its first two steps *)
Lemma course_steps d o w' su :
  Course env userId message isNewChat sessionId d o w' ->
  getOrCreateSensayUser env userId = inr su ->
  exists o1 w1,
    Turn.systemActionStep env userId message su
      (conversationContext isNewChat sessionId userId d)
      (snd (Turn.gatherSystemData env userId message isNewChat sessionId d))
      (Turn.contextSession isNewChat sessionId userId d)
      {| db := d; aiLog := [] |} = (o1, w1)
    /\ cartItems (db w') = cartItems (db w1)
    /\ match o1 with
       | Thrown _ => aiLog w' = aiLog w1
       | Returned _ =>
           exists o2 w2,
             Turn.replyStep env userId message isNewChat su
               (conversationContext isNewChat sessionId userId d) w1 = (o2, w2)
             /\ aiLog w' = aiLog w2
       end.
Proof.
  intros Hc Hsu.
  inversion Hc as [e Hu|su' e w1 Hu H1|su' e w1 w2 Hu H1 H2
                   |su' w1 response products w2 chatSession w3 w4 w5 Hu H1 H2 H3 H4 H5];
    subst; rewrite Hsu in Hu; try discriminate; injection Hu as <-.
  - exists (Thrown e), w'. auto.
  - exists (Returned tt), w1. split; [exact H1|].
    destruct (replyStep_spec _ _ _ _ _ _ _ _ _ H2) as [Hd _]. rewrite Hd.
    split; [reflexivity|]. exists (Thrown e), w'. auto.
  - exists (Returned tt), w1. split; [exact H1|].
    destruct (replyStep_spec _ _ _ _ _ _ _ _ _ H2) as [Hd _].
    rewrite resolveSession_eq in H3.
    destruct (saveMessages_spec env message chatSession response products w3)
      as (w4' & E4 & Hl4 & _ & Hc4 & _).
    rewrite E4 in H4. injection H4 as <-.
    destruct (chatSession_touch_spec (cs_id chatSession) w4')
      as (w5' & E5 & Hl5 & _ & Hc5 & _).
    rewrite E5 in H5. injection H5 as <-.
    assert (Hw3 : aiLog w3 = aiLog w2 /\ cartItems (db w3) = cartItems (db w2)).
    { destruct (Turn.contextSession isNewChat sessionId userId (db w2));
        [|rewrite chatSession_create_eq in H3]; injection H3 as <- <-; auto. }
    destruct Hw3 as [Hl3 Hc3].
    split.
    + rewrite Hc5, Hc4, Hc3, Hd. reflexivity.
    + exists (Returned (response, products)), w2. split; [exact H2|].
      rewrite Hl5, Hl4, Hl3. reflexivity.
Qed.

(** a turn that needs a system action first sends the message, the
    conversation context and the context of the system-data block *)
Lemma first_prompt_carries_block d o w' su :
  Turn.run env userId message isNewChat sessionId d = (o, w') ->
  getOrCreateSensayUser env userId = inr su ->
  needsSystemAction message = true ->
  exists result later,
    aiLog w'
    = ((message ++ conversationContext isNewChat sessionId userId d
        ++ snd (Turn.gatherSystemData env userId message isNewChat sessionId d))%string,
       result) :: later.
Proof.
  intros Hrun Hsu Hn.
  assert (Hc : exists o0, Course env userId message isNewChat sessionId d o0 w').
  { apply run_course in Hrun. destruct o as [p|thrown].
    - eauto.
    - destruct Hrun as (e & Hc & _). eauto. }
  destruct Hc as (o0 & Hc).
  destruct (course_steps _ _ _ _ Hc Hsu) as (o1 & w1 & H1 & _ & Hlog).
  pose proof (systemActionStep_log _ _ _ _ _ _ _ _ _ _ H1) as Hl1.
  rewrite Hn in Hl1. destruct Hl1 as (result & Hl1). cbn in Hl1.
  destruct o1 as [[]|e].
  - destruct Hlog as (o2 & w2 & H2 & ->).
    destruct (replyStep_spec _ _ _ _ _ _ _ _ _ H2)
      as (_ & calls & prompt & result2 & -> & _).
    rewrite Hl1. cbn. eauto.
  - rewrite Hlog, Hl1. eauto.
Qed.

(** without a search, the reply step is one call with the message and the
    conversation context *)
Lemma replyStep_plain su context w :
  isProductSearch message = false ->
  Turn.replyStep env userId message isNewChat su context w
  = ( match chatWithReplica env (List.length (aiLog w)) su
              (Turn.contextualMessage message context) with
      | inr response => Returned (response, [])
      | inl e => Thrown e
      end,
      {| db := db w;
         aiLog := (aiLog w
                   ++ [(Turn.contextualMessage message context,
                        chatWithReplica env (List.length (aiLog w)) su
                          (Turn.contextualMessage message context))])%list |} ).
Proof.
  intros H. unfold Turn.replyStep. rewrite H.
  unfold bind. rewrite callReplica_eq.
  destruct (chatWithReplica env _ su _); reflexivity.
Qed.
End Prompts.

(** ** Plain chat *)

Lemma append_empty_r (s : string) : s ++ EmptyString = s.
Proof. induction s as [|c t IH]; cbn; [reflexivity|rewrite IH; reflexivity]. Qed.

(** the session the conversation context is read from *)
Lemma contextSession_facts isNewChat sessionId userId d :
  let session := Turn.contextSession isNewChat sessionId userId d in
  (isNewChat = true -> session = None)
  /\ (isNewChat = false -> forall given, sessionId = Some given ->
        match session with
        | Some s => In s (chatSessions d) /\ cs_id s = given /\ cs_userId s = userId
        | None => forall s, In s (chatSessions d) ->
                            ~ (cs_id s = given /\ cs_userId s = userId)
        end)
  /\ (isNewChat = false -> sessionId = None ->
        match session with
        | Some s => In s (chatSessions d) /\ cs_userId s = userId
                    /\ forall s', In s' (chatSessions d) -> cs_userId s' = userId ->
                                  cs_updatedAt s' <= cs_updatedAt s
        | None => forall s, In s (chatSessions d) -> cs_userId s <> userId
        end).
Proof.
  cbv zeta. unfold Turn.contextSession, findTempSession.
  split; [intros ->; reflexivity|]. split.
  - intros -> given ->.
    destruct (sessionById given userId d) as [s|] eqn:E.
    + exact (sessionById_Some _ _ _ _ E).
    + exact (sessionById_None _ _ _ E).
  - intros -> ->.
    destruct (latestSession userId d) as [s|] eqn:E.
    + exact (latestSession_Some _ _ _ E).
    + exact (latestSession_None _ _ E).
Qed.

(** C9 (as amended).  A message that matches none of the phrase lists
    (purchase, history, product history, cart management, specific search,
    detailed requirement, consultation answer, follow-up) needs no system
    action and no search: the system-data block and its context are empty,
    and the turn makes one call.  Its prompt is the message alone when the
    conversation context is empty; otherwise the message, the conversation
    context and a fixed hint to use that context.  The conversation context
    is empty for a new chat, without a session, and for a session without
    messages; otherwise it is the heading, one line "User: ..." or
    "Assistant: ..." for each of the fifteen latest messages of the session
    (all of them when there are fewer), oldest first, and the closing
    line.  The session is the one with the id of the request that belongs
    to the user, or without an id the session of the user updated last. *)
Theorem C9_plain_chat_prompt env userId message isNewChat sessionId d su :
  getOrCreateSensayUser env userId = inr su ->
  isPurchaseIntent message = false ->
  isHistoryInquiry message = false ->
  isSpecificProductHistoryInquiry message = false ->
  isCartManagement message = false ->
  hasSpecificIntent message = false ->
  hasDetailedRequirements message = false ->
  isAnsweringQuestions message = false ->
  isFollowUpQuestion message = false ->
  let session := Turn.contextSession isNewChat sessionId userId d in
  let window := match session with
                | Some s => recentMessages (Some (cs_id s)) 15 d
                | None => []
                end in
  let line (m : ChatMessage) :=
    (match m_role m with user => "User" | assistant => "Assistant" end)
    ++ ": " ++ m_content m ++ nl in
  let context :=
    match window with
    | [] => EmptyString
    | _ => nl ++ nl ++ "[CONVERSATION CONTEXT - Last 15 messages for context:]" ++ nl
           ++ String.concat EmptyString (map line (rev window))
           ++ "[END CONTEXT]" ++ nl
    end in
  let prompt :=
    match window with
    | [] => message
    | _ => message ++ context ++ nl ++ nl
           ++ "[SYSTEM: Use the conversation context above to provide relevant and contextual responses. Remember what the user was previously discussing.]"
    end in
  Turn.gatherSystemData env userId message isNewChat sessionId d
  = (EmptyString, EmptyString)
  /\ aiLog (snd (Turn.run env userId message isNewChat sessionId d))
     = [(prompt, chatWithReplica env 0 su prompt)]
  /\ (isNewChat = true -> session = None)
  /\ (isNewChat = false -> forall given, sessionId = Some given ->
        match session with
        | Some s => In s (chatSessions d) /\ cs_id s = given /\ cs_userId s = userId
        | None => forall s, In s (chatSessions d) ->
                            ~ (cs_id s = given /\ cs_userId s = userId)
        end)
  /\ (isNewChat = false -> sessionId = None ->
        match session with
        | Some s => In s (chatSessions d) /\ cs_userId s = userId
                    /\ forall s', In s' (chatSessions d) -> cs_userId s' = userId ->
                                  cs_updatedAt s' <= cs_updatedAt s
        | None => forall s, In s (chatSessions d) -> cs_userId s <> userId
        end)
  /\ StronglySorted (newerOrEqual m_timestamp) window
  /\ (forall s, session = Some s ->
        List.length window
        = Nat.min 15 (List.length (filter (fun m => (m_sessionId m =? cs_id s)%nat)
                                          (chatMessages d)))
        /\ (forall m, In m window -> In m (chatMessages d) /\ m_sessionId m = cs_id s)
        /\ (forall m m', In m window -> In m' (chatMessages d) ->
                         m_sessionId m' = cs_id s -> ~ In m' window ->
                         m_timestamp m' <= m_timestamp m)).
Proof.
  intros Hsu H1 H2 H3 H4 H5 H6 H7 H8 session window line context prompt.
  assert (Hn : needsSystemAction message = false).
  { unfold needsSystemAction. rewrite H1, H2, H3, H4. reflexivity. }
  assert (Hp : isProductSearch message = false).
  { unfold isProductSearch. rewrite H5, H6, H7, H8. reflexivity. }
  assert (Hcontext : conversationContext isNewChat sessionId userId d = context).
  { unfold conversationContext, context, window, session, Turn.contextSession.
    destruct isNewChat; [reflexivity|].
    destruct (findTempSession sessionId userId d) as [s|]; [|reflexivity].
    destruct (recentMessages (Some (cs_id s)) 15 d); reflexivity. }
  assert (Hprompt : Turn.contextualMessage message
                      (conversationContext isNewChat sessionId userId d) = prompt).
  { rewrite Hcontext. unfold prompt, context, Turn.contextualMessage.
    destruct window; [cbn; apply append_empty_r|reflexivity]. }
  split; [unfold Turn.gatherSystemData; rewrite Hn; reflexivity|].
  split.
  { destruct (Turn.run env userId message isNewChat sessionId d) as [o w'] eqn:Hrun.
    cbn [snd].
    assert (Hc : exists o0, Course env userId message isNewChat sessionId d o0 w').
    { apply run_course in Hrun. destruct o as [p|thrown].
      - eauto.
      - destruct Hrun as (e & Hc & _). eauto. }
    destruct Hc as (o0 & Hc).
    destruct (course_steps _ _ _ _ _ _ _ _ _ Hc Hsu) as (o1 & w1 & Hs1 & _ & Hlog).
    unfold Turn.systemActionStep in Hs1. rewrite Hn in Hs1.
    rewrite cartManagementAction_unreachable in Hs1 by exact Hn.
    injection Hs1 as <- <-.
    destruct Hlog as (o2 & w2 & Hs2 & ->).
    rewrite replyStep_plain in Hs2 by exact Hp.
    injection Hs2 as _ <-. cbn [aiLog List.length app]. rewrite Hprompt. reflexivity. }
  destruct (contextSession_facts isNewChat sessionId userId d) as (Hnew & Hgiven & Hlatest).
  split; [exact Hnew|]. split; [exact Hgiven|]. split; [exact Hlatest|].
  split.
  - unfold window. destruct session as [s|]; [|constructor].
    apply (recentMessages_facts (cs_id s) 15 d).
  - intros s Hs. unfold window. rewrite Hs.
    destruct (recentMessages_facts (cs_id s) 15 d) as (Hlen & _ & Hin & Hold).
    split; [exact Hlen|]. split; [exact Hin|exact Hold].
Qed.

(** "thanks a lot" in session 7 of the shop database, which holds two
    messages: the prompt carries them, the older first, and the hint *)
Lemma C9_plain_chat_witness :
  map fst (aiLog (snd (Turn.run (Fixture.envSaying "You are welcome.") 1 "thanks a lot"
                         false (Some 7) Fixture.shopDb)))
  = [ "thanks a lot" ++ nl ++ nl
      ++ "[CONVERSATION CONTEXT - Last 15 messages for context:]" ++ nl
      ++ "User: show me a mug" ++ nl
      ++ "Assistant: Here is a mug" ++ nl
      ++ "[END CONTEXT]" ++ nl
      ++ nl ++ nl
      ++ "[SYSTEM: Use the conversation context above to provide relevant and contextual responses. Remember what the user was previously discussing.]" ].
Proof.
  rewrite (proj1 (proj2 (C9_plain_chat_prompt (Fixture.envSaying "You are welcome.") 1
                           "thanks a lot" false (Some 7) Fixture.shopDb "sensay-user"
                           eq_refl eq_refl eq_refl eq_refl eq_refl eq_refl eq_refl
                           eq_refl eq_refl))).
  vm_compute. reflexivity.
Defined.

(** C9, as the specification states it, fails: "thanks a lot" matches no
    phrase list and is sent in a session with messages; the prompt is not
    the message with the conversation context alone, it ends with a hint
    to the replica. *)
Lemma C9_counterexample :
  let message := "thanks a lot" in
  let context := conversationContext false (Some 7) 1 Fixture.shopDb in
  let hint :=
    nl ++ nl
    ++ "[SYSTEM: Use the conversation context above to provide relevant and contextual responses. Remember what the user was previously discussing.]" in
  needsSystemAction message = false
  /\ isProductSearch message = false
  /\ context <> EmptyString
  /\ map fst (aiLog (snd (Turn.run (Fixture.envSaying "You are welcome.") 1 message
                            false (Some 7) Fixture.shopDb)))
     = [message ++ context ++ hint]
  /\ message ++ context ++ hint <> message ++ context.
Proof.
  cbv zeta.
  split; [vm_compute; reflexivity|].
  split; [vm_compute; reflexivity|].
  split; [vm_compute; discriminate|].
  split; [vm_compute; reflexivity|].
  vm_compute. discriminate.
Qed.

(** ** The purchase-history block *)

Lemma mapiFrom_nth_error {A B} (f : nat -> A -> B) l k i x :
  nth_error l i = Some x -> nth_error (mapiFrom k f l) i = Some (f (k + i) x).
Proof.
  revert k i. induction l as [|y t IH]; intros k [|i]; cbn; try discriminate.
  - intros H. injection H as ->. rewrite Nat.add_0_r. reflexivity.
  - intros H. rewrite (IH (S k) i H). f_equal. f_equal. lia.
Qed.

Lemma mapiFrom_length {A B} (f : nat -> A -> B) l k :
  List.length (mapiFrom k f l) = List.length l.
Proof. revert k. induction l as [|y t IH]; intros k; cbn; [reflexivity|]. rewrite IH. reflexivity. Qed.

Lemma recentPurchases_facts userId d :
  let mine := filter (fun p => (ph_userId p =? userId)%nat) (purchaseHistory d) in
  let records := recentPurchases userId d in
  List.length records = Nat.min 10 (List.length mine)
  /\ (forall r, In r records -> In r (purchaseHistory d) /\ ph_userId r = userId)
  /\ StronglySorted (newerOrEqual ph_purchaseDate) records
  /\ (forall r r', In r records -> In r' (purchaseHistory d) -> ph_userId r' = userId ->
                   ~ In r' records -> ph_purchaseDate r' <= ph_purchaseDate r)
  /\ (records = [] <-> forall r, In r (purchaseHistory d) -> ph_userId r <> userId).
Proof.
  unfold recentPurchases.
  set (mine := filter (fun p => (ph_userId p =? userId)%nat) (purchaseHistory d)).
  destruct (latest_facts ph_purchaseDate 10 mine) as (Hlen & Hsort & Hin & Hold).
  assert (Hmine : forall r, In r mine <-> In r (purchaseHistory d) /\ ph_userId r = userId).
  { intros r. unfold mine. rewrite filter_In, Nat.eqb_eq. tauto. }
  cbv zeta. split; [exact Hlen|].
  split; [intros r Hr; apply Hmine, Hin, Hr|].
  split; [exact Hsort|].
  split.
  - intros r r' Hr Hd Hu Hout. apply (Hold r r' Hr); [apply Hmine; auto|exact Hout].
  - split.
    + intros E r Hd Hu. rewrite E in Hlen. cbn in Hlen.
      assert (Hr : In r mine) by (apply Hmine; auto).
      destruct mine; [destruct Hr|discriminate Hlen].
    + intros Hnone. destruct (firstn 10 (orderByDesc ph_purchaseDate mine)) as [|r t] eqn:E;
        [reflexivity|].
      exfalso. destruct (proj1 (Hmine r) (Hin r (or_introl eq_refl))) as [Hd Hu].
      exact (Hnone r Hd Hu).
Qed.

(** C8 (as amended).  For a message that matches a history phrase and no
    purchase phrase, the system-data block lists the purchases the query
    returns: the ten latest purchases of the user (all of them when there
    are fewer), newest first; after the heading and their number comes one
    line for each purchase, in that order, with its rank, product, quantity,
    date and price.  When the user has no purchase the block says that no
    history was found.  The block goes out in the first prompt of the turn,
    after the message and the conversation context and before the system
    instruction. *)
Theorem C8_history_block env userId message isNewChat sessionId d :
  isHistoryInquiry message = true ->
  isPurchaseIntent message = false ->
  let mine := filter (fun p => (ph_userId p =? userId)%nat) (purchaseHistory d) in
  let records := recentPurchases userId d in
  let block := fst (Turn.gatherSystemData env userId message isNewChat sessionId d) in
  let line (index : nat) (r : PurchaseHistory) :=
    showNat (index + 1) ++ ". Product: " ++ ph_productName r
    ++ ", Quantity: " ++ showInt (ph_quantity r)
    ++ ", Date: " ++ toLocaleDateString env (ph_purchaseDate r)
    ++ ", Price: " ++ showNumber env (ph_price r) in
  List.length records = Nat.min 10 (List.length mine)
  /\ (forall r, In r records -> In r (purchaseHistory d) /\ ph_userId r = userId)
  /\ StronglySorted (newerOrEqual ph_purchaseDate) records
  /\ (forall r r', In r records -> In r' (purchaseHistory d) -> ph_userId r' = userId ->
                   ~ In r' records -> ph_purchaseDate r' <= ph_purchaseDate r)
  /\ (records = [] <-> forall r, In r (purchaseHistory d) -> ph_userId r <> userId)
  /\ (records <> [] ->
      exists listing,
        block = "[SYSTEM DATA - PURCHASE HISTORY]" ++ nl
                ++ ("Total purchases: " ++ showNat (List.length records)) ++ nl
                ++ "Recent purchases:" ++ nl
                ++ join nl listing ++ nl
                ++ nl
                ++ "[SYSTEM ACTION: Provide natural response about user's purchase history]"
        /\ List.length listing = List.length records
        /\ forall i r, nth_error records i = Some r ->
                       nth_error listing i = Some (line i r))
  /\ (records = [] ->
      block = "[SYSTEM DATA - PURCHASE HISTORY]" ++ nl
              ++ "No purchase history found for this user." ++ nl
              ++ nl
              ++ "[SYSTEM ACTION: Encourage user to start shopping]")
  /\ (forall o w' su,
        Turn.run env userId message isNewChat sessionId d = (o, w') ->
        getOrCreateSensayUser env userId = inr su ->
        exists result later,
          aiLog w'
          = ((message ++ conversationContext isNewChat sessionId userId d
              ++ nl ++ nl ++ block ++ nl ++ nl
              ++ "[SYSTEM INSTRUCTION: Based on the system data above, provide a natural, conversational response. If this is a purchase intent, only add to cart if the user clearly wants to buy. If this is a history inquiry, provide helpful information about their purchase history. Make the conversation feel natural and human-like. Do not use hardcoded responses - be conversational and natural.]")%string,
             result) :: later).
Proof.
  intros Hh Hp mine records block line.
  assert (Hn : needsSystemAction message = true).
  { unfold needsSystemAction. rewrite Hh, Hp. reflexivity. }
  assert (Hb : block = match records with
                       | [] => SystemData.historyEmpty
                       | _ => SystemData.historyFound env records
                       end).
  { unfold block, Turn.gatherSystemData, SystemData.systemData.
    rewrite Hn, Hp, Hh. cbn [fst]. fold records. destruct records; reflexivity. }
  destruct (recentPurchases_facts userId d) as (Hlen & Hown & Hsort & Hold & Hnone).
  fold mine in Hlen. fold records in Hlen, Hown, Hsort, Hold, Hnone.
  split; [exact Hlen|]. split; [exact Hown|]. split; [exact Hsort|].
  split; [exact Hold|]. split; [exact Hnone|].
  split; [|split].
  - intros Hne. exists (mapi (SystemData.historyLine env) records).
    split; [|split].
    + rewrite Hb. destruct records as [|r t]; [congruence|]. reflexivity.
    + apply mapiFrom_length.
    + intros i r Hi. unfold mapi. rewrite (mapiFrom_nth_error _ _ 0 i r Hi). reflexivity.
  - intros E. rewrite Hb, E. reflexivity.
  - intros o w' su Hrun Hsu.
    destruct (first_prompt_carries_block _ _ _ _ _ _ _ _ _ Hrun Hsu Hn)
      as (result & later & Hl).
    exists result, later. rewrite Hl.
    unfold block, Turn.gatherSystemData. rewrite Hn. reflexivity.
Qed.

(** "what did i buy" of user 1 on the shop database: the block with one
    line, for the tee, and the prompt that carries it *)
Lemma C8_history_block_witness :
  fst (Turn.gatherSystemData (Fixture.envSaying "You bought a tee.") 1
         "what did i buy" false (Some 7) Fixture.shopDb)
  = "[SYSTEM DATA - PURCHASE HISTORY]" ++ nl
    ++ "Total purchases: 1" ++ nl
    ++ "Recent purchases:" ++ nl
    ++ "1. Product: Tee, Quantity: 2, Date: 5, Price: 20" ++ nl
    ++ nl
    ++ "[SYSTEM ACTION: Provide natural response about user's purchase history]".
Proof.
  destruct (C8_history_block (Fixture.envSaying "You bought a tee.") 1
              "what did i buy" false (Some 7) Fixture.shopDb eq_refl eq_refl)
    as (_ & _ & _ & _ & _ & Hfound & _).
  destruct Hfound as (listing & Hb & Hlen & Hline); [vm_compute; discriminate|].
  rewrite Hb.
  destruct listing as [|l0 [|l1 t]]; try discriminate Hlen.
  specialize (Hline 0 _ eq_refl). injection Hline as ->.
  vm_compute. reflexivity.
Defined.

(** C8, as the specification states it, fails: "show my order history"
    matches the history phrase "order history" and the purchase phrase
    "order"; the purchase branch comes first, and the block is the one of a
    purchase intent, without the purchase of the user. *)
Lemma C8_counterexample :
  let block :=
    fst (Turn.gatherSystemData (Fixture.envSaying "Sure.") 1 "show my order history"
           false (Some 7) Fixture.shopDb) in
  isHistoryInquiry "show my order history" = true
  /\ map ph_productName (recentPurchases 1 Fixture.shopDb) = ["Tee"]
  /\ block = SystemData.purchaseFound (Fixture.envSaying "Sure.") Fixture.mug (Finite 1)
  /\ includes block "PURCHASE HISTORY" = false
  /\ includes block "Tee" = false.
Proof.
  cbv zeta. repeat split; vm_compute; reflexivity.
Qed.

(** ** The product in focus *)

Lemma focusProduct_Some_iff l p :
  focusProduct l = Some p <->
  exists newer msg sp others older,
    l = (newer ++ msg :: older)%list
    /\ Forall (fun m => carriesProduct m = false) newer
    /\ m_role msg = assistant
    /\ m_shopifyProducts msg = Some sp
    /\ productsOf sp = p :: others.
Proof.
  induction l as [|m t IH]; cbn.
  - split; [discriminate|].
    intros (newer & msg & sp & others & older & E & _). destruct newer; discriminate.
  - split.
    + intros H.
      destruct (m_role m) eqn:Hr;
        [|destruct (m_shopifyProducts m) as [sp|] eqn:Hs;
          [destruct (productsOf sp) as [|q others] eqn:Hp|]].
      3: { injection H as ->.
           exists [], m, sp, others, t. repeat split; auto. }
      all: apply IH in H;
        destruct H as (newer & msg & sp' & others' & older & -> & Hall & H1 & H2 & H3);
        exists (m :: newer), msg, sp', others', older;
        repeat split; auto; constructor; auto;
        unfold carriesProduct; rewrite Hr; try rewrite Hs; try rewrite Hp; reflexivity.
    + intros (newer & msg & sp & others & older & E & Hall & H1 & H2 & H3).
      destruct newer as [|m' newer]; cbn in E; injection E as -> ->.
      * rewrite H1, H2, H3. reflexivity.
      * inversion Hall as [|? ? Hm Hall']; subst.
        assert (Ht : focusProduct (newer ++ msg :: older) = Some p).
        { apply IH. exists newer, msg, sp, others, older. repeat split; auto. }
        unfold carriesProduct in Hm.
        destruct (m_role m'); [exact Ht|].
        destruct (m_shopifyProducts m') as [sp'|]; [|exact Ht].
        destruct (productsOf sp'); [exact Ht|discriminate].
Qed.

Lemma focusProduct_None l :
  Forall (fun m => carriesProduct m = false) l -> focusProduct l = None.
Proof.
  induction 1 as [|m t Hm Hall IH]; cbn; [reflexivity|].
  unfold carriesProduct in Hm.
  destruct (m_role m); [exact IH|].
  destruct (m_shopifyProducts m) as [sp|]; [|exact IH].
  destruct (productsOf sp); [exact IH|discriminate].
Qed.

Lemma focusProduct_None_iff l :
  focusProduct l = None <-> Forall (fun m => carriesProduct m = false) l.
Proof.
  split; [|apply focusProduct_None].
  induction l as [|m t IH]; cbn; [constructor|].
  unfold carriesProduct at 1.
  destruct (m_role m) eqn:Hr.
  - intros H. constructor; [unfold carriesProduct; rewrite Hr; reflexivity|auto].
  - destruct (m_shopifyProducts m) as [sp|] eqn:Hs.
    + destruct (productsOf sp) eqn:Hp; [|discriminate].
      intros H. constructor; [|auto].
      unfold carriesProduct. rewrite Hr, Hs, Hp. reflexivity.
    + intros H. constructor; [|auto].
      unfold carriesProduct. rewrite Hr, Hs. reflexivity.
Qed.

(** in a list sorted newest first, what follows a row is not newer *)
Lemma sorted_after {A} (key : A -> nat) before x after y :
  StronglySorted (newerOrEqual key) (before ++ x :: after)%list ->
  In y after -> key y <= key x.
Proof.
  induction before as [|b t IH]; cbn; intros H Hy.
  - apply StronglySorted_inv in H. destruct H as [_ Hall].
    rewrite Forall_forall in Hall. apply Hall, Hy.
  - apply StronglySorted_inv in H. destruct H as [H _]. auto.
Qed.

Lemma includes_app_r s t sub : includes t sub = true -> includes (s ++ t) sub = true.
Proof.
  intros H. induction s as [|c s IH]; cbn; [exact H|].
  rewrite IH. apply orb_true_r.
Qed.

Lemma includes_prefix sub s : String.prefix sub s = true -> includes s sub = true.
Proof. intros H. destruct s; cbn [includes]; rewrite H; reflexivity. Qed.

(** the last line of a block is in the block *)
Lemma includes_last_line sub (l : list string) (x : string) :
  includes x sub = true -> includes (lines (l ++ [x])%list) sub = true.
Proof.
  intros H. unfold lines. induction l as [|y t IH]; cbn [app join]; [exact H|].
  destruct (t ++ [x])%list eqn:E; [destruct t; discriminate|].
  apply includes_app_r, includes_app_r. exact IH.
Qed.

(** for a system action the block is built on the session of the context *)
Lemma systemActionSession_context message isNewChat sessionId userId d :
  needsSystemAction message = true ->
  Turn.systemActionSession message isNewChat sessionId userId d
  = Turn.contextSession isNewChat sessionId userId d.
Proof.
  intros H. unfold Turn.systemActionSession, Turn.contextSession. rewrite H.
  destruct isNewChat; reflexivity.
Qed.

(** without a product in focus the system action writes nothing *)
Lemma systemActionStep_no_focus env userId message su context systemContext temp w o w' :
  resolveFocusProduct temp (db w) = None ->
  Turn.systemActionStep env userId message su context systemContext temp w = (o, w') ->
  db w' = db w.
Proof.
  intros Hnone. unfold Turn.systemActionStep.
  destruct (needsSystemAction message) eqn:Hn.
  - unfold bind. rewrite callReplica_eq.
    destruct (chatWithReplica env _ su _) as [e|r].
    + intros H. step_eq H. reflexivity.
    + destruct (isPurchaseIntent message && truthy (r_content r)).
      * destruct (shouldAddToCart _).
        -- unfold Turn.addFocusProductToCart, bind. rewrite query_eq.
           cbn [db]. rewrite Hnone. intros H. step_eq H. reflexivity.
        -- intros H. step_eq H. reflexivity.
      * intros H. step_eq H. reflexivity.
  - rewrite cartManagementAction_unreachable by exact Hn.
    intros H. step_eq H. reflexivity.
Qed.

(** C3 (as amended).  The product in focus is looked for in the window of
    the session of the request: its ten latest messages (all of them when
    there are fewer; none for a new chat), newest first.  It is the first
    product of the first message of the window that is an assistant message
    with a product, and no message of the window with a product is newer
    than that one.  When no message of the window carries a product (so
    also when no message of the session does), there is no product in
    focus, no row is added to the cart in the turn, and the block built on
    the product in focus (for a purchase intent, and for a question on the
    history of the product) tells the replica to ask which product is
    meant; the block goes out in the first prompt of the turn. *)
Theorem C3_focus_product_among_ten_latest env userId message isNewChat sessionId d o w' :
  Turn.run env userId message isNewChat sessionId d = (o, w') ->
  let session := Turn.contextSession isNewChat sessionId userId d in
  let window := match session with
                | Some s => recentMessages (Some (cs_id s)) 10 d
                | None => []
                end in
  let block := fst (Turn.gatherSystemData env userId message isNewChat sessionId d) in
  (forall s, session = Some s ->
     List.length window
     = Nat.min 10 (List.length (filter (fun m => (m_sessionId m =? cs_id s)%nat)
                                       (chatMessages d)))
     /\ (forall m, In m window -> In m (chatMessages d) /\ m_sessionId m = cs_id s)
     /\ (forall m m', In m window -> In m' (chatMessages d) ->
                      m_sessionId m' = cs_id s -> ~ In m' window ->
                      m_timestamp m' <= m_timestamp m))
  /\ (isNewChat = true -> window = [])
  /\ StronglySorted (newerOrEqual m_timestamp) window
  /\ (forall p,
        resolveFocusProduct session d = Some p <->
        exists newer msg sp others older,
          window = (newer ++ msg :: older)%list
          /\ Forall (fun m => carriesProduct m = false) newer
          /\ m_role msg = assistant
          /\ m_shopifyProducts msg = Some sp
          /\ productsOf sp = p :: others)
  /\ (forall p,
        resolveFocusProduct session d = Some p ->
        exists msg sp others,
          In msg window
          /\ m_role msg = assistant
          /\ m_shopifyProducts msg = Some sp
          /\ productsOf sp = p :: others
          /\ forall m, In m window -> carriesProduct m = true ->
                       m_timestamp m <= m_timestamp msg)
  /\ (resolveFocusProduct session d = None
      <-> Forall (fun m => carriesProduct m = false) window)
  /\ ((forall s m, session = Some s -> In m (chatMessages d) ->
                   m_sessionId m = cs_id s -> carriesProduct m = false) ->
      resolveFocusProduct session d = None)
  /\ (resolveFocusProduct session d = None ->
      cartItems (db w') = cartItems d
      /\ (isPurchaseIntent message = true ->
          block = "[SYSTEM DATA - PURCHASE INTENT DETECTED]" ++ nl
                  ++ "No specific product found in conversation context." ++ nl
                  ++ ("User message: " ++ dquote ++ message ++ dquote) ++ nl
                  ++ ("Detected quantity: "
                      ++ SystemData.showQuantity env (requestedQuantity message)) ++ nl
                  ++ nl
                  ++ "[SYSTEM ACTION: Ask user to specify which product they want to purchase]")
      /\ (isPurchaseIntent message = false -> isHistoryInquiry message = false ->
          isSpecificProductHistoryInquiry message = true ->
          block = "[SYSTEM DATA - SPECIFIC PRODUCT HISTORY]" ++ nl
                  ++ "No specific product found in conversation context." ++ nl
                  ++ ("User message: " ++ dquote ++ message ++ dquote) ++ nl
                  ++ nl
                  ++ "[SYSTEM ACTION: Ask user to specify which product they want to check]"))
  /\ (needsSystemAction message = true ->
      forall su, getOrCreateSensayUser env userId = inr su ->
        exists result later,
          aiLog w'
          = ((message ++ conversationContext isNewChat sessionId userId d
              ++ nl ++ nl ++ block ++ nl ++ nl
              ++ "[SYSTEM INSTRUCTION: Based on the system data above, provide a natural, conversational response. If this is a purchase intent, only add to cart if the user clearly wants to buy. If this is a history inquiry, provide helpful information about their purchase history. Make the conversation feel natural and human-like. Do not use hardcoded responses - be conversational and natural.]")%string,
             result) :: later).
Proof.
  intros Hrun session window block.
  assert (Hresolve : resolveFocusProduct session d = focusProduct window).
  { unfold resolveFocusProduct, window. destruct session; reflexivity. }
  assert (Hsorted : StronglySorted (newerOrEqual m_timestamp) window).
  { unfold window. destruct session as [s|]; [|constructor].
    apply (recentMessages_facts (cs_id s) 10 d). }
  assert (Hiff : forall p,
             resolveFocusProduct session d = Some p <->
             exists newer msg sp others older,
               window = (newer ++ msg :: older)%list
               /\ Forall (fun m => carriesProduct m = false) newer
               /\ m_role msg = assistant
               /\ m_shopifyProducts msg = Some sp
               /\ productsOf sp = p :: others).
  { intros p. rewrite Hresolve. apply focusProduct_Some_iff. }
  assert (Hnone : resolveFocusProduct session d = None
                  <-> Forall (fun m => carriesProduct m = false) window).
  { rewrite Hresolve. apply focusProduct_None_iff. }
  split; [|split; [|split; [exact Hsorted|split; [exact Hiff|]]]].
  - intros s Hs. unfold window. rewrite Hs.
    destruct (recentMessages_facts (cs_id s) 10 d) as (Hlen & _ & Hin & Hold).
    split; [exact Hlen|]. split; [exact Hin|exact Hold].
  - intros E. unfold window, session, Turn.contextSession. rewrite E. reflexivity.
  - split; [|split; [exact Hnone|split]].
    + intros p Hp. apply Hiff in Hp.
      destruct Hp as (newer & msg & sp & others & older & E & Hall & Hr & Hs & Hp).
      exists msg, sp, others.
      split; [rewrite E; apply in_or_app; right; left; reflexivity|].
      split; [exact Hr|]. split; [exact Hs|]. split; [exact Hp|].
      intros m Hm Hc. rewrite E in Hm. apply in_app_or in Hm.
      destruct Hm as [Hm|[<-|Hm]].
      * rewrite Forall_forall in Hall. rewrite (Hall m Hm) in Hc. discriminate.
      * apply Nat.le_refl.
      * rewrite E in Hsorted. exact (sorted_after m_timestamp _ _ _ _ Hsorted Hm).
    + intros Hall. apply Hnone. apply Forall_forall. intros m Hm.
      unfold window in Hm. destruct session as [s|] eqn:Hs; [|destruct Hm].
      apply recentMessages_In in Hm. destruct Hm as [Hin Hsid].
      exact (Hall s m eq_refl Hin Hsid).
    + split.
      * intros Hfocus. split; [|split].
        -- assert (Hc : exists o0, Course env userId message isNewChat sessionId d o0 w').
           { apply run_course in Hrun. destruct o as [p|thrown].
             - eauto.
             - destruct Hrun as (e & Hc & _). eauto. }
           destruct Hc as (o0 & Hc).
           destruct (getOrCreateSensayUser env userId) as [e|su] eqn:Hsu.
           ++ inversion Hc; subst; try congruence. reflexivity.
           ++ destruct (course_steps _ _ _ _ _ _ _ _ _ Hc Hsu)
                as (o1 & w1 & H1 & Hcart & _).
              apply systemActionStep_no_focus in H1; [|exact Hfocus].
              rewrite Hcart, H1. reflexivity.
        -- intros Hp.
           assert (Hn : needsSystemAction message = true).
           { unfold needsSystemAction. rewrite Hp. reflexivity. }
           unfold block, Turn.gatherSystemData, SystemData.systemData.
           rewrite Hn, Hp. cbn [fst].
           rewrite systemActionSession_context by exact Hn.
           fold session. rewrite Hfocus. reflexivity.
        -- intros Hp Hh Hs.
           assert (Hn : needsSystemAction message = true).
           { unfold needsSystemAction. rewrite Hp, Hh, Hs. reflexivity. }
           unfold block, Turn.gatherSystemData, SystemData.systemData.
           rewrite Hn, Hp, Hh, Hs. cbn [fst].
           rewrite systemActionSession_context by exact Hn.
           fold session. rewrite Hfocus. reflexivity.
      * intros Hn su Hsu.
        destruct (first_prompt_carries_block _ _ _ _ _ _ _ _ _ Hrun Hsu Hn)
          as (result & later & Hl).
        exists result, later. rewrite Hl.
        unfold block, Turn.gatherSystemData. rewrite Hn. reflexivity.
Qed.

(** "yes add it" in session 7, where the assistant showed the mug after the
    greeting: the mug is in focus, and the message that carries it is a
    message of the session that no message with a product is newer than *)
Lemma C3_focus_product_witness :
  exists o w',
    Turn.run (Fixture.envSaying "Great choice! I have added to cart the mug.")
      1 "yes add it" false (Some 7) Fixture.shopDb = (o, w')
    /\ resolveFocusProduct (Turn.contextSession false (Some 7) 1 Fixture.shopDb)
         Fixture.shopDb = Some Fixture.mug
    /\ exists msg sp,
         In msg (chatMessages Fixture.shopDb)
         /\ m_sessionId msg = 7
         /\ m_role msg = assistant
         /\ m_shopifyProducts msg = Some sp
         /\ hd_error (productsOf sp) = Some Fixture.mug.
Proof.
  eexists. eexists.
  assert (Hrun : Turn.run (Fixture.envSaying "Great choice! I have added to cart the mug.")
                   1 "yes add it" false (Some 7) Fixture.shopDb = (_, _))
    by (vm_compute; reflexivity).
  split; [exact Hrun|].
  assert (Hfocus : resolveFocusProduct
                     (Turn.contextSession false (Some 7) 1 Fixture.shopDb)
                     Fixture.shopDb = Some Fixture.mug)
    by (vm_compute; reflexivity).
  split; [exact Hfocus|].
  destruct (C3_focus_product_among_ten_latest _ _ _ _ _ _ _ _ Hrun)
    as (Hwindow & _ & _ & _ & Hlatest & _).
  destruct (Hlatest _ Hfocus) as (msg & sp & others & Hin & Hr & Hs & Hp & _).
  assert (Hsession : Turn.contextSession false (Some 7) 1 Fixture.shopDb
                     = Some {| cs_id := 7; cs_userId := 1; cs_updatedAt := 12 |})
    by (vm_compute; reflexivity).
  destruct (Hwindow _ Hsession) as (_ & Hown & _).
  rewrite Hsession in Hin. destruct (Hown msg Hin) as [Hd Hsid].
  exists msg, sp. split; [exact Hd|]. split; [exact Hsid|]. split; [exact Hr|].
  split; [exact Hs|]. rewrite Hp. reflexivity.
Defined.

(** C3, as the specification states it, fails: in session 7 the only
    assistant message with a product is the oldest of eleven messages; it is
    the most recent assistant message that has one, and it is not found. *)
Lemma C3_counterexample :
  let session := {| cs_id := 7; cs_userId := 1; cs_updatedAt := 30 |} in
  let shown := Fixture.productRow 8 7 "Here is a mug" 10 Fixture.mug in
  Turn.contextSession false (Some 7) 1 Fixture.longDb = Some session
  /\ In shown (chatMessages Fixture.longDb)
  /\ m_sessionId shown = cs_id session
  /\ carriesProduct shown = true
  /\ (forall m, In m (chatMessages Fixture.longDb) -> carriesProduct m = true ->
                m = shown)
  /\ resolveFocusProduct (Some session) Fixture.longDb = None.
Proof.
  cbv zeta.
  split; [vm_compute; reflexivity|].
  split; [left; reflexivity|].
  split; [reflexivity|].
  split; [reflexivity|].
  split; [|vm_compute; reflexivity].
  intros m Hin Hc. cbn in Hin.
  repeat (destruct Hin as [<-|Hin]; [try reflexivity; discriminate Hc|]).
  destruct Hin.
Qed.

(** ** The requested quantity *)




Lemma prefix_app s t : String.prefix s (s ++ t) = true.
Proof.
  induction s as [|c s IH]; cbn.
  - destruct t; reflexivity.
  - destruct (ascii_dec c c); [exact IH|congruence].
Qed.















(** ** A failed call of the replica *)

Lemma split_last {A} (l1 : list A) x l2 m y :
  (l1 ++ x :: l2 = m ++ [y])%list -> (l2 = [] /\ x = y) \/ In x m.
Proof.
  intros E. destruct l2 as [|z l2'].
  - left. apply app_inj_tail in E. tauto.
  - right. destruct (@exists_last _ (z :: l2')) as (l & z' & El); [discriminate|].
    rewrite El, app_comm_cons, app_assoc in E. apply app_inj_tail in E.
    destruct E as [<- _]. apply in_or_app. right. left. reflexivity.
Qed.

Section FailedCalls.
Variable env : Env.
Variables (userId : Id) (message : string) (isNewChat : bool) (sessionId : option Id).

(** the prompt with the search results carries its heading *)
Lemma enhancedSearchMessage_marker context searchResults :
  includes (Turn.enhancedSearchMessage env message context searchResults)
    "[PRODUCT SEARCH RESULTS - " = true.
Proof.
  unfold Turn.enhancedSearchMessage.
  do 4 apply includes_app_r. apply includes_prefix, prefix_app.
Qed.

(** a system action that returned was answered *)
Lemma systemActionStep_answered su context systemContext temp w w' :
  Turn.systemActionStep env userId message su context systemContext temp w
  = (Returned tt, w') ->
  aiLog w' = aiLog w
  \/ exists prompt response, aiLog w' = (aiLog w ++ [(prompt, inr response)])%list.
Proof.
  unfold Turn.systemActionStep.
  destruct (needsSystemAction message) eqn:Hn.
  - unfold bind. rewrite callReplica_eq.
    destruct (chatWithReplica env _ su _) as [e0|r] eqn:Hc; [discriminate|].
    destruct (isPurchaseIntent message && truthy (r_content r)).
    + destruct (shouldAddToCart _).
      * match goal with
        | |- Turn.addFocusProductToCart _ _ _ ?w0 = _ -> _ =>
            destruct (addFocusProductToCart_spec userId message temp w0)
              as (w1 & E & Hl & _)
        end.
        rewrite E. intros H. step_eq H. right. rewrite Hl. cbn. eauto.
      * intros H. step_eq H. right. cbn. eauto.
    + intros H. step_eq H. right. cbn. eauto.
  - rewrite cartManagementAction_unreachable by exact Hn.
    intros H. step_eq H. left. reflexivity.
Qed.

(** before its last call the reply step made no call, or the call with the
    search results, which failed *)
Lemma replyStep_earlier su context w o w' :
  Turn.replyStep env userId message isNewChat su context w = (o, w') ->
  exists calls prompt result,
    aiLog w' = (aiLog w ++ calls ++ [(prompt, result)])%list
    /\ forall x, In x calls ->
         exists searchResults e,
           x = (Turn.enhancedSearchMessage env message context searchResults, inl e).
Proof.
  unfold Turn.replyStep.
  destruct (isProductSearch message).
  - unfold bind at 1. rewrite query_eq.
    destruct (searchProducts env _ 5) as [e0|results].
    + unfold bind. rewrite callReplica_eq.
      destruct (chatWithReplica env _ su _) as [e|r] eqn:Hc;
        intros H; step_eq H;
        exists []; eexists; eexists; (split; [cbn; reflexivity|]);
        intros x [].
    + unfold tryCatch, bind. rewrite callReplica_eq.
      destruct (chatWithReplica env _ su _) as [e|r] eqn:Hc.
      * rewrite callReplica_eq. cbn [db aiLog].
        match goal with
        | |- context [chatWithReplica env ?k su ?p] =>
            destruct (chatWithReplica env k su p) as [e'|r'] eqn:Hc'
        end;
          intros H; step_eq H;
          eexists [_]; eexists; eexists;
          (split; [cbn; rewrite <- app_assoc; cbn; reflexivity|]);
          intros x [<-|[]]; eauto.
      * intros H. step_eq H.
        exists []; eexists; eexists. split; [cbn; reflexivity|].
        intros x [].
  - unfold bind. rewrite callReplica_eq.
    destruct (chatWithReplica env _ su _) as [e|r] eqn:Hc;
      intros H; step_eq H;
      exists []; eexists; eexists; (split; [cbn; reflexivity|]);
      intros x [].
Qed.

(** every call of a turn but the last was answered, or was the call with
    the search results *)
Lemma earlier_calls d o w' calls prompt result x :
  Turn.run env userId message isNewChat sessionId d = (o, w') ->
  aiLog w' = (calls ++ [(prompt, result)])%list ->
  In x calls ->
  (exists p r, x = (p, inr r))
  \/ exists searchResults e,
       x = (Turn.enhancedSearchMessage env message
              (conversationContext isNewChat sessionId userId d) searchResults, inl e).
Proof.
  intros Hrun Hlog Hx.
  assert (Hc : exists o0, Course env userId message isNewChat sessionId d o0 w').
  { apply run_course in Hrun. destruct o as [p|thrown].
    - eauto.
    - destruct Hrun as (e & Hc & _). eauto. }
  destruct Hc as (o0 & Hc).
  destruct (getOrCreateSensayUser env userId) as [e|su] eqn:Hsu.
  { inversion Hc; subst; try congruence. cbn in Hlog. destruct calls; discriminate. }
  destruct (course_steps _ _ _ _ _ _ _ _ _ Hc Hsu) as (o1 & w1 & H1 & _ & Hl).
  destruct o1 as [[]|e1].
  - destruct Hl as (o2 & w2 & H2 & Hl).
    destruct (replyStep_earlier _ _ _ _ _ H2) as (callsR & promptR & resultR & HlR & Hearly).
    rewrite Hl, HlR, app_assoc in Hlog. apply app_inj_tail in Hlog.
    destruct Hlog as [<- _]. apply in_app_or in Hx. destruct Hx as [Hx|Hx].
    + left. destruct (systemActionStep_answered _ _ _ _ _ _ H1) as [E|(p & r & E)];
        cbn in E; rewrite E in Hx.
      * destruct Hx.
      * destruct Hx as [<-|[]]. eauto.
    + right. exact (Hearly x Hx).
  - apply systemActionStep_Thrown in H1. destruct H1 as (p & E). cbn in E.
    rewrite Hl, E in Hlog. destruct calls as [|c t]; [destruct Hx|].
    destruct t; discriminate Hlog.
Qed.
End FailedCalls.

(** C4 (as amended).  When a call of the replica fails in a turn, and its
    prompt is not the prompt that carries the search results, it is the
    last call of the turn: the turn throws an [Error] with the message
    chosen for the failure by the first pattern that matches (time-out,
    then "fetch failed", then 401 or Unauthorized, then 429 or rate limit,
    else the generic apology), and it wrote no message and no session. *)
Theorem C4_replica_failure_aborts env userId message isNewChat sessionId d o w'
    calls prompt e later :
  Turn.run env userId message isNewChat sessionId d = (o, w') ->
  aiLog w' = (calls ++ (prompt, inl e) :: later)%list ->
  (forall searchResults,
     prompt <> Turn.enhancedSearchMessage env message
                 (conversationContext isNewChat sessionId userId d) searchResults) ->
  let says (s : string) :=
    match e_message e with Some m => includes m s | None => false end in
  let timedOut :=
    match e_code e with
    | Some code => String.eqb code "UND_ERR_CONNECT_TIMEOUT"
    | None => false
    end || String.eqb (e_name e) "AbortError" in
  later = []
  /\ o = Thrown
           {| e_code := None; e_name := "Error";
              e_message :=
                Some (if timedOut
                      then "The request timed out. The AI service might be busy. Please try again."
                      else if says "fetch failed"
                      then "Unable to connect to the AI service. Please check your internet connection and try again."
                      else if says "401" || says "Unauthorized"
                      then "Authentication error. Please try logging out and back in."
                      else if says "429" || says "rate limit"
                      then "Too many requests. Please wait a moment before trying again."
                      else "Sorry, I'm having trouble connecting right now. Please try again in a moment.") |}
  /\ chatMessages (db w') = chatMessages d
  /\ chatSessions (db w') = chatSessions d.
Proof.
  intros Hrun Hlog Hprompt says timedOut.
  assert (Hlast : later = []).
  { destruct later as [|z later']; [reflexivity|]. exfalso.
    destruct (@exists_last _ (z :: later')) as (l & [py ry] & E); [discriminate|].
    rewrite E, app_comm_cons, app_assoc in Hlog.
    destruct (earlier_calls _ _ _ _ _ _ _ _ _ _ _ (prompt, inl e) Hrun Hlog)
      as [(p & r & Hx)|(searchResults & e' & Hx)].
    - apply in_or_app. right. left. reflexivity.
    - discriminate Hx.
    - injection Hx as Hx _. exact (Hprompt searchResults Hx). }
  split; [exact Hlast|]. subst later.
  apply run_course in Hrun.
  destruct o as [p|thrown].
  - exfalso. apply course_success in Hrun.
    destruct Hrun as (calls' & prompt' & response & _ & _ & _ & Hl & _).
    rewrite Hlog in Hl. apply app_inj_tail in Hl. destruct Hl as [_ Hl].
    discriminate.
  - destruct Hrun as (e0 & Hc & ->).
    apply course_failure in Hc. destruct Hc as (Hm & Hs & [[_ Hl]|Hl]).
    + rewrite Hlog in Hl. destruct calls; discriminate.
    + destruct Hl as (calls' & prompt' & Hl).
      rewrite Hlog in Hl. apply app_inj_tail in Hl. destruct Hl as [_ Hl].
      injection Hl as _ ->. split; [|split; [exact Hm|exact Hs]].
      unfold newError, userMessage, isTimeout, isFetchFailed, isUnauthorized,
        isRateLimited, messageIncludes, optEq.
      fold timedOut. fold (says "fetch failed"). fold (says "401").
      fold (says "Unauthorized"). fold (says "429"). fold (says "rate limit").
      destruct timedOut; [reflexivity|].
      destruct (says "fetch failed"); [reflexivity|].
      destruct (says "401" || says "Unauthorized"); [reflexivity|].
      destruct (says "429" || says "rate limit"); reflexivity.
Qed.

(** a turn whose only call of the replica times out *)
Lemma C4_replica_failure_witness :
  exists w',
    Turn.run (Fixture.envOf (fun _ _ => inl Fixture.timeout) [] (fun _ => None))
      1 "hello" false (Some 7) Fixture.shopDb
    = (Thrown {| e_code := None; e_name := "Error";
                 e_message := Some "The request timed out. The AI service might be busy. Please try again." |},
       w')
    /\ chatMessages (db w') = chatMessages Fixture.shopDb.
Proof.
  eexists.
  assert (Hrun : Turn.run (Fixture.envOf (fun _ _ => inl Fixture.timeout) []
                             (fun _ => None))
                   1 "hello" false (Some 7) Fixture.shopDb = (_, _))
    by (vm_compute; reflexivity).
  assert (Hplain : forall searchResults,
             "hello" ++ conversationContext false (Some 7) 1 Fixture.shopDb ++ nl ++ nl
             ++ "[SYSTEM: Use the conversation context above to provide relevant and contextual responses. Remember what the user was previously discussing.]"
             <> Turn.enhancedSearchMessage
                  (Fixture.envOf (fun _ _ => inl Fixture.timeout) [] (fun _ => None))
                  "hello" (conversationContext false (Some 7) 1 Fixture.shopDb)
                  searchResults).
  { intros searchResults E.
    apply (f_equal (fun text => includes text "[PRODUCT SEARCH RESULTS - ")) in E.
    rewrite enhancedSearchMessage_marker in E. vm_compute in E. discriminate E. }
  destruct (C4_replica_failure_aborts _ _ _ _ _ _ _ _ [] _ Fixture.timeout [] Hrun
              eq_refl Hplain) as (_ & Ho & Hm & _).
  split; [exact Hrun|exact Hm].
Defined.

(** C4, as the specification states it, fails: the failure "fetch failed"
    is no time-out, no authorization error and no rate limit, and the
    message it gets is not the generic apology but one of its own. *)
Lemma C4_counterexample :
  let e := Fixture.fetchFailed in
  e_code e = None
  /\ e_name e = "TypeError"
  /\ e_message e = Some "fetch failed"
  /\ (exists w',
        Turn.run (Fixture.envOf (fun _ _ => inl e) [] (fun _ => None))
          1 "hello" true None Fixture.emptyDb
        = (Thrown {| e_code := None; e_name := "Error";
                     e_message := Some "Unable to connect to the AI service. Please check your internet connection and try again." |},
           w'))
  /\ "Unable to connect to the AI service. Please check your internet connection and try again."
     <> "Sorry, I'm having trouble connecting right now. Please try again in a moment.".
Proof.
  cbv zeta.
  split; [reflexivity|]. split; [reflexivity|]. split; [reflexivity|].
  split; [eexists; vm_compute; reflexivity|discriminate].
Qed.

(** the call with the search results is another matter: the [catch] of
    lines 702-710, written for a failure of the catalogue search, also
    takes a failure of that call, and the turn goes on with the fallback
    prompt where the other paths stop.  Here the replica times out on the
    prompt with the search results, answers the fallback prompt, and the
    turn returns with both rows written. *)
Lemma search_reply_failure_is_swallowed :
  exists p w' prompt,
    Turn.run (Fixture.envOf
                (fun k _ => match k with
                            | 0 => inl Fixture.timeout
                            | _ => Fixture.reply "Here are some shoes"
                            end)
                [Fixture.tee] (fun _ => None))
      1 "show me shoes" true None Fixture.emptyDb
    = (Returned p, w')
    /\ hd_error (aiLog w') = Some (prompt, inl Fixture.timeout)
    /\ includes prompt "[PRODUCT SEARCH RESULTS - " = true
    /\ map m_role (chatMessages (db w')) = [user; assistant]
    /\ pl_message p = "Here are some shoes".
Proof.
  eexists. eexists. eexists.
  split; [vm_compute; reflexivity|].
  split; [vm_compute; reflexivity|].
  split; [vm_compute; reflexivity|].
  split; reflexivity.
Qed.

(** * Further properties of the code *)

(** ** Session titles *)

Lemma string_length_app (s t : string) :
  String.length (s ++ t) = String.length s + String.length t.
Proof. induction s as [|c s IH]; cbn; [reflexivity|rewrite IH; reflexivity]. Qed.

Lemma substring_prefix_length n (s : string) :
  n <= String.length s -> String.length (String.substring 0 n s) = n.
Proof.
  revert s. induction n as [|n IH]; intros [|c s]; cbn; intros H;
    try reflexivity; try lia.
  rewrite IH; [reflexivity|lia].
Qed.

Lemma substring_prefix_split n (s : string) :
  exists rest, s = String.substring 0 n s ++ rest.
Proof.
  revert s. induction n as [|n IH]; intros [|c s]; cbn.
  - exists EmptyString. reflexivity.
  - exists (String c s). reflexivity.
  - exists EmptyString. reflexivity.
  - destruct (IH s) as [rest E]. exists rest. rewrite <- E. reflexivity.
Qed.

Lemma append_assoc (a b c : string) : (a ++ b) ++ c = a ++ b ++ c.
Proof. induction a as [|x a IH]; cbn; [reflexivity|rewrite IH; reflexivity]. Qed.

Lemma isPieceOf_refl s : isPieceOf s s.
Proof. exists EmptyString, EmptyString. cbn. symmetry. apply append_empty_r. Qed.

Lemma isPieceOf_trans a b c : isPieceOf a b -> isPieceOf b c -> isPieceOf a c.
Proof.
  intros (x1 & y1 & ->) (x2 & y2 & ->).
  exists (x2 ++ x1), (y1 ++ y2). rewrite !append_assoc. reflexivity.
Qed.

Lemma dropWhile_piece p s : isPieceOf (dropWhile p s) s.
Proof.
  induction s as [|c s IH]; cbn; [apply isPieceOf_refl|].
  destruct (p c); [|apply isPieceOf_refl].
  destruct IH as (x & y & E). exists (String c x), y. cbn. rewrite <- E. reflexivity.
Qed.

Lemma drop_piece n s : isPieceOf (Title.drop n s) s.
Proof.
  revert s. induction n as [|n IH]; intros [|c s]; cbn; try apply isPieceOf_refl.
  destruct (IH s) as (x & y & E). exists (String c x), y. cbn. rewrite <- E. reflexivity.
Qed.

Lemma trimEnd_prefix s : exists rest, s = Title.trimEnd s ++ rest.
Proof.
  induction s as [|c s IH]; cbn; [exists EmptyString; reflexivity|].
  destruct IH as (y & E).
  destruct (Title.trimEnd s) as [|c' r] eqn:Ht.
  - destruct (isSpace c).
    + exists (String c s). reflexivity.
    + exists s. reflexivity.
  - exists y. cbn in *. rewrite <- E. reflexivity.
Qed.

Lemma trim_piece s : isPieceOf (Title.trim s) s.
Proof.
  unfold Title.trim.
  apply (isPieceOf_trans _ (dropWhile isSpace s)); [|apply dropWhile_piece].
  destruct (trimEnd_prefix (dropWhile isSpace s)) as (y & E).
  exists EmptyString, y. exact E.
Qed.

Lemma stripGreeting_piece s : isPieceOf (Title.stripGreeting s) s.
Proof.
  unfold Title.stripGreeting.
  destruct (find _ Title.greetings) as [g|]; [|apply isPieceOf_refl].
  eapply isPieceOf_trans; [apply dropWhile_piece|].
  eapply isPieceOf_trans; [|eapply isPieceOf_trans;
                             [apply (dropWhile_piece isSpace)|apply (drop_piece (String.length g))]].
  destruct (dropWhile isSpace (Title.drop (String.length g) s)) as [|c t];
    [apply isPieceOf_refl|].
  destruct (ascii_dec c ","%char) as [->|Hne].
  - exists (String ","%char EmptyString), EmptyString. cbn.
    rewrite append_empty_r. reflexivity.
  - assert (E : match c with
                | ","%char => t
                | _ => String c t
                end = String c t).
    { destruct c as [[|] [|] [|] [|] [|] [|] [|] [|]]; try reflexivity.
      exfalso. apply Hne. reflexivity. }
    rewrite E. apply isPieceOf_refl.
Qed.

Lemma generateSessionTitle_length firstMessage :
  3 <= String.length (Title.generateSessionTitle firstMessage) <= 43.
Proof.
  unfold Title.generateSessionTitle.
  set (title := Title.stripGreeting (Title.trim firstMessage)).
  destruct (40 <? String.length title)%nat eqn:Hlong.
  - apply Nat.ltb_lt in Hlong.
    assert (Hlen : String.length (String.substring 0 40 title ++ "...") = 43).
    { rewrite string_length_app, substring_prefix_length by lia. reflexivity. }
    rewrite Hlen. cbn [Nat.ltb Nat.leb]. rewrite Hlen. lia.
  - apply Nat.ltb_ge in Hlong.
    destruct (String.length title <? 3)%nat eqn:Hshort.
    + cbn. lia.
    + apply Nat.ltb_ge in Hshort. lia.
Qed.

(** X1.  A session title has between 3 and 43 characters, whatever the
    message. *)
Theorem X1_title_length firstMessage :
  3 <= String.length (Title.generateSessionTitle firstMessage) <= 43.
Proof. exact (generateSessionTitle_length firstMessage). Qed.

(** X2.  A session title is "Chat Session", or a run of at most 40
    consecutive characters of the message, followed by "..." exactly when
    the text left after trimming and removing the greeting is longer than
    40 characters. *)
Theorem X2_title_from_message firstMessage :
  let title := Title.generateSessionTitle firstMessage in
  let text := Title.stripGreeting (Title.trim firstMessage) in
  title = "Chat Session"
  \/ (exists piece,
        isPieceOf piece firstMessage
        /\ String.length piece <= 40
        /\ ((String.length text <= 40 /\ title = piece)
            \/ (40 < String.length text /\ title = piece ++ "..."
                /\ String.prefix piece text = true))).
Proof.
  cbv zeta. unfold Title.generateSessionTitle.
  set (text := Title.stripGreeting (Title.trim firstMessage)).
  assert (Hpiece : isPieceOf text firstMessage).
  { eapply isPieceOf_trans; [apply stripGreeting_piece|apply trim_piece]. }
  destruct (40 <? String.length text)%nat eqn:Hlong.
  - apply Nat.ltb_lt in Hlong. right.
    assert (Hlen : String.length (String.substring 0 40 text) = 40)
      by (apply substring_prefix_length; lia).
    destruct (String.length (String.substring 0 40 text ++ "...") <? 3)%nat eqn:Hs.
    { apply Nat.ltb_lt in Hs. rewrite string_length_app, Hlen in Hs. cbn in Hs. lia. }
    exists (String.substring 0 40 text).
    destruct (substring_prefix_split 40 text) as (rest & E).
    split; [|split; [lia|right; repeat split; auto]].
    + eapply isPieceOf_trans; [|exact Hpiece].
      exists EmptyString, rest. exact E.
    + rewrite E at 2. apply prefix_app.
  - apply Nat.ltb_ge in Hlong.
    destruct (String.length text <? 3)%nat; [left; reflexivity|].
    right. exists text. split; [exact Hpiece|]. split; [exact Hlong|].
    left. split; [exact Hlong|reflexivity].
Qed.

(** ** Lists of sessions and of messages *)

Section OrderByAscFacts.
Context {A : Type} (key : A -> nat).

Lemma insertAsc_In x y l : In y (insertAsc key x l) <-> y = x \/ In y l.
Proof.
  induction l as [|z t IH]; simpl.
  - intuition.
  - destruct (key x <=? key z)%nat; simpl; [intuition|].
    rewrite IH. intuition.
Qed.

Lemma orderByAsc_In y l : In y (orderByAsc key l) <-> In y l.
Proof.
  induction l as [|x t IH]; simpl; [tauto|].
  rewrite insertAsc_In, IH. intuition.
Qed.

Lemma insertAsc_length x l : List.length (insertAsc key x l) = S (List.length l).
Proof.
  induction l as [|z t IH]; simpl; [reflexivity|].
  destruct (key x <=? key z)%nat; simpl; congruence.
Qed.

Lemma orderByAsc_length l : List.length (orderByAsc key l) = List.length l.
Proof.
  induction l as [|x t IH]; simpl; [reflexivity|].
  rewrite insertAsc_length. congruence.
Qed.

Lemma insertAsc_sorted x l :
  StronglySorted (fun a b => key a <= key b) l ->
  StronglySorted (fun a b => key a <= key b) (insertAsc key x l).
Proof.
  induction 1 as [|z t Hs IH Hall]; simpl.
  - constructor; constructor.
  - destruct (key x <=? key z)%nat eqn:E.
    + apply Nat.leb_le in E. constructor.
      * constructor; assumption.
      * constructor; [exact E|].
        eapply Forall_impl; [|exact Hall]. cbn. intros; lia.
    + apply Nat.leb_gt in E. constructor; [exact IH|].
      apply Forall_forall. intros y Hy.
      apply insertAsc_In in Hy. destruct Hy as [->|Hy].
      * lia.
      * rewrite Forall_forall in Hall. auto.
Qed.

Lemma orderByAsc_sorted l :
  StronglySorted (fun a b => key a <= key b) (orderByAsc key l).
Proof.
  induction l as [|x t IH]; simpl; [constructor|].
  apply insertAsc_sorted, IH.
Qed.

(** a row that is not older than the rows before it stays last *)
Lemma insertAsc_last y l x :
  key y <= key x -> insertAsc key y (l ++ [x])%list = (insertAsc key y l ++ [x])%list.
Proof.
  intros H. induction l as [|z t IH]; simpl.
  - apply Nat.leb_le in H. rewrite H. reflexivity.
  - destruct (key y <=? key z)%nat; [reflexivity|]. rewrite IH. reflexivity.
Qed.

Lemma orderByAsc_last l x :
  (forall y, In y l -> key y <= key x) ->
  orderByAsc key (l ++ [x])%list = (orderByAsc key l ++ [x])%list.
Proof.
  induction l as [|y t IH]; intros H; simpl; [reflexivity|].
  rewrite IH by (intros; apply H; right; assumption).
  apply insertAsc_last. apply H. left. reflexivity.
Qed.

End OrderByAscFacts.

Lemma StronglySorted_map {A B} (f : A -> B) (R : B -> B -> Prop) l :
  StronglySorted (fun a b => R (f a) (f b)) l -> StronglySorted R (map f l).
Proof.
  induction 1 as [|x t Hs IH Hall]; cbn; constructor; [exact IH|].
  apply Forall_forall. intros y Hy. apply in_map_iff in Hy.
  destruct Hy as (z & <- & Hz). rewrite Forall_forall in Hall. auto.
Qed.

Lemma messagesOf_In sid d m :
  In m (messagesOf sid d) <-> In m (chatMessages d) /\ m_sessionId m = sid.
Proof.
  unfold messagesOf. rewrite orderByAsc_In, filter_In, Nat.eqb_eq. tauto.
Qed.

Lemma listed_facts userId d :
  let sessions := Sessions.listed userId d in
  List.length sessions <= 20
  /\ StronglySorted (newerOrEqual cs_updatedAt) sessions
  /\ (forall s, In s sessions -> In s (chatSessions d) /\ cs_userId s = userId)
  /\ (forall s s', In s sessions -> In s' (chatSessions d) -> cs_userId s' = userId ->
                   ~ In s' sessions -> cs_updatedAt s' <= cs_updatedAt s).
Proof.
  unfold Sessions.listed.
  set (mine := filter (fun s => (cs_userId s =? userId)%nat) (chatSessions d)).
  set (sorted := orderByDesc cs_updatedAt mine).
  assert (Hmine : forall s, In s sorted <-> In s (chatSessions d) /\ cs_userId s = userId).
  { intros s. unfold sorted, mine. rewrite orderByDesc_In, filter_In, Nat.eqb_eq. tauto. }
  cbv zeta. split; [apply firstn_le_length|].
  split; [apply sorted_firstn, orderByDesc_sorted|].
  split; [intros s Hs; apply Hmine; eapply firstn_In; exact Hs|].
  intros s s' Hs Hin Hu Hout.
  assert (Hs' : In s' sorted) by (apply Hmine; auto).
  rewrite <- (firstn_skipn 20 sorted) in Hs'. apply in_app_or in Hs'.
  destruct Hs' as [Hs'|Hs']; [contradiction|].
  eapply (sorted_firstn_skipn cs_updatedAt 20 sorted);
    [apply orderByDesc_sorted|exact Hs|exact Hs'].
Qed.

(** X3.  [getChatSessions] answers at most 20 summaries, one for each
    listed session of the user and of nobody else, the session updated last
    first; a session of the user that is left out was not updated after a
    listed one; the count of a summary is the number of messages of its
    session, and its title has 3 to 43 characters. *)
Theorem X3_session_summaries userId d :
  let result := Sessions.getChatSessions userId d in
  List.length result <= 20
  /\ StronglySorted (newerOrEqual ss_timestamp) result
  /\ (forall summary, In summary result ->
        exists session,
          In session (chatSessions d)
          /\ cs_userId session = userId
          /\ ss_id summary = cs_id session
          /\ ss_timestamp summary = cs_updatedAt session
          /\ ss_messageCount summary
             = List.length (filter (fun m => (m_sessionId m =? cs_id session)%nat)
                                   (chatMessages d))
          /\ 3 <= String.length (ss_title summary) <= 43)
  /\ (forall summary session,
        In summary result -> In session (chatSessions d) ->
        cs_userId session = userId ->
        ~ In session (Sessions.listed userId d) ->
        cs_updatedAt session <= ss_timestamp summary).
Proof.
  cbv zeta. unfold Sessions.getChatSessions.
  destruct (listed_facts userId d) as (Hlen & Hsort & Hown & Hold).
  split; [rewrite length_map; exact Hlen|].
  split; [apply StronglySorted_map; exact Hsort|].
  split.
  - intros summary Hin. apply in_map_iff in Hin. destruct Hin as (s & <- & Hs).
    destruct (Hown s Hs) as [Hd Hu].
    exists s. cbn. repeat split; auto.
    + unfold messagesOf. apply orderByAsc_length.
    + apply generateSessionTitle_length.
    + apply generateSessionTitle_length.
  - intros summary session Hin Hd Hu Hout.
    apply in_map_iff in Hin. destruct Hin as (s & <- & Hs). cbn.
    eapply Hold; eauto.
Qed.

Lemma orElse_cases a b :
  orElse a b = b \/ (a = Some (orElse a b) /\ truthy (orElse a b) = true).
Proof.
  unfold orElse. destruct a as [s|]; [|left; reflexivity].
  destruct (truthy s) eqn:E; [right; auto|left; reflexivity].
Qed.

(** X4.  In the list of sessions, a session without messages is shown as
    "Chat Session" with "No messages"; and a last message other than "No
    messages" is the text of a message of the session that no message of
    the session is newer than. *)
Theorem X4_session_summary_texts userId d summary :
  In summary (Sessions.getChatSessions userId d) ->
  (ss_messageCount summary = 0 ->
   ss_title summary = "Chat Session" /\ ss_lastMessage summary = "No messages")
  /\ (ss_lastMessage summary <> "No messages" ->
      exists m,
        In m (chatMessages d)
        /\ m_sessionId m = ss_id summary
        /\ m_content m = ss_lastMessage summary
        /\ forall m', In m' (chatMessages d) -> m_sessionId m' = ss_id summary ->
                      m_timestamp m' <= m_timestamp m).
Proof.
  unfold Sessions.getChatSessions. intros Hin.
  apply in_map_iff in Hin. destruct Hin as (s & <- & Hs).
  unfold Sessions.summary.
  cbn [ss_messageCount ss_title ss_lastMessage ss_id].
  split.
  - intros Hcount.
    assert (Hnone : filter (fun m => (m_sessionId m =? cs_id s)%nat) (chatMessages d) = []).
    { unfold messagesOf in Hcount. rewrite orderByAsc_length in Hcount.
      destruct (filter _ _); [reflexivity|discriminate]. }
    unfold messagesOf, Sessions.lastMessage. rewrite Hnone. split; reflexivity.
  - intros Hlast.
    destruct (orElse_cases (option_map m_content (Sessions.lastMessage (cs_id s) d))
                "No messages") as [E|[E _]]; [congruence|].
    set (text := orElse (option_map m_content (Sessions.lastMessage (cs_id s) d))
                   "No messages") in *.
    clearbody text.
    unfold Sessions.lastMessage in E.
    set (sorted := orderByDesc m_timestamp
                     (filter (fun m => (m_sessionId m =? cs_id s)%nat) (chatMessages d)))
      in *.
    destruct (hd_error sorted) as [m|] eqn:Hhd; [|discriminate].
    cbn in E. injection E as E.
    assert (Hm : In m sorted).
    { destruct sorted; [discriminate|]. injection Hhd as ->. left. reflexivity. }
    apply orderByDesc_In, filter_In in Hm. destruct Hm as [Hd Hsid].
    apply Nat.eqb_eq in Hsid.
    exists m. split; [exact Hd|]. split; [exact Hsid|]. split; [exact E|].
    intros m' Hd' Hsid'.
    apply (sorted_head m_timestamp m sorted (orderByDesc_sorted _ _) Hhd).
    apply orderByDesc_In, filter_In. split; [exact Hd'|]. apply Nat.eqb_eq. exact Hsid'.
Qed.

(** session 7 of the shop database: its last message is the mug *)
Lemma X4_session_summary_witness :
  exists summary,
    In summary (Sessions.getChatSessions 1 Fixture.shopDb)
    /\ ss_lastMessage summary = "Here is a mug"
    /\ exists m, In m (chatMessages Fixture.shopDb) /\ m_content m = "Here is a mug"
                 /\ m_sessionId m = 7.
Proof.
  eexists. split; [left; reflexivity|]. split; [reflexivity|].
  destruct (proj2 (X4_session_summary_texts 1 Fixture.shopDb _ (or_introl eq_refl)))
    as (m & Hd & Hs & Hc & _).
  - cbn. discriminate.
  - exists m. auto.
Defined.

(** ** The chat history *)

Lemma sessionsOf_facts userId sessionId d s :
  In s (History.sessionsOf userId sessionId d) ->
  In s (chatSessions d) /\ cs_userId s = userId
  /\ (forall sid, sessionId = Some sid -> cs_id s = sid).
Proof.
  unfold History.sessionsOf. intros H. apply firstn_In in H.
  apply orderByDesc_In, filter_In in H. destruct H as [Hd Hb].
  apply andb_true_iff in Hb. destruct Hb as [Hu Hs]. apply Nat.eqb_eq in Hu.
  repeat split; auto. intros sid ->. apply Nat.eqb_eq. exact Hs.
Qed.

(** X5.  [getChatHistory] only answers messages of sessions of the user:
    each message of the answer is a row of a session that belongs to the
    user (the session asked for, when one is asked for).  Asking for a
    session the user does not own gives the empty list. *)
Theorem X5_history_of_own_sessions userId sessionId d :
  (forall h, In h (History.getChatHistory userId sessionId d) ->
     exists m s,
       In m (chatMessages d) /\ History.selected m = h
       /\ In s (chatSessions d) /\ cs_userId s = userId
       /\ m_sessionId m = cs_id s
       /\ (forall sid, sessionId = Some sid -> cs_id s = sid))
  /\ (forall sid, sessionId = Some sid ->
        (forall s, In s (chatSessions d) -> cs_id s = sid -> cs_userId s <> userId) ->
        History.getChatHistory userId sessionId d = []).
Proof.
  split.
  - intros h Hh. unfold History.getChatHistory in Hh.
    apply in_flat_map in Hh. destruct Hh as (s & Hs & Hm).
    apply in_map_iff in Hm. destruct Hm as (m & <- & Hm).
    apply messagesOf_In in Hm. destruct Hm as [Hd Hsid].
    destruct (sessionsOf_facts _ _ _ _ Hs) as (Hsd & Hu & Hid).
    exists m, s. repeat split; auto.
  - intros sid -> Hforeign. unfold History.getChatHistory.
    destruct (History.sessionsOf userId (Some sid) d) as [|s rest] eqn:E; [reflexivity|].
    exfalso.
    destruct (sessionsOf_facts userId (Some sid) d s) as (Hsd & Hu & Hid).
    { rewrite E. left. reflexivity. }
    exact (Hforeign s Hsd (Hid sid eq_refl) Hu).
Qed.

(** user 2 asks for session 7, which belongs to user 1 *)
Lemma X5_history_witness : History.getChatHistory 2 (Some 7) Fixture.shopDb = [].
Proof.
  apply (proj2 (X5_history_of_own_sessions 2 (Some 7) Fixture.shopDb) 7 eq_refl).
  intros s [<-|[]] _. cbn. discriminate.
Defined.

(** ** A turn in detail *)

Section TurnDetail.
Variable env : Env.
Variables (userId : Id) (message : string) (isNewChat : bool) (sessionId : option Id).

Lemma systemActionStep_now su context systemContext temp w o w' :
  Turn.systemActionStep env userId message su context systemContext temp w = (o, w') ->
  now (db w) <= now (db w').
Proof.
  unfold Turn.systemActionStep.
  destruct (needsSystemAction message) eqn:Hn.
  - unfold bind. rewrite callReplica_eq.
    destruct (chatWithReplica env _ su _) as [e|r].
    + intros H. step_eq H. reflexivity.
    + destruct (isPurchaseIntent message && truthy (r_content r)).
      * destruct (shouldAddToCart _).
        -- unfold Turn.addFocusProductToCart, bind. rewrite query_eq.
           destruct (resolveFocusProduct temp _);
             [unfold tryCatch; destruct (requestedQuantity message)|];
             intros H; step_eq H; cbn; lia.
        -- intros H. step_eq H. reflexivity.
      * intros H. step_eq H. reflexivity.
  - rewrite cartManagementAction_unreachable by exact Hn.
    intros H. step_eq H. reflexivity.
Qed.

Lemma chatSession_touch_eq sid w :
  Prisma.chatSession_touch sid w =
  ( Returned tt,
    {| db := {| chatSessions := map (touched sid (now (db w))) (chatSessions (db w));
                chatMessages := chatMessages (db w);
                cartItems := cartItems (db w);
                purchaseHistory := purchaseHistory (db w);
                nextId := nextId (db w);
                now := S (now (db w)) |};
       aiLog := aiLog w |} ).
Proof. reflexivity. Qed.

Lemma saveMessages_now chatSession response products w w' :
  Turn.saveMessages env chatSession message response products w = (Returned tt, w') ->
  now (db w) <= now (db w').
Proof.
  unfold Turn.saveMessages, tryCatch, bind, Prisma.chatMessage_create.
  destruct (chatMessageCreateFails env user).
  - intros H. step_eq H. reflexivity.
  - destruct (chatMessageCreateFails env assistant);
      intros H; step_eq H; cbn; lia.
Qed.

Lemma contextSession_user d s :
  Turn.contextSession isNewChat sessionId userId d = Some s -> cs_userId s = userId.
Proof.
  unfold Turn.contextSession, findTempSession.
  destruct isNewChat; [discriminate|].
  destruct sessionId as [given|]; intros H.
  - apply sessionById_Some in H. tauto.
  - apply latestSession_Some in H. tauto.
Qed.

(** what a turn that returned wrote: its rows at the end of the message
    table, the time stamp of its session, and nothing in the purchases *)
Lemma course_success_detail d p w' :
  Course env userId message isNewChat sessionId d (Returned p) w' ->
  exists response products chatSession dSave stamp,
    p = {| success := true;
           pl_message := r_content response;
           pl_sessionId := cs_id chatSession;
           pl_timestamp := now (db w');
           isNewSession := isNewChat;
           pl_shopifyProducts := Turn.attachedProducts products |}
    /\ chatMessages (db w')
       = (chatMessages d
          ++ savedRows env message chatSession response products dSave)%list
    /\ purchaseHistory (db w') = purchaseHistory d
    /\ now d <= now dSave
    /\ now d <= stamp
    /\ cs_userId chatSession = userId
    /\ chatSessions (db w')
       = map (touched (cs_id chatSession) stamp)
             (match Turn.contextSession isNewChat sessionId userId d with
              | Some _ => chatSessions d
              | None => (chatSessions d ++ [chatSession])%list
              end)
    /\ match Turn.contextSession isNewChat sessionId userId d with
       | Some found => chatSession = found
       | None => True
       end.
Proof.
  intros H. inversion H as [| | |su w1 response products w2 chatSession w3 w4 w5
                              Hu H1 H2 H3 H4 H5]; subst; clear H.
  pose proof (systemActionStep_now _ _ _ _ _ _ _ H1) as Hn1.
  destruct (systemActionStep_db _ _ _ _ _ _ _ _ _ _ H1) as (Hs1 & Hm1 & Hp1 & _ & _).
  destruct (replyStep_spec _ _ _ _ _ _ _ _ _ H2) as (Hd2 & _).
  rewrite resolveSession_eq in H3.
  pose proof (saveMessages_now _ _ _ _ _ H4) as Hn4.
  destruct (saveMessages_spec env message chatSession response products w3)
    as (w4' & E4 & _ & Hs4 & _ & Hp4 & Hm4).
  rewrite E4 in H4. injection H4 as <-.
  rewrite chatSession_touch_eq in H5. injection H5 as <-.
  rewrite (contextSession_sessions isNewChat sessionId userId (db w2) d) in H3
    by (rewrite Hd2; exact Hs1).
  cbn [db chatMessages chatSessions purchaseHistory now] in *.
  exists response, products, chatSession, (db w3), (now (db w4')).
  split; [reflexivity|].
  destruct (Turn.contextSession isNewChat sessionId userId d) as [found|] eqn:Hc.
  - injection H3 as <- <-.
    rewrite Hm4, Hp4, Hs4, Hd2, Hm1, Hp1, Hs1. rewrite Hd2 in Hn4.
    repeat split; auto; try lia.
    eapply contextSession_user; eauto.
  - rewrite chatSession_create_eq in H3. injection H3 as <- <-.
    cbn [db chatMessages chatSessions purchaseHistory now] in *.
    rewrite Hm4, Hp4, Hs4, Hd2, Hm1, Hp1, Hs1. rewrite Hd2 in Hn4.
    repeat split; auto; try lia.
Qed.
End TurnDetail.

Lemma filter_app_two {A} (f : A -> bool) l a b :
  f a = true -> f b = true -> filter f (l ++ [a; b])%list = (filter f l ++ [a; b])%list.
Proof. intros Ha Hb. rewrite filter_app. cbn. rewrite Ha, Hb. reflexivity. Qed.

(** the session of a turn is in the session table afterwards, with its time stamp *)
Lemma session_of_turn_listed userId isNewChat sessionId d chatSession stamp :
  cs_userId chatSession = userId ->
  match Turn.contextSession isNewChat sessionId userId d with
  | Some found => chatSession = found
  | None => True
  end ->
  In {| cs_id := cs_id chatSession; cs_userId := userId; cs_updatedAt := stamp |}
     (map (touched (cs_id chatSession) stamp)
          (match Turn.contextSession isNewChat sessionId userId d with
           | Some _ => chatSessions d
           | None => (chatSessions d ++ [chatSession])%list
           end)).
Proof.
  intros Hu Hc. apply in_map_iff. exists chatSession. split.
  - unfold touched. rewrite Nat.eqb_refl, Hu. reflexivity.
  - destruct (Turn.contextSession isNewChat sessionId userId d) as [found|] eqn:E.
    + subst found. eapply contextSession_In; eauto.
    + apply in_or_app. right. left. reflexivity.
Qed.

(** X6.  After a turn that returned, with no failed write, the history of
    the session of the turn is what the session held before, followed by
    the message of the user and the reply, in this order (given that the
    clock of the database is ahead of the time stamps of its messages). *)
Theorem X6_turn_then_history env userId message isNewChat sessionId d p w' :
  Turn.run env userId message isNewChat sessionId d = (Returned p, w') ->
  chatMessageCreateFails env user = None ->
  chatMessageCreateFails env assistant = None ->
  (forall m, In m (chatMessages d) -> m_timestamp m < now d) ->
  exists userTurn assistantTurn,
    History.getChatHistory userId (Some (pl_sessionId p)) (db w')
    = (map History.selected (messagesOf (pl_sessionId p) d)
       ++ [userTurn; assistantTurn])%list
    /\ h_role userTurn = user /\ h_content userTurn = message
    /\ h_role assistantTurn = assistant /\ h_content assistantTurn = pl_message p.
Proof.
  intros Hrun Hwu Hwa Hclock.
  apply run_course, course_success_detail in Hrun.
  destruct Hrun as (response & products & chatSession & dSave & stamp
                    & -> & Hrows & _ & Hnow & _ & Hu & Hsessions & Hfound).
  cbn [pl_sessionId pl_message].
  unfold savedRows in Hrows. rewrite Hwu, Hwa in Hrows.
  pose proof (session_of_turn_listed userId isNewChat sessionId d chatSession stamp
                Hu Hfound) as Hin.
  rewrite <- Hsessions in Hin.
  (* the one session of the query has the id of the session of the turn *)
  assert (Hone : exists s, History.sessionsOf userId (Some (cs_id chatSession)) (db w') = [s]
                           /\ cs_id s = cs_id chatSession).
  { unfold History.sessionsOf.
    set (f := fun s => (cs_userId s =? userId)%nat && (cs_id s =? cs_id chatSession)%nat).
    assert (Hf : In {| cs_id := cs_id chatSession; cs_userId := userId;
                       cs_updatedAt := stamp |}
                    (orderByDesc cs_updatedAt (filter f (chatSessions (db w'))))).
    { apply orderByDesc_In, filter_In. split; [exact Hin|].
      unfold f. cbn. rewrite !Nat.eqb_refl. reflexivity. }
    destruct (orderByDesc cs_updatedAt (filter f (chatSessions (db w'))))
      as [|s rest] eqn:E; [destruct Hf|].
    exists s. split; [reflexivity|].
    assert (Hs : In s (orderByDesc cs_updatedAt (filter f (chatSessions (db w')))))
      by (rewrite E; left; reflexivity).
    apply orderByDesc_In, filter_In in Hs. destruct Hs as [_ Hs].
    unfold f in Hs. apply andb_true_iff in Hs. apply Nat.eqb_eq. tauto. }
  destruct Hone as (s & Hs & Hid).
  unfold History.getChatHistory. rewrite Hs. cbn [flat_map]. rewrite app_nil_r, Hid.
  unfold messagesOf. rewrite Hrows.
  rewrite filter_app_two by (cbn; apply Nat.eqb_refl).
  set (old := filter (fun m => (m_sessionId m =? cs_id chatSession)%nat) (chatMessages d)).
  assert (Hold : forall m, In m old -> m_timestamp m < now dSave).
  { intros m Hm. apply filter_In in Hm. destruct Hm as [Hm _].
    apply Hclock in Hm. lia. }
  change (old ++ [userRow message chatSession dSave;
                  assistantRow chatSession response products dSave])%list
    with (old ++ [userRow message chatSession dSave]
              ++ [assistantRow chatSession response products dSave])%list.
  rewrite app_assoc.
  rewrite orderByAsc_last.
  2:{ intros y Hy. apply in_app_or in Hy. destruct Hy as [Hy|[<-|[]]].
      - apply Hold in Hy. cbn. lia.
      - cbn. lia. }
  rewrite orderByAsc_last.
  2:{ intros y Hy. apply Hold in Hy. cbn. lia. }
  rewrite <- app_assoc, map_app. cbn [map app].
  eexists. eexists. split; [reflexivity|]. repeat split.
Qed.

(** "hello" in session 7 of the shop database: the history then ends with
    "hello" and "Hello!" *)
Lemma X6_turn_then_history_witness :
  exists p w',
    Turn.run (Fixture.envSaying "Hello!") 1 "hello" false (Some 7) Fixture.shopDb
    = (Returned p, w')
    /\ map h_content (History.getChatHistory 1 (Some (pl_sessionId p)) (db w'))
       = ["show me a mug"; "Here is a mug"; "hello"; "Hello!"].
Proof.
  eexists. eexists. split; [vm_compute; reflexivity|].
  match goal with
  | |- map h_content (History.getChatHistory _ (Some (pl_sessionId ?p)) (db ?w)) = _ =>
      assert (Hrun : Turn.run (Fixture.envSaying "Hello!") 1 "hello" false (Some 7)
                       Fixture.shopDb = (Returned p, w))
        by (vm_compute; reflexivity)
  end.
  destruct (X6_turn_then_history (Fixture.envSaying "Hello!") 1 "hello" false (Some 7)
              Fixture.shopDb _ _ Hrun eq_refl eq_refl)
    as (userTurn & assistantTurn & E & _ & Hc1 & _ & Hc2).
  - intros m [<-|[<-|[]]]; cbn; lia.
  - rewrite E, map_app. cbn [map]. rewrite Hc1, Hc2. reflexivity.
Defined.

(** X7.  After a turn that returned, the session of the turn is the
    session of the user that was updated last: a following message without
    [sessionId] and without [isNewChat] reads its context from it (given
    that the clock is ahead of the time stamps of the sessions). *)
Theorem X7_turn_session_is_latest env userId message isNewChat sessionId d p w' :
  Turn.run env userId message isNewChat sessionId d = (Returned p, w') ->
  (forall s, In s (chatSessions d) -> cs_updatedAt s < now d) ->
  exists latest,
    latestSession userId (db w') = Some latest
    /\ Turn.contextSession false None userId (db w') = Some latest
    /\ cs_id latest = pl_sessionId p.
Proof.
  intros Hrun Hclock.
  apply run_course, course_success_detail in Hrun.
  destruct Hrun as (response & products & chatSession & dSave & stamp
                    & -> & _ & _ & _ & Hstamp & Hu & Hsessions & Hfound).
  cbn [pl_sessionId].
  pose proof (session_of_turn_listed userId isNewChat sessionId d chatSession stamp
                Hu Hfound) as Hin.
  rewrite <- Hsessions in Hin.
  (* a session of the table with the newest stamp is the session of the turn *)
  assert (Hother : forall s, In s (chatSessions (db w')) ->
                             stamp <= cs_updatedAt s -> cs_id s = cs_id chatSession).
  { intros s Hs Hle. rewrite Hsessions in Hs. apply in_map_iff in Hs.
    destruct Hs as (s0 & <- & Hs0). unfold touched in *.
    destruct (cs_id s0 =? cs_id chatSession)%nat eqn:E; [cbn; apply Nat.eqb_eq, E|].
    exfalso.
    assert (Hd : In s0 (chatSessions d)).
    { destruct (Turn.contextSession isNewChat sessionId userId d); [exact Hs0|].
      apply in_app_or in Hs0. destruct Hs0 as [Hs0|[<-|[]]]; [exact Hs0|].
      rewrite Nat.eqb_refl in E. discriminate. }
    apply Hclock in Hd. lia. }
  unfold Turn.contextSession, findTempSession.
  destruct (latestSession userId (db w')) as [latest|] eqn:E.
  - exists latest. split; [reflexivity|]. split; [reflexivity|].
    destruct (latestSession_Some _ _ _ E) as (Hl & _ & Hmax).
    apply Hother; [exact Hl|].
    apply (Hmax _ Hin). reflexivity.
  - exfalso. exact (latestSession_None _ _ E _ Hin eq_refl).
Qed.

(** a new chat of user 1 on the shop database makes session 20 the latest *)
Lemma X7_turn_session_is_latest_witness :
  exists p w' latest,
    Turn.run (Fixture.envSaying "Hello!") 1 "hello" true None Fixture.shopDb
    = (Returned p, w')
    /\ latestSession 1 (db w') = Some latest
    /\ cs_id latest = 20.
Proof.
  eexists. eexists.
  assert (Hrun : Turn.run (Fixture.envSaying "Hello!") 1 "hello" true None
                   Fixture.shopDb = (Returned _, _))
    by (vm_compute; reflexivity).
  destruct (X7_turn_session_is_latest (Fixture.envSaying "Hello!") 1 "hello" true None
              Fixture.shopDb _ _ Hrun) as (latest & E & _ & Hid).
  - intros s [<-|[]]. cbn. lia.
  - exists latest. split; [exact Hrun|]. split; [exact E|exact Hid].
Defined.

(** ** What a turn writes and what it leaves *)

Section TurnWrites.
Variable env : Env.
Variables (userId : Id) (message : string) (isNewChat : bool) (sessionId : option Id).

Lemma course_any d o w' :
  Turn.run env userId message isNewChat sessionId d = (o, w') ->
  exists o0, Course env userId message isNewChat sessionId d o0 w'
             /\ match o0 with
                | Returned p => o = Returned p
                | Thrown e => o = Thrown (newError (userMessage e))
                end.
Proof.
  intros Hrun. apply run_course in Hrun. destruct o as [p|thrown].
  - exists (Returned p). auto.
  - destruct Hrun as (e & Hc & ->). exists (Thrown e). auto.
Qed.

Lemma course_failure_purchases d e w' :
  Course env userId message isNewChat sessionId d (Thrown e) w' ->
  purchaseHistory (db w') = purchaseHistory d.
Proof.
  intros H. inversion H as [e0 Hu|su e0 w1 Hu H1|su e0 w1 w2 Hu H1 H2|]; subst; clear H.
  - reflexivity.
  - apply systemActionStep_db in H1. tauto.
  - apply systemActionStep_db in H1. apply replyStep_spec in H2.
    destruct H2 as [-> _]. tauto.
Qed.

(** the outcome of a turn is decided by its last call of the replica *)
Lemma outcome_of_last_call d o w' calls prompt result :
  Turn.run env userId message isNewChat sessionId d = (o, w') ->
  aiLog w' = (calls ++ [(prompt, result)])%list ->
  match result with
  | inr r => exists p, o = Returned p /\ pl_message p = r_content r
  | inl e => o = Thrown (newError (userMessage e))
  end.
Proof.
  intros Hrun Hlog. destruct (course_any d o w' Hrun) as ([p|e0] & Hc & Ho).
  - apply course_success in Hc.
    destruct Hc as (calls' & prompt' & response & products & cs & dSave & Hl & Hp & _).
    rewrite Hlog in Hl. apply app_inj_tail in Hl. destruct Hl as [_ Hl].
    injection Hl as _ ->. exists p. split; [exact Ho|]. rewrite Hp. reflexivity.
  - apply course_failure in Hc. destruct Hc as (_ & _ & [[_ Hl]|Hl]).
    + rewrite Hlog in Hl. destruct calls; discriminate.
    + destruct Hl as (calls' & prompt' & Hl).
      rewrite Hlog in Hl. apply app_inj_tail in Hl. destruct Hl as [_ Hl].
      injection Hl as _ ->. exact Ho.
Qed.

Lemma systemActionStep_cart su context systemContext temp w o w' :
  Turn.systemActionStep env userId message su context systemContext temp w = (o, w') ->
  exists extra,
    cartItems (db w') = (cartItems (db w) ++ extra)%list
    /\ List.length extra <= 1
    /\ (forall c, In c extra -> c_userId c = userId)
    /\ (isPurchaseIntent message = false -> extra = []).
Proof.
  assert (Hnil : forall w0 : World,
             exists extra, cartItems (db w0) = (cartItems (db w0) ++ extra)%list
                           /\ List.length extra <= 1
                           /\ (forall c, In c extra -> c_userId c = userId)
                           /\ (isPurchaseIntent message = false -> extra = [])).
  { intros w0. exists []. rewrite app_nil_r. cbn. repeat split; auto. tauto. }
  unfold Turn.systemActionStep.
  destruct (needsSystemAction message) eqn:Hn.
  - unfold bind. rewrite callReplica_eq.
    destruct (chatWithReplica env _ su _) as [e|r].
    + intros H. step_eq H. apply (Hnil {| db := db w; aiLog := _ |}).
    + destruct (isPurchaseIntent message) eqn:Hp; cbn [andb].
      * destruct (truthy (r_content r));
          [|intros H; step_eq H; apply (Hnil {| db := db w; aiLog := _ |})].
        destruct (shouldAddToCart _);
          [|intros H; step_eq H; apply (Hnil {| db := db w; aiLog := _ |})].
        unfold Turn.addFocusProductToCart, bind. rewrite query_eq.
        destruct (resolveFocusProduct temp _);
          [|intros H; step_eq H; apply (Hnil {| db := db w; aiLog := _ |})].
        unfold tryCatch. destruct (requestedQuantity message);
          [|intros H; step_eq H; apply (Hnil {| db := db w; aiLog := _ |})].
        intros H. step_eq H. cbn. eexists. split; [reflexivity|].
        cbn. repeat split; auto.
        -- intros c [<-|[]]. reflexivity.
        -- discriminate.
      * intros H. step_eq H. apply (Hnil {| db := db w; aiLog := _ |}).
  - rewrite cartManagementAction_unreachable by exact Hn.
    intros H. step_eq H. apply Hnil.
Qed.

Lemma replyStep_calls su context w o w' :
  Turn.replyStep env userId message isNewChat su context w = (o, w') ->
  exists calls, aiLog w' = (aiLog w ++ calls)%list
                /\ 1 <= List.length calls <= 2.
Proof.
  unfold Turn.replyStep.
  destruct (isProductSearch message).
  - unfold bind at 1. rewrite query_eq.
    destruct (searchProducts env _ 5) as [e0|results].
    + unfold bind. rewrite callReplica_eq.
      destruct (chatWithReplica env _ su _) as [e|r];
        intros H; step_eq H; eexists; (split; [reflexivity|cbn; lia]).
    + unfold tryCatch, bind. rewrite callReplica_eq.
      destruct (chatWithReplica env _ su _) as [e|r] eqn:Hc.
      * rewrite callReplica_eq. cbn [db aiLog].
        match goal with
        | |- context [chatWithReplica env ?k su ?p] =>
            destruct (chatWithReplica env k su p) as [e'|r']
        end;
          intros H; step_eq H; eexists;
          (split; [cbn; rewrite <- app_assoc; reflexivity|cbn; lia]).
      * intros H. step_eq H. eexists. split; [reflexivity|cbn; lia].
  - unfold bind. rewrite callReplica_eq.
    destruct (chatWithReplica env _ su _) as [e|r];
      intros H; step_eq H; eexists; (split; [reflexivity|cbn; lia]).
Qed.
End TurnWrites.

Lemma touched_ids sid stamp l :
  map cs_id (map (touched sid stamp) l) = map cs_id l
  /\ map cs_userId (map (touched sid stamp) l) = map cs_userId l.
Proof.
  split; rewrite map_map; apply map_ext; intros s; unfold touched;
    destruct (cs_id s =? sid)%nat; reflexivity.
Qed.

(** X8.  A turn only appends to the message table, at most two rows; it
    writes no purchase, it deletes no session and creates at most one, for
    the user of the turn. *)
Theorem X8_turn_appends_only env userId message isNewChat sessionId d o w' :
  Turn.run env userId message isNewChat sessionId d = (o, w') ->
  (exists rows, chatMessages (db w') = (chatMessages d ++ rows)%list
                /\ List.length rows <= 2)
  /\ purchaseHistory (db w') = purchaseHistory d
  /\ (exists new, map cs_id (chatSessions (db w'))
                  = (map cs_id (chatSessions d) ++ new)%list
                  /\ map cs_userId (chatSessions (db w'))
                     = (map cs_userId (chatSessions d) ++ map (fun _ => userId) new)%list
                  /\ List.length new <= 1).
Proof.
  intros Hrun. destruct (course_any _ _ _ _ _ d o w' Hrun) as ([p|e] & Hc & _).
  - apply course_success_detail in Hc.
    destruct Hc as (response & products & chatSession & dSave & stamp
                    & Hp & Hrows & Hph & _ & _ & Hu & Hs & _).
    split; [|split; [exact Hph|]].
    + eexists. split; [exact Hrows|]. unfold savedRows.
      destruct (chatMessageCreateFails env user); [cbn; lia|].
      destruct (chatMessageCreateFails env assistant); cbn; lia.
    + rewrite Hs.
      destruct (touched_ids (cs_id chatSession) stamp
                  (match Turn.contextSession isNewChat sessionId userId d with
                   | Some _ => chatSessions d
                   | None => (chatSessions d ++ [chatSession])%list
                   end)) as [-> ->].
      destruct (Turn.contextSession isNewChat sessionId userId d).
      * exists []. rewrite !app_nil_r. repeat split. cbn. lia.
      * exists [cs_id chatSession]. rewrite !map_app. cbn. rewrite Hu.
        repeat split. lia.
  - pose proof (course_failure_purchases _ _ _ _ _ _ _ _ Hc) as Hph.
    apply course_failure in Hc. destruct Hc as (Hm & Hs & _).
    split; [|split; [exact Hph|]].
    + exists []. rewrite app_nil_r. split; [exact Hm|cbn; lia].
    + exists []. rewrite Hs, !app_nil_r. repeat split. cbn. lia.
Qed.

(** a new chat on the shop database: two rows more, the purchases as before *)
Lemma X8_turn_appends_only_witness :
  exists o w',
    Turn.run (Fixture.envSaying "Hello!") 1 "hello" true None Fixture.shopDb = (o, w')
    /\ purchaseHistory (db w') = purchaseHistory Fixture.shopDb
    /\ List.length (chatMessages (db w')) = 4.
Proof.
  eexists. eexists.
  assert (Hrun : Turn.run (Fixture.envSaying "Hello!") 1 "hello" true None
                   Fixture.shopDb = (_, _)) by (vm_compute; reflexivity).
  split; [exact Hrun|].
  split; [|reflexivity].
  exact (proj1 (proj2 (X8_turn_appends_only _ _ _ _ _ _ _ _ Hrun))).
Defined.

(** X9.  When the message has a purchase intent and asks for a quantity
    that a 32-bit column holds, a product is in focus and the first answer
    of the replica is read as a confirmation (message and answer being
    ASCII texts), the turn appends one row to the cart: the product in
    focus, for the user, with the requested quantity, the price of the
    product and their product as total.  This holds whatever the rest of
    the turn does, also when the turn then fails. *)
Theorem X9_confirmed_purchase_adds_row env userId message isNewChat sessionId d su
    product response quantity :
  getOrCreateSensayUser env userId = inr su ->
  isAscii message = true ->
  isPurchaseIntent message = true ->
  requestedQuantity message = Finite quantity ->
  (quantity <= 2147483647)%Z ->
  resolveFocusProduct (Turn.contextSession isNewChat sessionId userId d) d
  = Some product ->
  chatWithReplica env 0 su
    (message ++ conversationContext isNewChat sessionId userId d
     ++ snd (Turn.gatherSystemData env userId message isNewChat sessionId d))
  = inr response ->
  isAscii (r_content response) = true ->
  truthy (r_content response) = true ->
  shouldAddToCart (toLowerCase (r_content response)) = true ->
  exists row,
    cartItems (db (snd (Turn.run env userId message isNewChat sessionId d)))
    = (cartItems d ++ [row])%list
    /\ c_userId row = userId
    /\ c_productId row = p_id product
    /\ c_productName row = p_title product
    /\ c_price row = p_amount product
    /\ c_quantity row = quantity
    /\ c_total row = (p_amount product * inject_Z quantity)%Q.
Proof.
  intros Hsu _ Hp Hq _ Hfocus Hcall _ Htruthy Hadd.
  destruct (Turn.run env userId message isNewChat sessionId d) as [o w'] eqn:Hrun.
  cbn [snd].
  destruct (course_any _ _ _ _ _ d o w' Hrun) as (o0 & Hc & _).
  destruct (course_steps _ _ _ _ _ _ _ _ _ Hc Hsu) as (o1 & w1 & H1 & Hcart & _).
  rewrite Hcart.
  assert (Hn : needsSystemAction message = true).
  { unfold needsSystemAction. rewrite Hp. reflexivity. }
  unfold Turn.systemActionStep in H1. rewrite Hn in H1.
  unfold bind in H1. rewrite callReplica_eq in H1.
  cbn [aiLog List.length db] in H1. rewrite Hcall in H1.
  rewrite Hp, Htruthy, Hadd in H1. cbn [andb] in H1.
  unfold Turn.addFocusProductToCart, bind in H1. rewrite query_eq in H1.
  cbn [db] in H1. rewrite Hfocus in H1. unfold tryCatch in H1. rewrite Hq in H1.
  injection H1 as _ <-. cbn.
  eexists. split; [reflexivity|]. cbn. repeat split.
Qed.

(** the mug is in focus in session 7; "yes add 3 items" and a confirming
    answer *)
Lemma X9_confirmed_purchase_witness :
  exists row,
    cartItems (db (snd (Turn.run
                          (Fixture.envSaying "Great choice! I have added to cart the mug.")
                          1 "yes add 3 items" false (Some 7) Fixture.shopDb)))
    = (cartItems Fixture.shopDb ++ [row])%list
    /\ c_productId row = "P" /\ c_quantity row = 3%Z /\ c_total row = (30 # 1)%Q.
Proof.
  destruct (X9_confirmed_purchase_adds_row
              (Fixture.envSaying "Great choice! I have added to cart the mug.")
              1 "yes add 3 items" false (Some 7) Fixture.shopDb "sensay-user" Fixture.mug
              {| r_content := "Great choice! I have added to cart the mug." |} 3%Z
              eq_refl eq_refl eq_refl eq_refl)
    as (row & E & _ & Hid & _ & _ & Hq & Ht);
    try reflexivity; [unfold Z.le; cbn; discriminate|].
  exists row. split; [exact E|]. split; [exact Hid|]. split; [exact Hq|].
  rewrite Ht. reflexivity.
Defined.

(** X10.  A turn appends at most one row to the cart, for the user of the
    turn, and none when the message has no purchase intent. *)
Theorem X10_at_most_one_cart_row env userId message isNewChat sessionId d o w' :
  Turn.run env userId message isNewChat sessionId d = (o, w') ->
  exists extra,
    cartItems (db w') = (cartItems d ++ extra)%list
    /\ List.length extra <= 1
    /\ (forall c, In c extra -> c_userId c = userId)
    /\ (isPurchaseIntent message = false -> extra = []).
Proof.
  intros Hrun.
  destruct (course_any _ _ _ _ _ d o w' Hrun) as (o0 & Hc & _).
  destruct (getOrCreateSensayUser env userId) as [e|su] eqn:Hsu.
  - inversion Hc; subst; try congruence.
    exists []. cbn. rewrite app_nil_r. repeat split; auto. tauto.
  - destruct (course_steps _ _ _ _ _ _ _ _ _ Hc Hsu) as (o1 & w1 & H1 & Hcart & _).
    rewrite Hcart. exact (systemActionStep_cart _ _ _ _ _ _ _ _ _ _ H1).
Qed.

(** "remove it" has no purchase intent: the cart is as before *)
Lemma X10_at_most_one_cart_row_witness :
  exists o w',
    Turn.run (Fixture.envSaying "Done.") 1 "remove it" false (Some 7) Fixture.shopDb
    = (o, w')
    /\ cartItems (db w') = cartItems Fixture.shopDb.
Proof.
  eexists. eexists.
  assert (Hrun : Turn.run (Fixture.envSaying "Done.") 1 "remove it" false (Some 7)
                   Fixture.shopDb = (_, _)) by (vm_compute; reflexivity).
  split; [exact Hrun|].
  destruct (X10_at_most_one_cart_row _ _ _ _ _ _ _ _ Hrun) as (extra & E & _ & _ & Hno).
  rewrite E, (Hno eq_refl). apply app_nil_r.
Defined.

(** X11.  A turn that fails throws an [Error] whose message is one of the
    five fixed messages for the user: the text of the underlying error is
    never passed on. *)
Theorem X11_failure_message_is_fixed env userId message isNewChat sessionId d e w' :
  Turn.run env userId message isNewChat sessionId d = (Thrown e, w') ->
  exists text, e = newError text /\ userFacing text.
Proof.
  intros Hrun. apply run_course in Hrun. destruct Hrun as (e0 & _ & ->).
  exists (userMessage e0). split; [reflexivity|].
  unfold userMessage, userFacing.
  destruct (isTimeout e0); [tauto|].
  destruct (isFetchFailed e0); [tauto|].
  destruct (isUnauthorized e0); [tauto|].
  destruct (isRateLimited e0); tauto.
Qed.

(** the replica rejects the write with an internal text: the user reads the
    generic apology *)
Lemma X11_failure_message_witness :
  exists w',
    Turn.run (Fixture.envOf (fun _ _ => inl Fixture.writeRejected) [] (fun _ => None))
      1 "hello" true None Fixture.emptyDb
    = (Thrown (newError genericApology), w')
    /\ userFacing genericApology.
Proof.
  eexists.
  assert (Hrun : Turn.run (Fixture.envOf (fun _ _ => inl Fixture.writeRejected) []
                             (fun _ => None))
                   1 "hello" true None Fixture.emptyDb
                 = (Thrown (newError genericApology), _)) by (vm_compute; reflexivity).
  split; [exact Hrun|].
  destruct (X11_failure_message_is_fixed _ _ _ _ _ _ _ _ Hrun) as (text & E & Hu).
  injection E as <-. exact Hu.
Defined.

(** X12.  A turn calls the replica at most three times.  When the Sensay
    user cannot be resolved it calls it not at all and leaves the session,
    message, cart and purchase tables as they were (the failure is still
    logged in the usage table, which is no table of [Db]); otherwise it
    calls the replica at least once. *)
Theorem X12_replica_calls env userId message isNewChat sessionId d o w' :
  Turn.run env userId message isNewChat sessionId d = (o, w') ->
  List.length (aiLog w') <= 3
  /\ (forall e, getOrCreateSensayUser env userId = inl e ->
        aiLog w' = []
        /\ chatSessions (db w') = chatSessions d
        /\ chatMessages (db w') = chatMessages d
        /\ cartItems (db w') = cartItems d
        /\ purchaseHistory (db w') = purchaseHistory d
        /\ o = Thrown (newError (userMessage e)))
  /\ (forall su, getOrCreateSensayUser env userId = inr su ->
        1 <= List.length (aiLog w')).
Proof.
  intros Hrun.
  destruct (course_any _ _ _ _ _ d o w' Hrun) as (o0 & Hc & Ho).
  destruct (getOrCreateSensayUser env userId) as [e|su] eqn:Hsu.
  - inversion Hc; subst; try congruence.
    cbn. split; [lia|]. split; [|intros; discriminate].
    intros e' E. injection E as <-.
    match goal with H : getOrCreateSensayUser _ _ = inl _ |- _ =>
      rewrite Hsu in H; injection H as <- end.
    cbn. repeat split; auto.
  - destruct (course_steps _ _ _ _ _ _ _ _ _ Hc Hsu) as (o1 & w1 & H1 & _ & Hlog).
    pose proof (systemActionStep_log _ _ _ _ _ _ _ _ _ _ H1) as Hl1.
    cbn [aiLog] in Hl1.
    assert (Hlen1 : List.length (aiLog w1) <= 1).
    { destruct (needsSystemAction message).
      - destruct Hl1 as (r & ->). cbn. lia.
      - rewrite Hl1. cbn. lia. }
    assert (Hbounds : 1 <= List.length (aiLog w') <= 3).
    { destruct o1 as [[]|e1].
      - destruct Hlog as (o2 & w2 & H2 & ->).
        destruct (replyStep_calls _ _ _ _ _ _ _ _ _ H2) as (calls & -> & Hc2).
        rewrite length_app. lia.
      - rewrite Hlog.
        apply systemActionStep_Thrown in H1. destruct H1 as (prompt & Hl).
        cbn in Hl. rewrite Hl. cbn. lia. }
    split; [lia|]. split; [intros; discriminate|]. intros; lia.
Qed.

(** without a Sensay user there is no call *)
Lemma X12_replica_calls_witness :
  exists o w',
    Turn.run {| getOrCreateSensayUser := fun _ => inl SensayUser.userNotFound;
                chatWithReplica := fun _ _ _ => Fixture.reply "Hello!";
                searchProducts := fun _ _ => inr [];
                formatPrice := fun _ c => c;
                chatMessageCreateFails := fun _ => None;
                showNumber := fun q => showInt (Qnum q);
                toLocaleDateString := showNat |}
      1 "hello" true None Fixture.shopDb = (o, w')
    /\ aiLog w' = [] /\ chatMessages (db w') = chatMessages Fixture.shopDb.
Proof.
  eexists. eexists.
  match goal with
  | |- Turn.run ?env _ _ _ _ _ = _ /\ _ =>
      assert (Hrun : Turn.run env 1 "hello" true None Fixture.shopDb = (_, _))
        by (vm_compute; reflexivity);
      pose proof (proj1 (proj2 (X12_replica_calls env _ _ _ _ _ _ _ Hrun))
                    SensayUser.userNotFound eq_refl) as (Hl & _ & Hm & _)
  end.
  split; [exact Hrun|]. split; [exact Hl|exact Hm].
Defined.

(** X13.  A message that needs a system action and is no product search
    makes two calls: the prompt with the system data, then the plain prompt
    (message and conversation context, no system data).  When the first
    call is answered, the outcome of the turn is the result of the second:
    the reply that is returned and saved answers the plain prompt. *)
Theorem X13_second_prompt_decides env userId message isNewChat sessionId d su first :
  getOrCreateSensayUser env userId = inr su ->
  needsSystemAction message = true ->
  isProductSearch message = false ->
  let context := conversationContext isNewChat sessionId userId d in
  let withData :=
    message ++ context
    ++ snd (Turn.gatherSystemData env userId message isNewChat sessionId d) in
  let plain := Turn.contextualMessage message context in
  chatWithReplica env 0 su withData = inr first ->
  let turn := Turn.run env userId message isNewChat sessionId d in
  aiLog (snd turn) = [(withData, inr first); (plain, chatWithReplica env 1 su plain)]
  /\ match chatWithReplica env 1 su plain with
     | inr second => exists p, fst turn = Returned p /\ pl_message p = r_content second
     | inl e => fst turn = Thrown (newError (userMessage e))
     end.
Proof.
  intros Hsu Hn Hp context withData plain Hcall turn. unfold turn.
  destruct (Turn.run env userId message isNewChat sessionId d) as [o w'] eqn:Hrun.
  cbn [fst snd].
  destruct (course_any _ _ _ _ _ d o w' Hrun) as (o0 & Hc & _).
  destruct (course_steps _ _ _ _ _ _ _ _ _ Hc Hsu) as (o1 & w1 & H1 & _ & Hlog).
  assert (H1' : o1 = Returned tt /\ aiLog w1 = [(withData, inr first)]).
  { unfold Turn.systemActionStep in H1. rewrite Hn in H1.
    unfold bind in H1. rewrite callReplica_eq in H1.
    cbn [aiLog List.length db] in H1. fold context in H1. fold withData in H1.
    rewrite Hcall in H1.
    destruct (isPurchaseIntent message && truthy (r_content first)).
    - destruct (shouldAddToCart _).
      + match type of H1 with
        | Turn.addFocusProductToCart _ _ ?t ?w0 = _ =>
            destruct (addFocusProductToCart_spec userId message t w0)
              as (w2 & E & Hl & _)
        end.
        rewrite E in H1. injection H1 as <- <-. rewrite Hl. auto.
      + injection H1 as <- <-. auto.
    - injection H1 as <- <-. auto. }
  destruct H1' as [-> Hl1].
  destruct Hlog as (o2 & w2 & H2 & Hl2).
  fold context in H2. rewrite replyStep_plain in H2 by exact Hp.
  injection H2 as _ <-. cbn [aiLog] in Hl2. rewrite Hl1 in Hl2.
  cbn [List.length app] in Hl2. fold plain in Hl2.
  split; [exact Hl2|].
  exact (outcome_of_last_call _ _ _ _ _ d o w' [(withData, inr first)] plain _ Hrun Hl2).
Qed.

(** "bought before?" in session 7, where the mug is in focus, by a user who
    bought the mug once: the first prompt carries the history of the mug,
    the second is the plain one, and its answer is returned *)
Lemma X13_second_prompt_witness :
  let env := Fixture.envOf
               (fun k _ => match k with
                           | 0 => Fixture.reply "Yes, you bought the mug."
                           | _ => Fixture.reply "What would you like to know?"
                           end)
               [] (fun _ => None) in
  let turn := Turn.run env 1 "bought before?" false (Some 7) Fixture2.boughtDb in
  (exists p, fst turn = Returned p /\ pl_message p = "What would you like to know?")
  /\ List.length (aiLog (snd turn)) = 2
  /\ fst (Turn.gatherSystemData env 1 "bought before?" false (Some 7) Fixture2.boughtDb)
     = "[SYSTEM DATA - SPECIFIC PRODUCT HISTORY]" ++ nl
       ++ "Product: Mug" ++ nl
       ++ "Has been purchased: YES" ++ nl
       ++ "Total times purchased: 1" ++ nl
       ++ "Total quantity bought: 2" ++ nl
       ++ "Last purchase date: 5" ++ nl
       ++ "Last purchase quantity: 2" ++ nl
       ++ nl
       ++ "[SYSTEM ACTION: Confirm that user has purchased this product before and provide details]".
Proof.
  cbv zeta.
  destruct (X13_second_prompt_decides
              (Fixture.envOf
                 (fun k _ => match k with
                             | 0 => Fixture.reply "Yes, you bought the mug."
                             | _ => Fixture.reply "What would you like to know?"
                             end)
                 [] (fun _ => None))
              1 "bought before?" false (Some 7) Fixture2.boughtDb "sensay-user"
              {| r_content := "Yes, you bought the mug." |}
              eq_refl eq_refl eq_refl eq_refl) as [Hlog Hout].
  split; [exact Hout|]. split; [rewrite Hlog; reflexivity|].
  vm_compute. reflexivity.
Defined.

(** X27.  On a product search that needs no system action, when the
    catalogue answers and the call of the replica with the search results
    fails, the turn does not stop there: it sends the fallback prompt, the
    one written for a failed catalogue search, and the outcome of the turn
    is the result of that second call. *)
Theorem X27_search_reply_failure_falls_back env userId message isNewChat sessionId d su
    searchResults e :
  getOrCreateSensayUser env userId = inr su ->
  needsSystemAction message = false ->
  isProductSearch message = true ->
  searchProducts env (Turn.searchQuery userId message isNewChat d) 5
  = inr searchResults ->
  let context := conversationContext isNewChat sessionId userId d in
  let withResults := Turn.enhancedSearchMessage env message context searchResults in
  let fallback :=
    message ++ context ++ nl ++ nl
    ++ "[SYSTEM: Shopify search temporarily unavailable, provide general assistance based on conversation context]" in
  chatWithReplica env 0 su withResults = inl e ->
  let turn := Turn.run env userId message isNewChat sessionId d in
  includes withResults "[PRODUCT SEARCH RESULTS - " = true
  /\ aiLog (snd turn)
     = [(withResults, inl e); (fallback, chatWithReplica env 1 su fallback)]
  /\ match chatWithReplica env 1 su fallback with
     | inr second => exists p, fst turn = Returned p /\ pl_message p = r_content second
     | inl e' => fst turn = Thrown (newError (userMessage e'))
     end.
Proof.
  intros Hsu Hn Hp Hsearch context withResults fallback Hcall turn. unfold turn.
  split; [apply enhancedSearchMessage_marker|].
  destruct (Turn.run env userId message isNewChat sessionId d) as [o w'] eqn:Hrun.
  cbn [fst snd].
  destruct (course_any _ _ _ _ _ d o w' Hrun) as (o0 & Hc & _).
  destruct (course_steps _ _ _ _ _ _ _ _ _ Hc Hsu) as (o1 & w1 & H1 & _ & Hlog).
  unfold Turn.systemActionStep in H1. rewrite Hn in H1.
  rewrite cartManagementAction_unreachable in H1 by exact Hn.
  injection H1 as <- <-.
  destruct Hlog as (o2 & w2 & H2 & Hl2).
  unfold Turn.replyStep in H2. rewrite Hp in H2.
  unfold bind at 1 in H2. rewrite query_eq in H2. cbn [db] in H2.
  rewrite Hsearch in H2. unfold tryCatch, bind in H2.
  rewrite callReplica_eq in H2. cbn [aiLog List.length db] in H2.
  fold context in H2. fold withResults in H2. rewrite Hcall in H2.
  rewrite callReplica_eq in H2. cbn [aiLog List.length db app] in H2.
  assert (Hlog : aiLog w'
                 = [(withResults, inl e); (fallback, chatWithReplica env 1 su fallback)]).
  { rewrite Hl2. change (Turn.fallbackMessage message context) with fallback in H2.
    destruct (chatWithReplica env 1 su fallback);
      injection H2 as _ <-; reflexivity. }
  split; [exact Hlog|].
  exact (outcome_of_last_call _ _ _ _ _ d o w' [(withResults, inl e)] fallback _ Hrun Hlog).
Qed.

(** "show me shoes": the replica times out on the prompt with the search
    results and answers the fallback prompt; the turn returns that answer *)
Lemma X27_search_reply_failure_witness :
  exists p,
    fst (Turn.run (Fixture.envOf
                     (fun k _ => match k with
                                 | 0 => inl Fixture.timeout
                                 | _ => Fixture.reply "Here are some shoes"
                                 end)
                     [Fixture.tee] (fun _ => None))
           1 "show me shoes" true None Fixture.emptyDb)
    = Returned p
    /\ pl_message p = "Here are some shoes".
Proof.
  exact (proj2 (proj2 (X27_search_reply_failure_falls_back
                  (Fixture.envOf
                     (fun k _ => match k with
                                 | 0 => inl Fixture.timeout
                                 | _ => Fixture.reply "Here are some shoes"
                                 end)
                     [Fixture.tee] (fun _ => None))
                  1 "show me shoes" true None Fixture.emptyDb "sensay-user"
                  [Fixture.tee] Fixture.timeout
                  eq_refl eq_refl eq_refl eq_refl eq_refl))).
Defined.

(** ** The link of a message *)

Lemma substring_all (s : string) : String.substring 0 (String.length s) s = s.
Proof. induction s as [|c s IH]; cbn; [reflexivity|rewrite IH; reflexivity]. Qed.

Lemma prefix_split a s :
  String.prefix a s = true ->
  s = a ++ String.substring (String.length a) (String.length s - String.length a) s.
Proof.
  revert s. induction a as [|c a IH]; intros s H.
  - cbn. rewrite Nat.sub_0_r, substring_all. reflexivity.
  - destruct s as [|c' s]; [discriminate|]. cbn in H.
    destruct (ascii_dec c c') as [<-|]; [|discriminate].
    cbn. rewrite <- (IH s H). reflexivity.
Qed.

Lemma takeWhile_split p s : s = takeWhile p s ++ dropWhile p s.
Proof.
  induction s as [|c s IH]; cbn; [reflexivity|].
  destruct (p c); cbn; [rewrite <- IH|]; reflexivity.
Qed.

Lemma takeWhile_all p s : stringForall p (takeWhile p s) = true.
Proof.
  induction s as [|c s IH]; cbn; [reflexivity|].
  destruct (p c) eqn:E; cbn; [rewrite E; exact IH|reflexivity].
Qed.

Lemma schemeAt_Some scheme s link :
  Link.schemeAt scheme s = Some link ->
  exists body rest,
    s = link ++ rest /\ link = scheme ++ body
    /\ body <> EmptyString /\ stringForall Link.notSpace body = true.
Proof.
  unfold Link.schemeAt.
  destruct (String.prefix scheme s) eqn:Hp; [|discriminate].
  set (tail := String.substring (String.length scheme)
                 (String.length s - String.length scheme) s).
  pose proof (takeWhile_all Link.notSpace tail) as Hall.
  pose proof (takeWhile_split Link.notSpace tail) as Hsplit.
  destruct (takeWhile Link.notSpace tail) as [|c body] eqn:E; [discriminate|].
  intros H. injection H as <-.
  exists (String c body), (dropWhile Link.notSpace tail).
  split; [|split; [reflexivity|split; [discriminate|exact Hall]]].
  rewrite append_assoc, <- Hsplit. apply prefix_split, Hp.
Qed.

Lemma isPieceOf_includes piece s : isPieceOf piece s -> includes s piece = true.
Proof.
  intros (a & b & ->). apply includes_app_r, includes_prefix, prefix_app.
Qed.

(** X14.  The link saved with the message of the user, when there is one,
    is a run of consecutive characters of the message: "https://" or
    "http://" followed by at least one character, none of them a blank. *)
Theorem X14_detected_link message link :
  Link.detectedLink message = Some link ->
  isPieceOf link message
  /\ includes message link = true
  /\ exists body,
       (link = "https://" ++ body \/ link = "http://" ++ body)
       /\ body <> EmptyString
       /\ stringForall Link.notSpace body = true.
Proof.
  intros H.
  assert (Hmain : isPieceOf link message
                  /\ exists body,
                       (link = "https://" ++ body \/ link = "http://" ++ body)
                       /\ body <> EmptyString
                       /\ stringForall Link.notSpace body = true).
  { induction message as [|c t IH].
    - cbn in H. discriminate.
    - cbn [Link.detectedLink] in H.
      destruct (Link.linkAt (String c t)) as [l|] eqn:E.
      + injection H as ->. unfold Link.linkAt in E.
        destruct (Link.schemeAt "https://" (String c t)) as [l1|] eqn:E1.
        * injection E as ->.
          destruct (schemeAt_Some _ _ _ E1) as (body & rest & Hs & Hl & Hb & Ha).
          split; [exists EmptyString, rest; exact Hs|].
          exists body. auto.
        * destruct (schemeAt_Some _ _ _ E) as (body & rest & Hs & Hl & Hb & Ha).
          split; [exists EmptyString, rest; exact Hs|].
          exists body. auto.
      + destruct (IH H) as [(a & b & Hs) Hbody].
        split; [|exact Hbody].
        exists (String c a), b. cbn. rewrite <- Hs. reflexivity. }
  destruct Hmain as [Hpiece Hbody].
  split; [exact Hpiece|]. split; [apply isPieceOf_includes, Hpiece|exact Hbody].
Qed.

(** the first of two links is taken, up to the blank *)
Lemma X14_detected_link_witness :
  Link.detectedLink "see https://shop.example/p/1 and http://x"
  = Some "https://shop.example/p/1"
  /\ includes "see https://shop.example/p/1 and http://x" "https://shop.example/p/1"
     = true.
Proof.
  split; [reflexivity|].
  exact (proj1 (proj2 (X14_detected_link "see https://shop.example/p/1 and http://x"
                         "https://shop.example/p/1" eq_refl))).
Defined.

(** ** The Sensay user *)

Lemma find_map_updated userId (f : User -> User) l found :
  (forall u, u_id (f u) = u_id u) ->
  find (fun u => (u_id u =? userId)%nat) l = Some found ->
  find (fun u => (u_id u =? userId)%nat)
       (map (fun u => if (u_id u =? userId)%nat then f u else u) l)
  = Some (f found).
Proof.
  intros Hid. induction l as [|u t IH]; cbn; [discriminate|].
  destruct (u_id u =? userId)%nat eqn:E.
  - intros H. injection H as <-. rewrite Hid, E. reflexivity.
  - rewrite E. exact IH.
Qed.

(** X15.  Once [getOrCreateSensayUser] has answered a non-empty Sensay id
    for a user, every later call answers the same id, without a call of
    [createUser] and without a write. *)
Theorem X15_sensay_user_is_kept createUser createUser' userId a sensayId a' :
  SensayUser.getOrCreateSensayUser createUser userId a = (inr sensayId, a') ->
  truthy sensayId = true ->
  SensayUser.getOrCreateSensayUser createUser' userId a' = (inr sensayId, a').
Proof.
  unfold SensayUser.getOrCreateSensayUser. intros H Ht.
  destruct (find (fun u => (u_id u =? userId)%nat) (users a)) as [found|] eqn:Hf;
    [|discriminate].
  destruct (SensayUser.linked found) as [sid|] eqn:Hl.
  - injection H as <- <-. rewrite Hf, Hl. reflexivity.
  - destruct (createUser _) as [e|sid]; [discriminate|].
    injection H as <- <-. cbn [users].
    rewrite (find_map_updated userId
               (fun u => {| u_id := u_id u; u_username := u_username u;
                            u_sensayUserId := Some sid |}) _ found)
      by (auto || exact Hf).
    unfold SensayUser.linked. cbn. rewrite Ht. reflexivity.
Qed.

(** user 1 gets a Sensay user; the second call needs no [createUser] *)
Lemma X15_sensay_user_witness :
  exists a',
    SensayUser.getOrCreateSensayUser Fixture2.createUser 1 Fixture2.accounts
    = (inr "sensay:customer_1_100", a')
    /\ SensayUser.getOrCreateSensayUser (fun _ => inl Fixture.timeout) 1 a'
       = (inr "sensay:customer_1_100", a').
Proof.
  eexists.
  assert (H : SensayUser.getOrCreateSensayUser Fixture2.createUser 1 Fixture2.accounts
              = (inr "sensay:customer_1_100", _)) by (vm_compute; reflexivity).
  split; [exact H|].
  exact (X15_sensay_user_is_kept _ (fun _ => inl Fixture.timeout) _ _ _ _ H eq_refl).
Defined.

(** ** The chat route *)

Lemma dropWhile_all p s : stringForall p s = true -> dropWhile p s = EmptyString.
Proof.
  induction s as [|c s IH]; cbn; [reflexivity|].
  intros H. apply andb_true_iff in H. destruct H as [-> H]. auto.
Qed.

Lemma dropWhile_head p s : headFails p (dropWhile p s).
Proof.
  induction s as [|c s IH]; cbn; [exact I|].
  destruct (p c) eqn:E; [exact IH|exact E].
Qed.

Lemma trimEnd_spec s :
  exists rest,
    s = Title.trimEnd s ++ rest
    /\ stringForall isSpace rest = true
    /\ lastFails isSpace (Title.trimEnd s).
Proof.
  induction s as [|c s IH]; cbn [Title.trimEnd].
  - exists EmptyString. repeat split.
  - destruct IH as (y & E & Hy & Hl).
    destruct (Title.trimEnd s) as [|c' r] eqn:Ht.
    + cbn in E. subst y. destruct (isSpace c) eqn:Hc.
      * exists (String c s). cbn. rewrite Hc, Hy. repeat split.
      * exists s. cbn. repeat split; auto.
    + exists y. split; [cbn in *; rewrite <- E; reflexivity|]. split; [exact Hy|exact Hl].
Qed.

(** [s.trim()]: the text without the blanks around it *)
Lemma trim_spec text :
  exists before after,
    text = before ++ Title.trim text ++ after
    /\ stringForall isSpace before = true
    /\ stringForall isSpace after = true
    /\ headFails isSpace (Title.trim text)
    /\ lastFails isSpace (Title.trim text).
Proof.
  unfold Title.trim.
  destruct (trimEnd_spec (dropWhile isSpace text)) as (after & E & Ha & Hl).
  exists (takeWhile isSpace text), after.
  split; [rewrite <- E; apply takeWhile_split|].
  split; [apply takeWhile_all|]. split; [exact Ha|]. split; [|exact Hl].
  pose proof (dropWhile_head isSpace text) as Hh.
  destruct (Title.trimEnd (dropWhile isSpace text)) as [|c r]; [exact I|].
  rewrite E in Hh. exact Hh.
Qed.

Lemma trim_blank text : stringForall isSpace text = true -> Title.trim text = EmptyString.
Proof. intros H. unfold Title.trim. rewrite dropWhile_all by exact H. reflexivity. Qed.

Lemma stringForall_app p s t :
  stringForall p (s ++ t) = stringForall p s && stringForall p t.
Proof.
  induction s as [|c s IH]; cbn; [reflexivity|]. rewrite IH. apply andb_assoc.
Qed.

Lemma trim_empty text : Title.trim text = EmptyString -> stringForall isSpace text = true.
Proof.
  intros H. destruct (trim_spec text) as (before & after & E & Hb & Ha & _).
  rewrite H in E. cbn in E. rewrite E, stringForall_app, Hb, Ha. reflexivity.
Qed.

Lemma length_zero (s : string) : (String.length s =? 0)%nat = true <-> s = EmptyString.
Proof. destruct s; cbn; split; congruence. Qed.

Lemma userFacing_truthy text : userFacing text -> truthy text = true.
Proof. intros [H | [H | [H | [H | H] ] ] ]; rewrite H; reflexivity. Qed.

(** X16.  [POST /chat/send] never fails, whatever the field [message] of
    the body is.  A message that is missing, [null], [false], zero, the
    empty string or a string of blanks is answered 400 "Message is
    required", without a call and without a write.  Any other message that
    is no string is answered 500 "message.trim is not a function", without
    a call and without a write.  A string with a character that is no blank
    (an ASCII text) goes to [sendChatMessage] without the blanks around
    it: the answer is 200 with the payload, or 500 with one of the five
    messages for the user. *)
Theorem X16_chat_route env userId message isNewChat sessionId d o w' :
  Routes.chatSend env userId message isNewChat sessionId {| db := d; aiLog := [] |}
  = (o, w') ->
  (forall text, message = JString text -> isAscii text = true) ->
  exists reply,
    o = Returned reply
    /\ ( (reply = Error400 "Message is required"
          /\ w' = {| db := d; aiLog := [] |}
          /\ (jsTruthy message = false
              \/ exists text, message = JString text
                              /\ stringForall isSpace text = true))
         \/ (reply = Error500 "message.trim is not a function"
             /\ w' = {| db := d; aiLog := [] |}
             /\ jsTruthy message = true
             /\ forall text, message <> JString text)
         \/ exists text before trimmed after turn,
              message = JString text
              /\ text = before ++ trimmed ++ after
              /\ stringForall isSpace before = true
              /\ stringForall isSpace after = true
              /\ trimmed <> EmptyString
              /\ headFails isSpace trimmed
              /\ lastFails isSpace trimmed
              /\ Turn.run env userId trimmed
                   (match isNewChat with Some b => b | None => false end)
                   sessionId d = (turn, w')
              /\ ( (exists p, turn = Returned p /\ reply = Json200 p)
                   \/ (exists failure, turn = Thrown (newError failure)
                                       /\ userFacing failure
                                       /\ reply = Error500 failure) ) ).
Proof.
  intros H _. unfold Routes.chatSend, tryCatch in H.
  set (t := jsTruthy message) in H.
  assert (Ht : jsTruthy message = t) by reflexivity.
  clearbody t. destruct t; cbn [negb] in H.
  2:{ injection H as <- <-. eexists. split; [reflexivity|]. left. auto. }
  assert (Hother : (forall text, message <> JString text) ->
                   (Returned (Error500 "message.trim is not a function"),
                    {| db := d; aiLog := [] |}) = (o, w') ->
                   exists reply,
                     o = Returned reply
                     /\ ( (reply = Error400 "Message is required"
                           /\ w' = {| db := d; aiLog := [] |}
                           /\ (jsTruthy message = false
                               \/ exists text, message = JString text
                                               /\ stringForall isSpace text = true))
                          \/ (reply = Error500 "message.trim is not a function"
                              /\ w' = {| db := d; aiLog := [] |}
                              /\ jsTruthy message = true
                              /\ forall text, message <> JString text)
                          \/ exists text before trimmed after turn,
                               message = JString text
                               /\ text = before ++ trimmed ++ after
                               /\ stringForall isSpace before = true
                               /\ stringForall isSpace after = true
                               /\ trimmed <> EmptyString
                               /\ headFails isSpace trimmed
                               /\ lastFails isSpace trimmed
                               /\ Turn.run env userId trimmed
                                    (match isNewChat with Some b => b | None => false end)
                                    sessionId d = (turn, w')
                               /\ ( (exists p, turn = Returned p /\ reply = Json200 p)
                                    \/ (exists failure, turn = Thrown (newError failure)
                                                        /\ userFacing failure
                                                        /\ reply = Error500 failure) ) )).
  { intros Hno E. injection E as <- <-. eexists. split; [reflexivity|].
    right; left. auto. }
  destruct message as [| |b|q|text|].
  1, 2: discriminate Ht.
  1, 2, 4: apply Hother; [intros text; discriminate|rewrite <- H; reflexivity].
  destruct (String.length (Title.trim text) =? 0)%nat eqn:Hb.
  - cbn in H. injection H as <- <-. eexists. split; [reflexivity|]. left.
    split; [reflexivity|]. split; [reflexivity|]. right. exists text.
    split; [reflexivity|]. apply trim_empty, length_zero, Hb.
  - assert (Hne : Title.trim text <> EmptyString).
    { intros E. apply length_zero in E. congruence. }
    destruct (trim_spec text) as (before & after & E & Hbefore & Hafter & Hh & Hl).
    unfold bind in H.
    destruct (Turn.sendChatMessage env userId (Title.trim text) _ sessionId _)
      as [[p|e] w1] eqn:Hrun.
    + injection H as <- <-. eexists. split; [reflexivity|]. right; right.
      exists text, before, (Title.trim text), after, (Returned p).
      repeat (split; [assumption || reflexivity|]). left. eauto.
    + cbn in H. injection H as <- <-.
      fold (Turn.run env userId (Title.trim text)
              (match isNewChat with Some b => b | None => false end) sessionId d) in Hrun.
      pose proof (run_course _ _ _ _ _ _ _ _ Hrun) as (e0 & _ & ->).
      assert (Hu : userFacing (userMessage e0)).
      { unfold userMessage, userFacing.
        destruct (isTimeout e0); [tauto|].
        destruct (isFetchFailed e0); [tauto|].
        destruct (isUnauthorized e0); [tauto|].
        destruct (isRateLimited e0); tauto. }
      eexists. split; [reflexivity|]. right; right.
      exists text, before, (Title.trim text), after,
        (Thrown (newError (userMessage e0))).
      repeat (split; [assumption || reflexivity|]).
      right. exists (userMessage e0). split; [reflexivity|]. split; [exact Hu|].
      unfold Routes.errorMessage, orElse. cbn [newError e_message].
      rewrite (userFacing_truthy _ Hu). reflexivity.
Qed.

(** the number 123 is no message; "  hello " is answered as "hello" *)
Lemma X16_chat_route_witness :
  (exists w',
     Routes.chatSend (Fixture.envSaying "Hello!") 1 (JNumber (123 # 1)) None None
       {| db := Fixture.shopDb; aiLog := [] |}
     = (Returned (Error500 "message.trim is not a function"), w'))
  /\ exists o w',
       Routes.chatSend (Fixture.envSaying "Hello!") 1 (JString "  hello ") None None
         {| db := Fixture.shopDb; aiLog := [] |} = (o, w')
       /\ exists p, o = Returned (Json200 p) /\ pl_message p = "Hello!".
Proof.
  split.
  - eexists.
    assert (H : Routes.chatSend (Fixture.envSaying "Hello!") 1 (JNumber (123 # 1)) None
                  None {| db := Fixture.shopDb; aiLog := [] |} = (_, _))
      by (vm_compute; reflexivity).
    destruct (X16_chat_route _ _ _ _ _ _ _ _ H) as (reply & Ho & _);
      [intros text E; discriminate E|].
    exact H.
  - eexists. eexists.
    assert (H : Routes.chatSend (Fixture.envSaying "Hello!") 1 (JString "  hello ")
                  None None {| db := Fixture.shopDb; aiLog := [] |} = (_, _))
      by (vm_compute; reflexivity).
    split; [exact H|].
    destruct (X16_chat_route _ _ _ _ _ _ _ _ H) as (reply & Ho & _);
      [intros text E; injection E as <-; reflexivity|].
    eexists. split; reflexivity.
Defined.

(** ** The cart routes *)

Lemma truthy_false s : truthy s = false -> s = EmptyString.
Proof. destruct s; [reflexivity|discriminate]. Qed.

Lemma cartAdd_cases userId productId productName description price quantity
    imageUrl productUrl w o w' :
  CartRoute.cartAdd userId productId productName description price quantity
    imageUrl productUrl w = (o, w') ->
  let amount := match quantity with Some q => q | None => 1%Z end in
  (o = Returned (CartRoute.BadRequest "Product ID, name, and price are required")
   /\ w' = w
   /\ (productId = EmptyString \/ productName = EmptyString \/ Qnum price = 0%Z))
  \/ (exists item existing,
        o = Returned (CartRoute.Processed item
                        (Routes.sumTotals (Routes.userItems userId (db w')))
                        (List.length (Routes.userItems userId (db w'))) true)
        /\ In existing (cartItems (db w))
        /\ c_userId existing = userId /\ c_productId existing = productId
        /\ cartItems (db w')
           = map (fun c => if (c_id c =? c_id existing)%nat
                           then requantified (c_quantity existing + amount)
                                  (price * inject_Z (c_quantity existing + amount))%Q c
                           else c) (cartItems (db w))
        /\ nextId (db w') = nextId (db w))
  \/ (exists item,
        o = Returned (CartRoute.Processed item
                        (Routes.sumTotals (Routes.userItems userId (db w')))
                        (List.length (Routes.userItems userId (db w'))) false)
        /\ (forall c, In c (cartItems (db w)) ->
                      c_userId c = userId -> c_productId c <> productId)
        /\ cartItems (db w')
           = (cartItems (db w)
              ++ [ {| c_id := nextId (db w); c_userId := userId;
                      c_productId := productId; c_productName := productName;
                      c_description := description; c_price := price;
                      c_quantity := amount; c_total := (price * inject_Z amount)%Q;
                      c_imageUrl := imageUrl; c_productUrl := productUrl;
                      c_createdAt := now (db w) |} ])%list
        /\ nextId (db w') = S (nextId (db w))).
Proof.
  unfold CartRoute.cartAdd.
  destruct (negb (truthy productId) || negb (truthy productName) || CartRoute.Qzero price)
    eqn:Hv.
  - intros H. step_eq H. left. split; [reflexivity|]. split; [reflexivity|].
    apply orb_true_iff in Hv. destruct Hv as [Hv|Hv].
    + apply orb_true_iff in Hv. destruct Hv as [Hv|Hv]; apply negb_true_iff in Hv.
      * left. apply truthy_false, Hv.
      * right; left. apply truthy_false, Hv.
    + right; right. apply Z.eqb_eq, Hv.
  - unfold bind, query, ret.
    destruct (find _ (cartItems (db w))) as [existing|] eqn:Hf.
    + intros H. cbn in H. step_eq H. right; left.
      apply find_some in Hf. destruct Hf as [Hin Hk].
      apply andb_true_iff in Hk. destruct Hk as [Hu Hp].
      apply Nat.eqb_eq in Hu. apply String.eqb_eq in Hp.
      eexists. exists existing. split; [reflexivity|]. cbn. auto.
    + intros H. cbn in H. step_eq H. right; right.
      eexists. split; [reflexivity|]. cbn.
      split; [|split; reflexivity].
      intros c Hin Hu Hp. apply (find_none _ _ Hf) in Hin.
      apply andb_false_iff in Hin. destruct Hin as [Hc|Hc].
      * apply Nat.eqb_neq in Hc. contradiction.
      * apply String.eqb_neq in Hc. contradiction.
Qed.

(** the update of a row by its id *)
Lemma NoDup_map_inj {A B} (f : A -> B) l a b :
  NoDup (map f l) -> In a l -> In b l -> f a = f b -> a = b.
Proof.
  induction l as [|x l IH]; cbn; [tauto|].
  intros Hnd Ha Hb E. inversion Hnd as [|? ? Hx Hl]; subst.
  destruct Ha as [<-|Ha], Hb as [<-|Hb]; auto.
  - exfalso. apply Hx. rewrite E. apply in_map, Hb.
  - exfalso. apply Hx. rewrite <- E. apply in_map, Ha.
Qed.

Lemma NoDup_map_filter {A B} (f : A -> B) p l :
  NoDup (map f l) -> NoDup (map f (filter p l)).
Proof.
  induction l as [|x l IH]; cbn; [auto|].
  intros Hnd. inversion Hnd as [|? ? Hx Hl]; subst.
  destruct (p x); cbn; auto. constructor; auto.
  intros Hin. apply Hx. apply in_map_iff in Hin. destruct Hin as (y & E & Hy).
  apply filter_In in Hy. rewrite <- E. apply in_map, Hy.
Qed.

Lemma updated_keys itemId quantity total l :
  map c_id (map (fun c => if (c_id c =? itemId)%nat
                          then requantified quantity total c else c) l) = map c_id l
  /\ map (fun c => (c_userId c, c_productId c))
       (map (fun c => if (c_id c =? itemId)%nat
                      then requantified quantity total c else c) l)
     = map (fun c => (c_userId c, c_productId c)) l.
Proof.
  split; rewrite map_map; apply map_ext; intros c; destruct (_ =? _)%nat; reflexivity.
Qed.

Lemma updated_In itemId quantity total item l c' :
  NoDup (map c_id l) -> In item l -> c_id item = itemId ->
  In c' (map (fun c => if (c_id c =? itemId)%nat
                       then requantified quantity total c else c) l)
  <-> c' = requantified quantity total item \/ (In c' l /\ c_id c' <> itemId).
Proof.
  intros Hnd Hin Hid. rewrite in_map_iff. split.
  - intros (c & E & Hc). destruct (c_id c =? itemId)%nat eqn:Hi.
    + apply Nat.eqb_eq in Hi. left. rewrite <- E. f_equal.
      apply (NoDup_map_inj c_id l); auto. congruence.
    + apply Nat.eqb_neq in Hi. right. subst c'. auto.
  - intros [->|[Hc Hne]].
    + exists item. split; [|exact Hin]. rewrite Hid, Nat.eqb_refl. reflexivity.
    + exists c'. split; [|exact Hc]. apply Nat.eqb_neq in Hne. rewrite Hne. reflexivity.
Qed.

Lemma find_updated userId itemId quantity total l :
  find (fun c => (c_id c =? itemId)%nat)
    (filter (fun c => (c_userId c =? userId)%nat)
       (map (fun c => if (c_id c =? itemId)%nat
                      then requantified quantity total c else c) l))
  = option_map (requantified quantity total)
      (find (fun c => (c_id c =? itemId)%nat && (c_userId c =? userId)%nat) l).
Proof.
  induction l as [|a l IH]; cbn [map filter find option_map]; [reflexivity|].
  destruct (c_id a =? itemId)%nat eqn:Hi; cbn [andb].
  - cbn [requantified c_userId]. destruct (c_userId a =? userId)%nat; [|exact IH].
    cbn [find requantified c_id]. rewrite Hi. reflexivity.
  - destruct (c_userId a =? userId)%nat; [|exact IH].
    cbn [find]. rewrite Hi. exact IH.
Qed.

Lemma ownItem_Some userId itemId d item :
  Routes.ownItem userId itemId d = Some item ->
  In item (cartItems d) /\ c_id item = itemId /\ c_userId item = userId.
Proof.
  intros H. apply find_some in H. destruct H as [Hin Hk].
  apply andb_true_iff in Hk. destruct Hk as [Hi Hu].
  apply Nat.eqb_eq in Hi. apply Nat.eqb_eq in Hu. auto.
Qed.

Lemma ownItem_None userId itemId d :
  Routes.ownItem userId itemId d = None ->
  forall c, In c (cartItems d) -> c_id c = itemId -> c_userId c <> userId.
Proof.
  intros H c Hin Hi Hu. apply (find_none _ _ H) in Hin.
  rewrite Hi, Hu, !Nat.eqb_refl in Hin. discriminate.
Qed.

Lemma cartUpdate_cases userId itemId quantity w o w' :
  Routes.cartUpdate userId itemId quantity w = (o, w') ->
  (o = Returned (Error400 "Valid quantity is required") /\ w' = w
   /\ (quantity = None \/ exists q, quantity = Some q /\ (q < 1)%Z))
  \/ (o = Returned (Error500 "Cart item not found") /\ w' = w
      /\ forall c, In c (cartItems (db w)) -> c_id c = itemId -> c_userId c <> userId)
  \/ (exists q item,
        quantity = Some q /\ (1 <= q)%Z
        /\ Routes.ownItem userId itemId (db w) = Some item
        /\ cartItems (db w')
           = map (fun c => if (c_id c =? itemId)%nat
                           then requantified q (c_price item * inject_Z q)%Q c
                           else c) (cartItems (db w))
        /\ nextId (db w') = nextId (db w)
        /\ o = Returned (Json200
                 (Some (requantified q (c_price item * inject_Z q)%Q item),
                  Routes.sumTotals (Routes.userItems userId (db w')),
                  List.length (Routes.userItems userId (db w'))))).
Proof.
  unfold Routes.cartUpdate. destruct quantity as [q|].
  2:{ intros H. step_eq H. left. auto. }
  destruct (q <? 1)%Z eqn:Hq.
  { intros H. step_eq H. left. split; [reflexivity|]. split; [reflexivity|].
    right. exists q. split; [reflexivity|]. apply Z.ltb_lt, Hq. }
  apply Z.ltb_ge in Hq.
  unfold tryCatch, bind, query, throw.
  destruct (Routes.ownItem userId itemId (db w)) as [item|] eqn:Hf.
  - intros H. cbn in H. step_eq H. right; right. exists q, item.
    split; [reflexivity|]. split; [exact Hq|]. split; [reflexivity|].
    cbn. split; [reflexivity|]. split; [reflexivity|].
    unfold Routes.userItems. cbn [db cartItems].
    fold (requantified q (c_price item * inject_Z q)%Q).
    change (fun c : CartItem =>
              if (c_id c =? itemId)%nat
              then {| c_id := c_id c; c_userId := c_userId c;
                      c_productId := c_productId c; c_productName := c_productName c;
                      c_description := c_description c; c_price := c_price c;
                      c_quantity := q; c_total := (c_price item * inject_Z q)%Q;
                      c_imageUrl := c_imageUrl c; c_productUrl := c_productUrl c;
                      c_createdAt := c_createdAt c |}
              else c)
      with (fun c : CartItem =>
              if (c_id c =? itemId)%nat
              then requantified q (c_price item * inject_Z q)%Q c else c).
    rewrite find_updated. unfold Routes.ownItem in Hf. rewrite Hf. reflexivity.
  - intros H. cbn in H. step_eq H. right; left.
    split; [reflexivity|]. split; [reflexivity|]. apply ownItem_None, Hf.
Qed.

Lemma cartRemove_cases userId itemId w o w' :
  Routes.cartRemove userId itemId w = (o, w') ->
  (o = Returned (Error500 "Cart item not found") /\ w' = w
   /\ forall c, In c (cartItems (db w)) -> c_id c = itemId -> c_userId c <> userId)
  \/ (exists item,
        Routes.ownItem userId itemId (db w) = Some item
        /\ cartItems (db w')
           = filter (fun c => negb (c_id c =? itemId)%nat) (cartItems (db w))
        /\ nextId (db w') = nextId (db w)
        /\ o = Returned (Json200 (Routes.sumTotals (Routes.userItems userId (db w')),
                                  List.length (Routes.userItems userId (db w'))))).
Proof.
  unfold Routes.cartRemove, tryCatch, bind, query, throw.
  destruct (Routes.ownItem userId itemId (db w)) as [item|] eqn:Hf.
  - intros H. cbn in H. step_eq H. right. exists item. cbn. auto.
  - intros H. cbn in H. step_eq H. left.
    split; [reflexivity|]. split; [reflexivity|]. apply ownItem_None, Hf.
Qed.

Lemma removed_length (p : CartItem -> bool) itemId item l :
  NoDup (map c_id l) -> In item l -> c_id item = itemId -> p item = true ->
  S (List.length (filter p (filter (fun c => negb (c_id c =? itemId)%nat) l)))
  = List.length (filter p l).
Proof.
  intros Hnd Hin Hid Hp. induction l as [|a l IH]; [destruct Hin|].
  cbn [map] in Hnd. inversion Hnd as [|? ? Ha Hl]; subst.
  destruct Hin as [->|Hin].
  - cbn [filter]. rewrite Nat.eqb_refl, Hp. cbn [negb List.length]. f_equal. f_equal.
    f_equal. apply forallb_filter_id. apply forallb_forall. intros c Hc.
    apply negb_true_iff, Nat.eqb_neq. intros E. apply Ha. rewrite <- E. apply in_map, Hc.
  - assert (Hne : (c_id a =? c_id item)%nat = false).
    { apply Nat.eqb_neq. intros E. apply Ha. rewrite E. apply in_map, Hin. }
    cbn [filter]. rewrite Hne. cbn [negb filter].
    destruct (p a); cbn [List.length]; rewrite <- (IH Hl Hin); reflexivity.
Qed.

Lemma userItems_deleteMany userId v l :
  filter (fun c => (c_userId c =? v)%nat)
    (filter (fun c => negb (c_userId c =? userId)%nat) l)
  = if (v =? userId)%nat then [] else filter (fun c => (c_userId c =? v)%nat) l.
Proof.
  induction l as [|a l IH]; cbn [filter]; [destruct (v =? userId)%nat; reflexivity|].
  destruct (c_userId a =? userId)%nat eqn:Hu; cbn [negb filter].
  - rewrite IH. destruct (v =? userId)%nat eqn:Hv; [reflexivity|].
    apply Nat.eqb_eq in Hu. rewrite Hu, (Nat.eqb_sym userId v), Hv. reflexivity.
  - destruct (c_userId a =? v)%nat eqn:Ha; rewrite IH.
    + apply Nat.eqb_eq in Ha. subst v. rewrite Hu. reflexivity.
    + reflexivity.
Qed.

Lemma createPurchases_spec orderId items : forall w,
  exists ps,
    Routes.createPurchases orderId items w
    = (Returned ps,
       {| db := {| chatSessions := chatSessions (db w);
                   chatMessages := chatMessages (db w);
                   cartItems := cartItems (db w);
                   purchaseHistory := (purchaseHistory (db w) ++ map purchaseRow ps)%list;
                   nextId := nextId (db w) + List.length items;
                   now := now (db w) + List.length items |};
          aiLog := aiLog w |})
    /\ Forall2 (mirrors orderId) items ps
    /\ map pu_id ps = seq (nextId (db w)) (List.length items).
Proof.
  induction items as [|item rest IH]; intros w.
  - exists []. destruct w as [[] ?]. cbn. rewrite app_nil_r, !Nat.add_0_r.
    split; [reflexivity|]. split; [constructor|reflexivity].
  - cbn [Routes.createPurchases]. unfold bind at 1.
    unfold Routes.purchaseHistory_create, bind, query, updateDb, ret. cbn [db aiLog].
    match goal with
    | |- context [Routes.createPurchases orderId rest ?w1] =>
        destruct (IH w1) as (ps & E & HF & Hids); rewrite E
    end.
    eexists (_ :: ps). split; [|split].
    + cbn [db aiLog chatSessions chatMessages cartItems purchaseHistory nextId now
           List.length map].
      rewrite <- app_assoc, <- !plus_n_Sm. reflexivity.
    + constructor; [|exact HF]. unfold mirrors. cbn. repeat split.
    + cbn. f_equal. exact Hids.
Qed.

Lemma totals_mirror orderId items ps :
  Forall2 (mirrors orderId) items ps ->
  forall acc,
    fold_left (fun sum purchase => (sum + pu_total purchase)%Q) ps acc
    = fold_left (fun sum item => (sum + c_total item)%Q) items acc.
Proof.
  induction 1 as [|item p items ps Hm _ IH]; intros acc; [reflexivity|].
  cbn [fold_left]. destruct Hm as (_ & _ & _ & _ & _ & _ & -> & _). apply IH.
Qed.

Lemma checkout_empty userId w :
  Routes.userItems userId (db w) = [] ->
  Routes.checkout userId w = (Returned (Error500 "Cart is empty"), w).
Proof.
  intros H. unfold Routes.checkout, tryCatch, bind, query. rewrite H. reflexivity.
Qed.

Lemma checkout_cases userId w o w' :
  Routes.checkout userId w = (o, w') ->
  (Routes.userItems userId (db w) = []
   /\ o = Returned (Error500 "Cart is empty") /\ w' = w)
  \/ (exists order,
        Routes.userItems userId (db w) <> []
        /\ o = Returned (Json200 order)
        /\ Routes.o_orderId order = "ORDER_" ++ showNat (now (db w)) ++ "_" ++ showNat userId
        /\ Forall2 (mirrors (Routes.o_orderId order))
             (Routes.userItems userId (db w)) (Routes.o_purchases order)
        /\ Routes.o_totalAmount order = Routes.sumTotals (Routes.userItems userId (db w))
        /\ purchaseHistory (db w')
           = (purchaseHistory (db w) ++ map purchaseRow (Routes.o_purchases order))%list
        /\ cartItems (db w')
           = filter (fun c => negb (c_userId c =? userId)%nat) (cartItems (db w))
        /\ nextId (db w) <= nextId (db w')).
Proof.
  destruct (Routes.userItems userId (db w)) as [|item rest] eqn:Hitems.
  { rewrite (checkout_empty _ _ Hitems). intros H. step_eq H. left. auto. }
  unfold Routes.checkout, tryCatch, bind at 1. unfold query at 1. cbn [db].
  rewrite Hitems. unfold bind at 1. unfold query at 1. unfold bind at 1.
  destruct (createPurchases_spec
              ("ORDER_" ++ showNat (now (db w)) ++ "_" ++ showNat userId)
              (item :: rest) w) as (ps & E & HF & _).
  rewrite E. unfold bind, Routes.cartItem_deleteMany, updateDb, ret. cbn [db aiLog].
  intros H. step_eq H. right. eexists. split; [discriminate|].
  split; [reflexivity|]. cbn [Routes.o_orderId Routes.o_purchases Routes.o_totalAmount db purchaseHistory
                               cartItems nextId].
  split; [reflexivity|]. split; [exact HF|].
  split; [apply (totals_mirror _ _ _ HF)|].
  split; [reflexivity|]. split; [reflexivity|]. lia.
Qed.

(** the keys of the cart *)

Lemma cartKeyed_updated d d' itemId quantity total :
  cartItems d'
  = map (fun c => if (c_id c =? itemId)%nat
                  then requantified quantity total c else c) (cartItems d) ->
  nextId d <= nextId d' ->
  cartKeyed d -> cartKeyed d'.
Proof.
  intros E Hn (Hd & Hb & Hp).
  destruct (updated_keys itemId quantity total (cartItems d)) as [Hids Hkeys].
  unfold cartKeyed, cartIdsDistinct, cartIdsBelow, onePerProduct.
  rewrite E, Hids, Hkeys. split; [exact Hd|]. split; [|exact Hp].
  intros c Hc. apply (in_map c_id) in Hc. rewrite Hids in Hc.
  apply in_map_iff in Hc. destruct Hc as (c0 & E0 & Hc0).
  rewrite <- E0. apply Hb in Hc0. lia.
Qed.

Lemma cartKeyed_filtered d d' p :
  cartItems d' = filter p (cartItems d) ->
  nextId d <= nextId d' ->
  cartKeyed d -> cartKeyed d'.
Proof.
  intros E Hn (Hd & Hb & Hp).
  unfold cartKeyed, cartIdsDistinct, cartIdsBelow, onePerProduct. rewrite E.
  split; [apply NoDup_map_filter, Hd|]. split; [|apply NoDup_map_filter, Hp].
  intros c Hc. apply filter_In in Hc. destruct Hc as [Hc _]. apply Hb in Hc. lia.
Qed.

Lemma NoDup_snoc {A} (l : list A) a : NoDup l -> ~ In a l -> NoDup (l ++ [a]).
Proof.
  intros Hl Ha. apply NoDup_rev in Hl. rewrite <- (rev_involutive (l ++ [a])).
  apply NoDup_rev. rewrite rev_app_distr. cbn. constructor; [|exact Hl].
  rewrite <- in_rev. exact Ha.
Qed.

Lemma cartKeyed_appended d d' row :
  cartItems d' = (cartItems d ++ [row])%list ->
  nextId d' = S (nextId d) ->
  c_id row = nextId d ->
  (forall c, In c (cartItems d) ->
             c_userId c = c_userId row -> c_productId c <> c_productId row) ->
  cartKeyed d -> cartKeyed d'.
Proof.
  intros E Hn Hid Hnew (Hd & Hb & Hp).
  unfold cartKeyed, cartIdsDistinct, cartIdsBelow, onePerProduct.
  rewrite E, !map_app. cbn [map]. split; [|split].
  - apply NoDup_snoc; [exact Hd|]. intros Hin. apply in_map_iff in Hin.
    destruct Hin as (c & Ec & Hc). apply Hb in Hc. lia.
  - intros c Hc. apply in_app_or in Hc. destruct Hc as [Hc|[<-|[]]].
    + apply Hb in Hc. lia.
    + lia.
  - apply NoDup_snoc; [exact Hp|]. intros Hin. apply in_map_iff in Hin.
    destruct Hin as (c & Ec & Hc). injection Ec as Eu Epr.
    exact (Hnew c Hc Eu Epr).
Qed.

Lemma served_keyed w request : cartKeyed (db w) -> cartKeyed (db (served w request)).
Proof.
  intros HK. destruct request as [userId request]. unfold served. cbn [fst snd].
  destruct request as [productId productName description price quantity imageUrl productUrl
                      | itemId quantity | itemId | | ].
  - destruct (CartRoute.cartAdd _ _ _ _ _ _ _ _ w) as [o w'] eqn:H. cbn [snd].
    apply cartAdd_cases in H. cbv zeta in H.
    destruct H as [(_ & -> & _)|[(item & existing & _ & _ & _ & _ & E & Hn)
                                |(item & _ & Hnew & E & Hn)]].
    + exact HK.
    + apply (cartKeyed_updated _ _ _ _ _ E); [lia|exact HK].
    + apply (cartKeyed_appended _ _ _ E Hn); [reflexivity| |exact HK].
      cbn. exact Hnew.
  - destruct (Routes.cartUpdate _ _ _ w) as [o w'] eqn:H. cbn [snd].
    apply cartUpdate_cases in H.
    destruct H as [(_ & -> & _)|[(_ & -> & _)|(q & item & _ & _ & _ & E & Hn & _)]];
      [exact HK|exact HK|].
    apply (cartKeyed_updated _ _ _ _ _ E); [lia|exact HK].
  - destruct (Routes.cartRemove _ _ w) as [o w'] eqn:H. cbn [snd].
    apply cartRemove_cases in H.
    destruct H as [(_ & -> & _)|(item & _ & E & Hn & _)]; [exact HK|].
    apply (cartKeyed_filtered _ _ _ E); [lia|exact HK].
  - cbn. apply (cartKeyed_filtered (db w) _ (fun c => negb (c_userId c =? userId)%nat));
      [reflexivity|cbn; lia|exact HK].
  - destruct (Routes.checkout _ w) as [o w'] eqn:H. cbn [snd].
    apply checkout_cases in H.
    destruct H as [(_ & _ & ->)|(order & _ & _ & _ & _ & _ & _ & E & Hn)]; [exact HK|].
    apply (cartKeyed_filtered _ _ _ E); [exact Hn|exact HK].
Qed.

Lemma cartsDb_distinct : cartIdsDistinct Fixture2.cartsDb.
Proof.
  unfold cartIdsDistinct. cbn.
  repeat (constructor; [cbn; intuition discriminate|]). constructor.
Qed.

Lemma cartsDb_consistent : cartConsistent Fixture2.cartsDb.
Proof. intros c [<-|[<-|[<-|[]]]]; reflexivity. Qed.

Lemma cartsDb_keyed : cartKeyed Fixture2.cartsDb.
Proof.
  split; [exact cartsDb_distinct|]. split.
  - intros c [<-|[<-|[<-|[]]]]; cbn; lia.
  - unfold onePerProduct. cbn.
    repeat (constructor; [cbn; intuition discriminate|]). constructor.
Qed.

Lemma find_own userId l x :
  NoDup (map c_id l) -> In x l -> c_userId x = userId ->
  find (fun c => (c_id c =? c_id x)%nat && (c_userId c =? userId)%nat) l = Some x.
Proof.
  intros Hnd Hin Hu. induction l as [|a l IH]; [destruct Hin|].
  cbn [map] in Hnd. inversion Hnd as [|? ? Ha Hl]; subst.
  cbn [find]. destruct Hin as [->|Hin].
  - rewrite !Nat.eqb_refl. reflexivity.
  - assert (Hne : (c_id a =? c_id x)%nat = false).
    { apply Nat.eqb_neq. intros E. apply Ha. rewrite E. apply in_map, Hin. }
    rewrite Hne. cbn [andb]. auto.
Qed.

Lemma find_appended userId n l row :
  (forall c, In c l -> c_id c < n) -> c_userId row = userId -> c_id row = n ->
  find (fun c => (c_id c =? n)%nat)
       (filter (fun c => (c_userId c =? userId)%nat) (l ++ [row])%list) = Some row.
Proof.
  intros Hb Hu Hid. induction l as [|a l IH]; cbn [app filter].
  - rewrite Hu, Nat.eqb_refl. cbn [find]. rewrite Hid, Nat.eqb_refl. reflexivity.
  - assert (Hne : (c_id a =? n)%nat = false).
    { apply Nat.eqb_neq. specialize (Hb a (or_introl eq_refl)). lia. }
    assert (IH' := IH (fun c Hc => Hb c (or_intror Hc))).
    destruct (c_userId a =? userId)%nat; [cbn [find]; rewrite Hne|]; exact IH'.
Qed.

(** the typed handler is the handler on a body whose product id and name
    are texts and whose price is a number *)
Lemma cartAdd_typed_body userId productId productName description price quantity
    imageUrl productUrl :
  Routes.cartAddRequest userId (JString productId) (JString productName) description
    (JNumber price) quantity imageUrl productUrl
  = Some (CartRoute.cartAdd userId productId productName description price quantity
            imageUrl productUrl).
Proof.
  unfold Routes.cartAddRequest, CartRoute.cartAdd, CartRoute.Qzero.
  cbn [jsTruthy Routes.toNumber]. rewrite negb_involutive.
  destruct (negb (truthy productId) || negb (truthy productName) || (Qnum price =? 0)%Z);
    reflexivity.
Qed.

(** the transaction of [POST /cart/add]: the row the user has for the
    product is requantified, or one row is appended *)
Lemma cartAddTransaction_cases userId productId productName description price amount
    imageUrl productUrl w o w' :
  CartRoute.cartAddTransaction userId productId productName description price amount
    imageUrl productUrl w = (o, w') ->
  let mine (c : CartItem) := c_userId c = userId /\ c_productId c = productId in
  let appended :=
    {| c_id := nextId (db w); c_userId := userId;
       c_productId := productId; c_productName := productName;
       c_description := description; c_price := price;
       c_quantity := amount; c_total := (price * inject_Z amount)%Q;
       c_imageUrl := imageUrl; c_productUrl := productUrl;
       c_createdAt := now (db w) |} in
  chatSessions (db w') = chatSessions (db w)
  /\ chatMessages (db w') = chatMessages (db w)
  /\ purchaseHistory (db w') = purchaseHistory (db w)
  /\ ( (exists item existing,
          In existing (cartItems (db w)) /\ mine existing
          /\ o = Returned (CartRoute.Processed item
                             (Routes.sumTotals (Routes.userItems userId (db w')))
                             (List.length (Routes.userItems userId (db w'))) true)
          /\ cartItems (db w')
             = map (fun c =>
                      if (c_id c =? c_id existing)%nat
                      then requantified (c_quantity existing + amount)
                             (price * inject_Z (c_quantity existing + amount))%Q c
                      else c) (cartItems (db w))
          /\ (cartIdsDistinct (db w) ->
              item = Some (requantified (c_quantity existing + amount)
                             (price * inject_Z (c_quantity existing + amount))%Q
                             existing)))
       \/ ((forall c, In c (cartItems (db w)) -> ~ mine c)
           /\ exists item,
                o = Returned (CartRoute.Processed item
                                (Routes.sumTotals (Routes.userItems userId (db w')))
                                (List.length (Routes.userItems userId (db w'))) false)
                /\ cartItems (db w') = (cartItems (db w) ++ [appended])%list
                /\ (cartIdsBelow (db w) -> item = Some appended)) ).
Proof.
  intros H mine appended.
  unfold CartRoute.cartAddTransaction, bind, query, ret in H.
  destruct (find _ (cartItems (db w))) as [existing|] eqn:Hf.
  - cbn in H. step_eq H. cbn [db chatSessions chatMessages purchaseHistory].
    repeat (split; [reflexivity|]). left.
    apply find_some in Hf. destruct Hf as [Hin Hk].
    apply andb_true_iff in Hk. destruct Hk as [Hu Hp].
    apply Nat.eqb_eq in Hu. apply String.eqb_eq in Hp.
    eexists. exists existing. split; [exact Hin|]. split; [split; assumption|].
    split; [reflexivity|]. split; [reflexivity|].
    intros Hd. cbn [db cartItems].
    fold (requantified (c_quantity existing + amount)
            (price * inject_Z (c_quantity existing + amount))%Q).
    change (fun c : CartItem =>
              if (c_id c =? c_id existing)%nat
              then {| c_id := c_id c; c_userId := c_userId c;
                      c_productId := c_productId c;
                      c_productName := c_productName c;
                      c_description := c_description c; c_price := c_price c;
                      c_quantity := (c_quantity existing + amount)%Z;
                      c_total := (price * inject_Z (c_quantity existing + amount))%Q;
                      c_imageUrl := c_imageUrl c; c_productUrl := c_productUrl c;
                      c_createdAt := c_createdAt c |}
              else c)
      with (fun c : CartItem =>
              if (c_id c =? c_id existing)%nat
              then requantified (c_quantity existing + amount)
                     (price * inject_Z (c_quantity existing + amount))%Q c
              else c).
    rewrite find_updated, (find_own userId _ existing Hd Hin Hu). reflexivity.
  - cbn in H. step_eq H. cbn [db chatSessions chatMessages purchaseHistory].
    repeat (split; [reflexivity|]). right. split.
    + intros c Hin [Hu Hp]. apply (find_none _ _ Hf) in Hin.
      rewrite Hu, Hp, Nat.eqb_refl, String.eqb_refl in Hin. discriminate.
    + eexists. split; [reflexivity|]. split; [reflexivity|].
      intros Hb. cbn [db cartItems].
      apply (find_appended userId (nextId (db w)) (cartItems (db w)) appended Hb);
        reflexivity.
Qed.

(** X17.  [POST /cart/add] tests the three required fields as the body
    holds them.  When the product id, the product name or the price is
    missing, [null], [false], 0 or the empty text, and only then, it
    answers 400 and writes nothing.  Otherwise, for a product id and name
    that are texts and a price [Number] turns into a number of the model
    (with an integer quantity, 1 when the body has none), it only writes
    the cart: when the user has a row for the product, the quantity sent is
    added to that row and the total is the number of the price SENT times
    the new quantity; when the user has none, one row is appended with a
    fresh id, that number as price and the number times the quantity as
    total.  So the text 0 as price passes the test and gives a row of price
    0.  The total and the count of the answer are those of the cart after
    the write, and in a cart with distinct ids below the generator the
    answer carries the row that was written.  The model is silent exactly
    on the bodies that pass the test with a product id or name that is no
    text or a price without such a number. *)
Theorem X17_cart_add_outcome userId productId productName description price quantity
    imageUrl productUrl :
  let amount := match quantity with Some q => q | None => 1%Z end in
  let valid :=
    jsTruthy productId = true /\ jsTruthy productName = true /\ jsTruthy price = true in
  let typed id name sent :=
    productId = JString id /\ productName = JString name
    /\ Routes.toNumber price = Some sent in
  let request :=
    Routes.cartAddRequest userId productId productName description price quantity
      imageUrl productUrl in
  (request = None <-> valid /\ ~ exists id name sent, typed id name sent)
  /\ (price = JString "0" -> jsTruthy price = true /\ Routes.toNumber price = Some 0%Q)
  /\ forall handler w o w',
       request = Some handler ->
       handler w = (o, w') ->
       chatSessions (db w') = chatSessions (db w)
       /\ chatMessages (db w') = chatMessages (db w)
       /\ purchaseHistory (db w') = purchaseHistory (db w)
       /\ ( (~ valid
             /\ o = Returned
                      (CartRoute.BadRequest "Product ID, name, and price are required")
             /\ w' = w)
            \/ (valid
                /\ exists id name sent,
                     typed id name sent
                     /\ let mine (c : CartItem) :=
                          c_userId c = userId /\ c_productId c = id in
                        let appended :=
                          {| c_id := nextId (db w); c_userId := userId;
                             c_productId := id; c_productName := name;
                             c_description := description; c_price := sent;
                             c_quantity := amount;
                             c_total := (sent * inject_Z amount)%Q;
                             c_imageUrl := imageUrl; c_productUrl := productUrl;
                             c_createdAt := now (db w) |} in
                        (exists item existing,
                           In existing (cartItems (db w)) /\ mine existing
                           /\ o = Returned
                                    (CartRoute.Processed item
                                       (Routes.sumTotals (Routes.userItems userId (db w')))
                                       (List.length (Routes.userItems userId (db w')))
                                       true)
                           /\ cartItems (db w')
                              = map (fun c =>
                                       if (c_id c =? c_id existing)%nat
                                       then requantified (c_quantity existing + amount)
                                              (sent * inject_Z (c_quantity existing + amount))%Q
                                              c
                                       else c) (cartItems (db w))
                           /\ (cartIdsDistinct (db w) ->
                               item = Some (requantified (c_quantity existing + amount)
                                              (sent * inject_Z (c_quantity existing + amount))%Q
                                              existing)))
                        \/ ((forall c, In c (cartItems (db w)) -> ~ mine c)
                            /\ exists item,
                                 o = Returned
                                       (CartRoute.Processed item
                                          (Routes.sumTotals (Routes.userItems userId (db w')))
                                          (List.length (Routes.userItems userId (db w')))
                                          false)
                                 /\ cartItems (db w') = (cartItems (db w) ++ [appended])%list
                                 /\ (cartIdsBelow (db w) -> item = Some appended))) ).
Proof.
  intros amount valid typed request.
  assert (Hvalid : negb (jsTruthy productId) || negb (jsTruthy productName)
                   || negb (jsTruthy price) = false <-> valid).
  { unfold valid. rewrite !orb_false_iff, !negb_false_iff. tauto. }
  unfold request, Routes.cartAddRequest. fold amount.
  destruct (negb (jsTruthy productId) || negb (jsTruthy productName)
            || negb (jsTruthy price)) eqn:Hv.
  - assert (Hn : ~ valid) by (intros V; apply Hvalid in V; discriminate V).
    split; [split; [discriminate|intros [V _]; contradiction]|].
    split; [intros ->; split; reflexivity|].
    intros handler w o w' Hh H. injection Hh as <-. unfold ret in H. step_eq H.
    repeat (split; [reflexivity|]). left. split; [exact Hn|]. split; reflexivity.
  - assert (V : valid) by (apply Hvalid; reflexivity).
    split; [|split].
    + split.
      * intros Hnone. split; [exact V|]. intros (id & name & sent & -> & -> & Hs).
        rewrite Hs in Hnone. discriminate Hnone.
      * intros [_ Hno].
        destruct productId as [| |?|?|id|]; try reflexivity.
        destruct productName as [| |?|?|name|]; try reflexivity.
        destruct (Routes.toNumber price) as [sent|] eqn:Hs; [|reflexivity].
        exfalso. apply Hno. exists id, name, sent. repeat split. 
    + intros ->. split; reflexivity.
    + intros handler w o w' Hh H.
      destruct productId as [| |?|?|id|]; try discriminate Hh.
      destruct productName as [| |?|?|name|]; try discriminate Hh.
      destruct (Routes.toNumber price) as [sent|] eqn:Hs; [|discriminate Hh].
      injection Hh as <-.
      destruct (cartAddTransaction_cases _ _ _ _ _ _ _ _ _ _ _ H)
        as (Hs1 & Hs2 & Hs3 & Hcases).
      split; [exact Hs1|]. split; [exact Hs2|]. split; [exact Hs3|].
      right. split; [exact V|]. exists id, name, sent.
      split; [repeat split|]. exact Hcases.
Qed.

(** user 1 has two mugs and asks for three more: the row has five; and
    user 1 sends a new product with the text 0 as price: a row of price 0
    is appended *)
Lemma X17_cart_add_witness :
  (exists handler o w',
     Routes.cartAddRequest 1 (JString "P") (JString "Mug") "A mug" (JNumber (10 # 1))
       (Some 3%Z) None None = Some handler
     /\ handler {| db := Fixture2.cartsDb; aiLog := [] |} = (o, w')
     /\ exists existing,
          In existing (cartItems Fixture2.cartsDb)
          /\ c_productId existing = "P"
          /\ cartItems (db w')
             = map (fun c => if (c_id c =? c_id existing)%nat
                             then requantified (c_quantity existing + 3)
                                    ((10 # 1) * inject_Z (c_quantity existing + 3))%Q c
                             else c) (cartItems Fixture2.cartsDb))
  /\ (exists handler o w',
        Routes.cartAddRequest 1 (JString "gift") (JString "Gift") "A gift" (JString "0")
          None None None = Some handler
        /\ handler {| db := Fixture2.cartsDb; aiLog := [] |} = (o, w')
        /\ cartItems (db w')
           = (cartItems Fixture2.cartsDb
              ++ [ {| c_id := 20; c_userId := 1; c_productId := "gift";
                      c_productName := "Gift"; c_description := "A gift";
                      c_price := 0%Q; c_quantity := 1%Z; c_total := (0 * inject_Z 1)%Q;
                      c_imageUrl := None; c_productUrl := None;
                      c_createdAt := 20 |} ])%list).
Proof.
  split.
  - eexists. eexists. eexists.
    assert (Hh : Routes.cartAddRequest 1 (JString "P") (JString "Mug") "A mug"
                   (JNumber (10 # 1)) (Some 3%Z) None None = Some _) by reflexivity.
    split; [exact Hh|].
    assert (H : CartRoute.cartAddTransaction 1 "P" "Mug" "A mug" (10 # 1) 3 None None
                  {| db := Fixture2.cartsDb; aiLog := [] |} = (_, _))
      by (vm_compute; reflexivity).
    split; [exact H|].
    destruct (X17_cart_add_outcome 1 (JString "P") (JString "Mug") "A mug"
                (JNumber (10 # 1)) (Some 3%Z) None None) as (_ & _ & Hrun).
    destruct (Hrun _ _ _ _ Hh H)
      as (_ & _ & _ & [(_ & Ho & _)|(_ & id & name & sent & (Hid & _ & Hs) & Hcases)]).
    + discriminate Ho.
    + injection Hid as <-. injection Hs as <-.
      destruct Hcases as [(item & existing & Hin & [_ Hp] & _ & E & _)
                         |(_ & item & Ho & _)].
      * exists existing. split; [exact Hin|]. split; [exact Hp|exact E].
      * discriminate Ho.
  - eexists. eexists. eexists.
    assert (Hh : Routes.cartAddRequest 1 (JString "gift") (JString "Gift") "A gift"
                   (JString "0") None None None = Some _) by reflexivity.
    split; [exact Hh|].
    assert (H : CartRoute.cartAddTransaction 1 "gift" "Gift" "A gift" 0 1 None None
                  {| db := Fixture2.cartsDb; aiLog := [] |} = (_, _))
      by (vm_compute; reflexivity).
    split; [exact H|].
    destruct (X17_cart_add_outcome 1 (JString "gift") (JString "Gift") "A gift"
                (JString "0") None None None) as (_ & _ & Hrun).
    destruct (Hrun _ _ _ _ Hh H)
      as (_ & _ & _ & [(_ & Ho & _)|(_ & id & name & sent & (Hid & Hname & Hs) & Hcases)]).
    + discriminate Ho.
    + injection Hid as <-. injection Hname as <-. injection Hs as <-.
      destruct Hcases as [(item & existing & _ & _ & Ho & _)
                         |(_ & item & _ & E & _)].
      * discriminate Ho.
      * exact E.
Defined.

(** X18.  When the ids of the cart are distinct and the price sent is the
    price of the row the user has for the product, [POST /cart/add] keeps
    [total = price * quantity] in every row of the cart. *)
Theorem X18_cart_add_keeps_totals userId productId productName description price
    quantity imageUrl productUrl w o w' :
  CartRoute.cartAdd userId productId productName description price quantity
    imageUrl productUrl w = (o, w') ->
  cartIdsDistinct (db w) ->
  cartConsistent (db w) ->
  (forall c, In c (cartItems (db w)) ->
             c_userId c = userId -> c_productId c = productId -> c_price c = price) ->
  cartConsistent (db w').
Proof.
  intros H Hd Hc Hprice. apply cartAdd_cases in H. cbv zeta in H.
  destruct H as [(_ & -> & _)|[(item & existing & _ & Hin & Hu & Hp & E & _)
                              |(item & _ & _ & E & _)]].
  - exact Hc.
  - intros c' Hc'. rewrite E in Hc'.
    apply (updated_In _ _ _ existing) in Hc'; [|exact Hd|exact Hin|reflexivity].
    destruct Hc' as [->|[Hc' _]]; [|exact (Hc _ Hc')].
    cbn. rewrite (Hprice existing Hin Hu Hp). reflexivity.
  - intros c' Hc'. rewrite E in Hc'. apply in_app_or in Hc'.
    destruct Hc' as [Hc'|[<-|[]]]; [exact (Hc _ Hc')|reflexivity].
Qed.

Lemma X18_cart_add_keeps_totals_witness :
  exists o w',
    CartRoute.cartAdd 1 "P" "Mug" "A mug" (10 # 1)%Q (Some 3%Z) None None
      {| db := Fixture2.cartsDb; aiLog := [] |} = (o, w')
    /\ cartConsistent (db w').
Proof.
  eexists. eexists.
  assert (H : CartRoute.cartAdd 1 "P" "Mug" "A mug" (10 # 1)%Q (Some 3%Z) None None
                {| db := Fixture2.cartsDb; aiLog := [] |} = (_, _))
    by (vm_compute; reflexivity).
  split; [exact H|].
  apply (X18_cart_add_keeps_totals _ _ _ _ _ _ _ _ _ _ _ H).
  - exact cartsDb_distinct.
  - exact cartsDb_consistent.
  - intros c [<-|[<-|[<-|[]]]]; cbn; intros; try reflexivity; discriminate.
Defined.

(** X19.  [PUT /cart/:itemId] answers in one of three ways.  Without a
    quantity of at least one it answers 400 and writes nothing.  When no
    row of the user has the id, it answers 500 "Cart item not found" and
    writes nothing: a row of another user is never changed through it.
    Otherwise the row gets the quantity and the total of its STORED price
    times the quantity, and the answer carries that row. *)
Theorem X19_cart_update_outcome userId itemId quantity w o w' :
  Routes.cartUpdate userId itemId quantity w = (o, w') ->
  (o = Returned (Error400 "Valid quantity is required") /\ w' = w
   /\ (quantity = None \/ exists q, quantity = Some q /\ (q < 1)%Z))
  \/ (o = Returned (Error500 "Cart item not found") /\ w' = w
      /\ forall c, In c (cartItems (db w)) -> c_id c = itemId -> c_userId c <> userId)
  \/ (exists q item,
        quantity = Some q /\ (1 <= q)%Z
        /\ Routes.ownItem userId itemId (db w) = Some item
        /\ cartItems (db w')
           = map (fun c => if (c_id c =? itemId)%nat
                           then requantified q (c_price item * inject_Z q)%Q c
                           else c) (cartItems (db w))
        /\ nextId (db w') = nextId (db w)
        /\ o = Returned (Json200
                 (Some (requantified q (c_price item * inject_Z q)%Q item),
                  Routes.sumTotals (Routes.userItems userId (db w')),
                  List.length (Routes.userItems userId (db w'))))).
Proof. exact (cartUpdate_cases _ _ _ _ _ _). Qed.

(** user 1 asks for row 11, the row of user 2 *)
Lemma X19_cart_update_witness :
  exists o w',
    Routes.cartUpdate 1 11 (Some 5%Z) {| db := Fixture2.cartsDb; aiLog := [] |} = (o, w')
    /\ o = Returned (Error500 "Cart item not found")
    /\ w' = {| db := Fixture2.cartsDb; aiLog := [] |}.
Proof.
  eexists. eexists.
  assert (H : Routes.cartUpdate 1 11 (Some 5%Z) {| db := Fixture2.cartsDb; aiLog := [] |}
              = (_, _)) by (vm_compute; reflexivity).
  split; [exact H|].
  destruct (X19_cart_update_outcome _ _ _ _ _ _ H)
    as [(Ho & _)|[(Ho & Hw & _)|(q & item & _ & _ & _ & _ & _ & Ho)]].
  - discriminate Ho.
  - split; [exact Ho|exact Hw].
  - discriminate Ho.
Defined.

(** X20.  When the ids of the cart are distinct, a [PUT /cart/:itemId] that
    succeeds changes the row of that id alone, and that row then has
    [total = price * quantity], whatever its total was before: the cart is
    consistent afterwards if its other rows were. *)
Theorem X20_cart_update_sets_total userId itemId quantity w result w' :
  Routes.cartUpdate userId itemId quantity w = (Returned (Json200 result), w') ->
  cartIdsDistinct (db w) ->
  exists q item,
    quantity = Some q
    /\ In item (cartItems (db w)) /\ c_id item = itemId /\ c_userId item = userId
    /\ fst (fst result) = Some (requantified q (c_price item * inject_Z q)%Q item)
    /\ (forall c', In c' (cartItems (db w'))
                   <-> c' = requantified q (c_price item * inject_Z q)%Q item
                       \/ (In c' (cartItems (db w)) /\ c_id c' <> itemId))
    /\ ((forall c, In c (cartItems (db w)) -> c_id c <> itemId ->
                   c_total c = (c_price c * inject_Z (c_quantity c))%Q)
        -> cartConsistent (db w')).
Proof.
  intros H Hd. apply cartUpdate_cases in H.
  destruct H as [(Ho & _)|[(Ho & _)|(q & item & -> & _ & Hf & E & _ & Ho)]];
    try discriminate Ho.
  injection Ho as ->. apply ownItem_Some in Hf. destruct Hf as (Hin & Hid & Hu).
  exists q, item. split; [reflexivity|]. split; [exact Hin|]. split; [exact Hid|].
  split; [exact Hu|]. split; [reflexivity|].
  assert (HIn : forall c', In c' (cartItems (db w'))
                   <-> c' = requantified q (c_price item * inject_Z q)%Q item
                       \/ (In c' (cartItems (db w)) /\ c_id c' <> itemId)).
  { intros c'. rewrite E. apply updated_In; assumption. }
  split; [exact HIn|].
  intros Hc c' Hc'. apply HIn in Hc'. destruct Hc' as [->|[Hc' Hne]].
  - reflexivity.
  - exact (Hc _ Hc' Hne).
Qed.

(** user 1 sets the tee of row 12 to four: the total is 20 * 4 *)
Lemma X20_cart_update_sets_total_witness :
  exists result w',
    Routes.cartUpdate 1 12 (Some 4%Z) {| db := Fixture2.cartsDb; aiLog := [] |}
    = (Returned (Json200 result), w')
    /\ cartConsistent (db w').
Proof.
  eexists. eexists.
  assert (H : Routes.cartUpdate 1 12 (Some 4%Z)
                {| db := Fixture2.cartsDb; aiLog := [] |}
              = (Returned (Json200 _), _)) by (vm_compute; reflexivity).
  split; [exact H|].
  destruct (X20_cart_update_sets_total _ _ _ _ _ _ H cartsDb_distinct)
    as (q & item & _ & _ & _ & _ & _ & _ & Hc).
  apply Hc. intros c Hin _. exact (cartsDb_consistent c Hin).
Defined.

(** X21.  [DELETE /cart/:itemId] answers 500 "Cart item not found" and
    writes nothing when no row of the user has the id; otherwise the rows
    of that id leave the cart, the other rows stay in their order, and,
    the ids being distinct, the user's cart has one row less. *)
Theorem X21_cart_remove_outcome userId itemId w o w' :
  Routes.cartRemove userId itemId w = (o, w') ->
  (o = Returned (Error500 "Cart item not found") /\ w' = w
   /\ forall c, In c (cartItems (db w)) -> c_id c = itemId -> c_userId c <> userId)
  \/ (exists item,
        In item (cartItems (db w)) /\ c_id item = itemId /\ c_userId item = userId
        /\ cartItems (db w')
           = filter (fun c => negb (c_id c =? itemId)%nat) (cartItems (db w))
        /\ o = Returned (Json200 (Routes.sumTotals (Routes.userItems userId (db w')),
                                  List.length (Routes.userItems userId (db w'))))
        /\ (cartIdsDistinct (db w) ->
            S (List.length (Routes.userItems userId (db w')))
            = List.length (Routes.userItems userId (db w)))).
Proof.
  intros H. apply cartRemove_cases in H.
  destruct H as [H|(item & Hf & E & _ & Ho)]; [left; exact H|right].
  apply ownItem_Some in Hf. destruct Hf as (Hin & Hid & Hu).
  exists item. split; [exact Hin|]. split; [exact Hid|]. split; [exact Hu|].
  split; [exact E|]. split; [exact Ho|].
  intros Hd. unfold Routes.userItems. rewrite E.
  apply (removed_length _ _ item); auto. apply Nat.eqb_eq, Hu.
Qed.

(** user 1 removes row 10 and has one row left *)
Lemma X21_cart_remove_witness :
  exists o w',
    Routes.cartRemove 1 10 {| db := Fixture2.cartsDb; aiLog := [] |} = (o, w')
    /\ S (List.length (Routes.userItems 1 (db w')))
       = List.length (Routes.userItems 1 Fixture2.cartsDb).
Proof.
  eexists. eexists.
  assert (H : Routes.cartRemove 1 10 {| db := Fixture2.cartsDb; aiLog := [] |} = (_, _))
    by (vm_compute; reflexivity).
  split; [exact H|].
  destruct (X21_cart_remove_outcome _ _ _ _ _ H)
    as [(Ho & _)|(item & _ & _ & _ & _ & _ & Hlen)].
  - discriminate Ho.
  - exact (Hlen cartsDb_distinct).
Defined.

(** X22.  [DELETE /cart] answers "Cart cleared", leaves the user without a
    row and the carts of the other users as they were. *)
Theorem X22_cart_clear userId w :
  exists w',
    Routes.cartClear userId w = (Returned (Json200 "Cart cleared"), w')
    /\ Routes.userItems userId (db w') = []
    /\ (forall v, v <> userId ->
                  Routes.userItems v (db w') = Routes.userItems v (db w))
    /\ purchaseHistory (db w') = purchaseHistory (db w)
    /\ chatMessages (db w') = chatMessages (db w)
    /\ chatSessions (db w') = chatSessions (db w).
Proof.
  eexists. split; [reflexivity|]. unfold Routes.userItems. cbn [db cartItems].
  split; [|split; [|auto]].
  - rewrite userItems_deleteMany, Nat.eqb_refl. reflexivity.
  - intros v Hv. rewrite userItems_deleteMany.
    apply Nat.eqb_neq in Hv. rewrite Hv. reflexivity.
Qed.

(** user 1 clears the cart: the mug of user 2 stays *)
Lemma X22_cart_clear_witness :
  exists w',
    Routes.cartClear 1 {| db := Fixture2.cartsDb; aiLog := [] |}
    = (Returned (Json200 "Cart cleared"), w')
    /\ Routes.userItems 2 (db w') = Routes.userItems 2 Fixture2.cartsDb.
Proof.
  destruct (X22_cart_clear 1 {| db := Fixture2.cartsDb; aiLog := [] |})
    as (w' & H & _ & Hother & _).
  exists w'. split; [exact H|]. apply Hother. discriminate.
Defined.

(** X23.  [POST /checkout] answers 500 "Cart is empty" and writes nothing
    when the user has no row.  Otherwise it makes one purchase for each row
    of the user, in the order of the rows, with the columns of the row,
    status "completed" and one order id made of the clock and the user id;
    the amount of the order is the sum of the totals of the rows; the
    purchases are appended to the purchase history; the user is left
    without a row and the carts of the other users are as they were. *)
Theorem X23_checkout_outcome userId w o w' :
  Routes.checkout userId w = (o, w') ->
  (Routes.userItems userId (db w) = []
   /\ o = Returned (Error500 "Cart is empty") /\ w' = w)
  \/ (exists order,
        Routes.userItems userId (db w) <> []
        /\ o = Returned (Json200 order)
        /\ Routes.o_orderId order
           = "ORDER_" ++ showNat (now (db w)) ++ "_" ++ showNat userId
        /\ Forall2 (mirrors (Routes.o_orderId order))
             (Routes.userItems userId (db w)) (Routes.o_purchases order)
        /\ Routes.o_totalAmount order
           = Routes.sumTotals (Routes.userItems userId (db w))
        /\ purchaseHistory (db w')
           = (purchaseHistory (db w)
              ++ map purchaseRow (Routes.o_purchases order))%list
        /\ Routes.userItems userId (db w') = []
        /\ (forall v, v <> userId ->
                      Routes.userItems v (db w') = Routes.userItems v (db w))).
Proof.
  intros H. apply checkout_cases in H.
  destruct H as [H|(order & Hne & Ho & Hid & HF & Ht & Hp & E & _)]; [left; exact H|].
  right. exists order. split; [exact Hne|]. split; [exact Ho|]. split; [exact Hid|].
  split; [exact HF|]. split; [exact Ht|]. split; [exact Hp|].
  unfold Routes.userItems. rewrite E. split.
  - rewrite userItems_deleteMany, Nat.eqb_refl. reflexivity.
  - intros v Hv. rewrite userItems_deleteMany.
    apply Nat.eqb_neq in Hv. rewrite Hv. reflexivity.
Qed.

(** user 1 checks out two mugs and a tee: two purchases, 40 in all *)
Lemma X23_checkout_witness :
  exists o w',
    Routes.checkout 1 {| db := Fixture2.cartsDb; aiLog := [] |} = (o, w')
    /\ exists order,
         o = Returned (Json200 order)
         /\ Routes.o_orderId order = "ORDER_20_1"
         /\ List.length (Routes.o_purchases order) = 2
         /\ Routes.userItems 1 (db w') = [].
Proof.
  eexists. eexists.
  assert (H : Routes.checkout 1 {| db := Fixture2.cartsDb; aiLog := [] |} = (_, _))
    by (vm_compute; reflexivity).
  split; [exact H|].
  destruct (X23_checkout_outcome _ _ _ _ H)
    as [(_ & Ho & _)|(order & _ & Ho & Hid & HF & _ & _ & Hempty & _)].
  - discriminate Ho.
  - exists order. split; [exact Ho|]. split; [exact Hid|]. split; [|exact Hempty].
    symmetry. exact (Forall2_length HF).
Defined.

(** X24.  A checkout that succeeded cannot be repeated: the next checkout
    of the user answers 500 "Cart is empty" and writes nothing. *)
Theorem X24_checkout_twice userId w order w' :
  Routes.checkout userId w = (Returned (Json200 order), w') ->
  Routes.checkout userId w' = (Returned (Error500 "Cart is empty"), w').
Proof.
  intros H. apply checkout_cases in H.
  destruct H as [(_ & Ho & _)|(order' & _ & _ & _ & _ & _ & _ & E & _)];
    [discriminate Ho|].
  apply checkout_empty. unfold Routes.userItems.
  rewrite E, userItems_deleteMany, Nat.eqb_refl. reflexivity.
Qed.

Lemma X24_checkout_twice_witness :
  exists order w',
    Routes.checkout 1 {| db := Fixture2.cartsDb; aiLog := [] |}
    = (Returned (Json200 order), w')
    /\ Routes.checkout 1 w' = (Returned (Error500 "Cart is empty"), w').
Proof.
  eexists. eexists.
  assert (H : Routes.checkout 1 {| db := Fixture2.cartsDb; aiLog := [] |}
              = (Returned (Json200 _), _)) by (vm_compute; reflexivity).
  split; [exact H|]. exact (X24_checkout_twice _ _ _ _ H).
Defined.

(** X25.  Whatever requests the cart routes serve, for whatever users and
    in whatever order, the ids of the cart rows stay distinct and below
    the generator, and no user has two rows for one product. *)
Theorem X25_cart_requests_keep_keys requests w :
  cartKeyed (db w) -> cartKeyed (db (servedAll requests w)).
Proof.
  unfold servedAll. revert w.
  induction requests as [|request requests IH]; intros w HK; [exact HK|].
  cbn [fold_left]. apply IH, served_keyed, HK.
Qed.

Lemma X25_cart_requests_witness :
  cartKeyed
    (db (servedAll
           [ (1, AddItem "P" "Mug" "A mug" (10 # 1)%Q (Some 3%Z) None None);
             (2, Checkout);
             (1, UpdateItem 12 (Some 4%Z));
             (3, AddItem "P" "Mug" "A mug" (10 # 1)%Q None None None);
             (1, RemoveItem 10);
             (3, ClearCart) ]
           {| db := Fixture2.cartsDb; aiLog := [] |})).
Proof. apply X25_cart_requests_keep_keys. exact cartsDb_keyed. Defined.

Lemma Forall2_In_r {A B} (R : A -> B -> Prop) l l' b :
  Forall2 R l l' -> In b l' -> exists a, In a l /\ R a b.
Proof.
  induction 1 as [|a b' l l' HR _ IH]; cbn; [tauto|].
  intros [<-|Hb].
  - exists a. auto.
  - destruct (IH Hb) as (a0 & Ha0 & HR0). exists a0. auto.
Qed.

(** X26.  After a checkout that succeeded, [GET /purchases] of the user
    lists every purchase of the order, and every purchase it listed before:
    it is longer by the number of rows the cart had. *)
Theorem X26_checkout_then_purchases userId w order w' :
  Routes.checkout userId w = (Returned (Json200 order), w') ->
  (forall p, In p (Routes.o_purchases order) ->
             In (purchaseRow p) (Routes.purchases userId (db w')))
  /\ (forall r, In r (Routes.purchases userId (db w)) ->
                In r (Routes.purchases userId (db w')))
  /\ List.length (Routes.purchases userId (db w'))
     = List.length (Routes.purchases userId (db w))
       + List.length (Routes.userItems userId (db w)).
Proof.
  intros H. apply checkout_cases in H.
  destruct H as [(_ & Ho & _)|(order' & _ & Ho & _ & HF & _ & Hp & _)];
    [discriminate Ho|].
  injection Ho as <-.
  assert (Hown : forall p, In p (Routes.o_purchases order) ->
                           (ph_userId (purchaseRow p) =? userId)%nat = true).
  { intros p Hin. destruct (Forall2_In_r _ _ _ _ HF Hin) as (item & Hitem & Hm).
    destruct Hm as (Hu & _). apply filter_In in Hitem. destruct Hitem as [_ Hitem].
    cbn. rewrite Hu. exact Hitem. }
  unfold Routes.purchases. rewrite Hp, filter_app. split; [|split].
  - intros p Hin. apply orderByDesc_In, in_or_app. right.
    apply filter_In. split; [apply in_map, Hin|apply Hown, Hin].
  - intros r Hr. apply orderByDesc_In. apply orderByDesc_In in Hr.
    apply in_or_app. left. exact Hr.
  - rewrite !orderByDesc_length', List.length_app. f_equal.
    rewrite forallb_filter_id.
    + rewrite List.length_map. symmetry. exact (Forall2_length HF).
    + apply forallb_forall. intros r Hr. apply in_map_iff in Hr.
      destruct Hr as (p & <- & Hin). apply Hown, Hin.
Qed.

Lemma X26_checkout_then_purchases_witness :
  exists order w',
    Routes.checkout 1 {| db := Fixture2.cartsDb; aiLog := [] |}
    = (Returned (Json200 order), w')
    /\ List.length (Routes.purchases 1 (db w')) = 2.
Proof.
  eexists. eexists.
  assert (H : Routes.checkout 1 {| db := Fixture2.cartsDb; aiLog := [] |}
              = (Returned (Json200 _), _)) by (vm_compute; reflexivity).
  split; [exact H|].
  destruct (X26_checkout_then_purchases _ _ _ _ H) as (_ & _ & Hlen).
  rewrite Hlen. reflexivity.
Defined.
